(** * printf_df codec: the one-shot and the incremental decoder

    A shallow embedding of [printf_df_codec.py].  Python values are modelled
    as follows: a [bytes] object is a list of [byte]; a [str] is the list of
    its Unicode code points; an [int] is a [Z]; a raised exception is the
    [Raise] case of [result].  The interpreter's [%] operator (printf-style
    string formatting) is not part of the codec: the decoders are stated for
    an arbitrary formatter, taken as a section variable. *)

From Stdlib Require Import Ascii String ZArith NArith Bool List Lia.
From Stdlib.Strings Require Import Byte.
From Stdlib Require Import DecimalString.
From Equations Require Import Equations.
Import ListNotations.

Set Implicit Arguments.
Local Open Scope Z_scope.

(** ** Python values *)

Definition pystr := list N.
Definition bytes := list byte.

Definition ch (a : ascii) : N := N_of_ascii a.
Definition lit (s : string) : pystr := map N_of_ascii (list_ascii_of_string s).
Arguments ch a%_char.
Arguments lit s%_string.

(** [chr(val)] for an element of a [bytes] object. *)
Definition chr (val : byte) : N := Byte.to_N val.

(** The value of an element of a [bytes] object, as an [int]. *)
Definition int_of_byte (val : byte) : Z := Z.of_N (Byte.to_N val).

Inductive pyval :=
| VInt (z : Z)
| VFloat (bits : Z)          (* an IEEE single, by its 32-bit pattern *)
| VStr (s : pystr).

Inductive exn :=
| TypeError | ValueError | OverflowError | IndexError | KeyError
| UnboundLocalError | UnicodeDecodeError | UnicodeEncodeError
| struct_error | NotImplementedError.

Inductive result (A : Type) :=
| Ok (a : A)
| Raise (e : exn).
Arguments Raise {A} e.

Definition bind {A B} (m : result A) (k : A -> result B) : result B :=
  match m with
  | Ok a => k a
  | Raise e => Raise e
  end.

Notation "x <- m ;; k" := (bind m (fun x => k))
  (at level 61, m at next level, right associativity).
Notation "' pat <- m ;; k" := (bind m (fun x => match x with pat => k end))
  (at level 61, pat pattern, m at next level, right associativity).

(** [len(x)] *)
Definition py_len {A} (l : list A) : Z := Z.of_nat (List.length l).

(** ** Sequence operations of the interpreter *)

(** A slice bound, as Python normalises it against the length. *)
Definition clamp (n i : Z) : Z :=
  if i <? 0 then Z.max 0 (i + n) else Z.min i n.

(** [l[lo:hi]]; [None] is an omitted bound. *)
Definition slice {A} (l : list A) (lo hi : option Z) : list A :=
  let lo' := match lo with None => 0 | Some i => clamp (py_len l) i end in
  let hi' := match hi with None => py_len l | Some i => clamp (py_len l) i end in
  firstn (Z.to_nat (hi' - lo')) (skipn (Z.to_nat lo') l).

(** [l[i]] *)
Definition item {A} (l : list A) (i : Z) : result A :=
  let i' := if i <? 0 then i + py_len l else i in
  if i' <? 0 then Raise IndexError
  else match nth_error l (Z.to_nat i') with
       | Some x => Ok x
       | None => Raise IndexError
       end.

(** [data.split(b'\xA5', 1)]: the part before the first marker and, when
    there is a marker, the part after it. *)
Fixpoint split_marker (data : bytes) : bytes * option bytes :=
  match data with
  | [] => ([], None)
  | b :: rest =>
      if Byte.eqb b xa5 then ([], Some rest)
      else let (h, t) := split_marker rest in (b :: h, t)
  end.

(** [data.find(b'\0')] *)
Fixpoint find_nul (data : bytes) : Z :=
  match data with
  | [] => -1
  | b :: rest =>
      if Byte.eqb b x00 then 0
      else let k := find_nul rest in if k <? 0 then -1 else k + 1
  end.

(** [str(n)] for an [int]. *)
Definition str_of_int (z : Z) : pystr :=
  lit (NilZero.string_of_int (Z.to_int z)).

(** The error handler of a codec call: ['strict'], ['replace'], ['ignore']. *)
Inductive errors_policy := strict | replace | ignore.

Definition decode_ascii_byte (errors : errors_policy) (b : byte) : result pystr :=
  if (Byte.to_N b <? 128)%N then Ok [Byte.to_N b]
  else match errors with
       | strict => Raise UnicodeDecodeError
       | replace => Ok [65533%N]
       | ignore => Ok []
       end.

(** [data.decode('ascii', errors)] *)
Fixpoint decode_ascii (errors : errors_policy) (data : bytes) : result pystr :=
  match data with
  | [] => Ok []
  | b :: rest =>
      s <- decode_ascii_byte errors b ;;
      t <- decode_ascii errors rest ;;
      Ok (s ++ t)
  end.

(** [s.encode('ascii')] *)
Fixpoint encode_ascii (s : pystr) : result bytes :=
  match s with
  | [] => Ok []
  | c :: rest =>
      if (c <? 128)%N then
        match Byte.of_N c with
        | Some b => t <- encode_ascii rest ;; Ok (b :: t)
        | None => Raise UnicodeEncodeError
        end
      else Raise UnicodeEncodeError
  end.

(** ** The [struct] module, for the formats the codec uses *)

Fixpoint le_unsigned (data : bytes) : Z :=
  match data with
  | [] => 0
  | b :: rest => int_of_byte b + 256 * le_unsigned rest
  end.

Definition le_signed (data : bytes) : Z :=
  let u := le_unsigned data in
  let m := 2 ^ (8 * py_len data) in
  if u <? m / 2 then u else u - m.

(** [s == t] for two strings. *)
Fixpoint str_eqb (s t : pystr) : bool :=
  match s, t with
  | [], [] => true
  | a :: s', b :: t' => (a =? b)%N && str_eqb s' t'
  | _, _ => false
  end.

(** [struct.calcsize(fmt)] *)
Definition calcsize (fmt : pystr) : result Z :=
  if str_eqb fmt (lit "<i") || str_eqb fmt (lit "<I") || str_eqb fmt (lit "<f") then Ok 4
  else if str_eqb fmt (lit "<h") || str_eqb fmt (lit "<H") then Ok 2
  else if str_eqb fmt (lit "<b") || str_eqb fmt (lit "<B") then Ok 1
  else Raise struct_error.

(** [struct.unpack(fmt, data)[0]] *)
Definition unpack (fmt : pystr) (data : bytes) : result pyval :=
  n <- calcsize fmt ;;
  if negb (py_len data =? n) then Raise struct_error
  else if str_eqb fmt (lit "<i") || str_eqb fmt (lit "<h") || str_eqb fmt (lit "<b")
       then Ok (VInt (le_signed data))
  else if str_eqb fmt (lit "<f") then Ok (VFloat (le_unsigned data))
  else Ok (VInt (le_unsigned data)).

(** [x in s] for a set of characters, and the two dictionaries' operations. *)
Definition in_set (c : N) (s : list N) : bool := existsb (N.eqb c) s.

Fixpoint dict_get {K V} (eqb : K -> K -> bool) (d : list (K * V)) (k : K) : result V :=
  match d with
  | [] => Raise KeyError
  | (k', v) :: d' => if eqb k k' then Ok v else dict_get eqb d' k
  end.

Definition dict_in {K V} (eqb : K -> K -> bool) (d : list (K * V)) (k : K) : bool :=
  existsb (fun kv => eqb k (fst kv)) d.

(** ** Helper data structures and functions *)

Definition VALUE_FORMAT : list (pystr * pystr) :=
  [ (lit "d", lit "<i"); (lit "u", lit "<I"); (lit "o", lit "<I");
    (lit "x", lit "<I"); (lit "X", lit "<I");
    (lit "hd", lit "<h"); (lit "hu", lit "<H"); (lit "ho", lit "<H");
    (lit "hx", lit "<H"); (lit "hX", lit "<H");
    (lit "hhd", lit "<b"); (lit "hhu", lit "<B"); (lit "hho", lit "<B");
    (lit "hhx", lit "<B"); (lit "hhX", lit "<B") ].

Definition SPECIAL_CHARS : list (N * N) :=
  [ (216%N, ch "X"); (228%N, ch "d"); (233%N, ch "i");
    (239%N, ch "o"); (245%N, ch "u"); (248%N, ch "x") ].

Definition NON_VALUE_CHARS : list N := [ch "c"; ch "s"; ch "%"; 0%N].
Definition FLOAT_VAL_CHARS : list N :=
  [ch "e"; ch "E"; ch "f"; ch "F"; ch "g"; ch "G"].

Definition SPECIFIER_CHARS : list N :=
  map snd SPECIAL_CHARS ++ map fst SPECIAL_CHARS
  ++ NON_VALUE_CHARS ++ FLOAT_VAL_CHARS.

(** [c in VALUE_FORMAT] and [c in SPECIAL_CHARS] for a one-character [c]. *)
Definition in_VALUE_FORMAT (c : N) : bool := dict_in str_eqb VALUE_FORMAT [c].
Definition in_SPECIAL_CHARS (c : N) : bool := dict_in N.eqb SPECIAL_CHARS c.

Definition len_char_set : list N :=
  [ch "h"; ch "l"; ch "L"; ch "j"; ch "z"; ch "t"].

(** [parse_length_chars(print_fmt, val_char)]; [val_char] is [None] when the
    argument is omitted. *)
Definition parse_length_chars (print_fmt : pystr) (val_char : option pystr)
  : result (pystr * pystr) :=
  l <- item print_fmt (-1) ;;
  '(print_fmt, len_chars) <-
    (if in_set l len_char_set then
       let c := l in
       let print_fmt := slice print_fmt None (Some (-1)) in
       '(print_fmt, len_chars) <-
         (if (c =? ch "h")%N then
            l' <- item print_fmt (-1) ;;
            if (l' =? ch "h")%N
            then Ok (slice print_fmt None (Some (-1)), [c; l'])
            else Ok (print_fmt, [c])
          else Ok (print_fmt, [])) ;;
       (if (c =? ch "l")%N then
          l' <- item print_fmt (-1) ;;
          if (l' =? ch "l")%N
          then Ok (slice print_fmt None (Some (-1)), len_chars)
          else Ok (print_fmt, len_chars)
        else Ok (print_fmt, len_chars))
     else Ok (print_fmt, [])) ;;
  match val_char with
  | Some ((_ :: _) as val_char) => Ok (print_fmt ++ val_char, len_chars ++ val_char)
  | _ => Ok (print_fmt, len_chars)
  end.

(** The interpreter's [print_fmt % val], for a [val] that is not a tuple. *)
Definition formatter := pystr -> pyval -> result pystr.

(** What the [try] statement of [sprintf] makes of an exception [e]. *)
Definition caught (e : exn) (print_fmt : pystr) : result pystr :=
  match e with
  | TypeError => Ok print_fmt
  | _ => Raise e
  end.

(** [sprintf(print_fmt, val)]: only [TypeError] is caught. *)
Definition sprintf (fmt_op : formatter) (print_fmt : pystr) (val : pyval)
  : result pystr :=
  match fmt_op print_fmt val with
  | Raise TypeError => Ok print_fmt
  | res => res
  end.

(** ** The one-shot decoder: [printf_decode] *)

(** What a record contributes to the output: a template rendered against a
    value by [sprintf], or literal text. *)
Inductive record_text :=
| Render (print_fmt : pystr) (val : pyval)
| Literal (text : pystr).

(** The arguments that the dispatch on the terminal character (lines
    132-163) passes to [sprintf], or the text it appends as it is, with the
    new [i]. *)
Definition record (errors : errors_policy) (print_data : bytes) (i : Z)
    (print_fmt : pystr) (c : N) : result (record_text * Z) :=
  if in_VALUE_FORMAT c then
    '(print_fmt, val_fmt) <-
      parse_length_chars (slice print_fmt None (Some (-1))) (Some [c]) ;;
    val_fmt <- dict_get str_eqb VALUE_FORMAT val_fmt ;;
    val_len <- calcsize val_fmt ;;
    v <- unpack val_fmt (slice print_data (Some i) (Some (i + val_len))) ;;
    Ok (Render print_fmt v, i + val_len)
  else if in_SPECIAL_CHARS c then
    letter <- dict_get N.eqb SPECIAL_CHARS c ;;
    '(print_fmt, _) <-
      parse_length_chars (slice print_fmt None (Some (-1))) (Some [letter]) ;;
    b <- item print_data i ;;
    Ok (Render print_fmt (VInt (int_of_byte b)), i + 1)
  else if in_set c FLOAT_VAL_CHARS then
    v <- unpack (lit "<f") (slice print_data (Some i) (Some (i + 4))) ;;
    Ok (Render print_fmt v, i + 4)
  else if (c =? ch "%")%N then Ok (Literal (lit "%"), i)
  else if (c =? ch "c")%N then
    b <- item print_data i ;;
    Ok (Render print_fmt (VInt (int_of_byte b)), i + 1)
  else if (c =? ch "s")%N then
    let end_ := find_nul (slice print_data (Some i) None) in
    s <- decode_ascii errors (slice print_data (Some i) (Some (i + end_))) ;;
    Ok (Render print_fmt (VStr s), i + end_ + 1)
  else
    l <- item print_fmt (-1) ;;
    let print_fmt :=
      if (l =? 0)%N then slice print_fmt None (Some (-1)) else print_fmt in
    Ok (Literal print_fmt, i).

Section OneShot.

Variable fmt_op : formatter.

(** The inner [while] loop (lines 119-130).  [rest] is [print_data[i:]];
    [c] is the local variable of that name, [None] while it is unbound.
    The result is the triple [(i, print_fmt, c)] at the loop's exit. *)
Fixpoint scan (rest : bytes) (i : Z) (print_fmt : pystr) (c : option N)
  : result (Z * pystr * option N) :=
  match rest with
  | [] => Ok (i, print_fmt, c)
  | b :: rest' =>
      let c := chr b in
      if (c =? ch "*")%N then
        match rest' with
        | [] => Raise IndexError
        | w :: rest'' =>
            let i := i + 1 in
            let print_fmt := print_fmt ++ str_of_int (int_of_byte w) in
            let i := i + 1 in
            if in_set c SPECIFIER_CHARS then Ok (i, print_fmt, Some c)
            else scan rest'' i print_fmt (Some c)
        end
      else
        let print_fmt := if (c =? 0)%N then print_fmt else print_fmt ++ [c] in
        let i := i + 1 in
        if in_set c SPECIFIER_CHARS then Ok (i, print_fmt, Some c)
        else scan rest' i print_fmt (Some c)
  end.

(** The dispatch on the terminal character (lines 132-163): the text that is
    appended to [r], and the new [i]. *)
Definition render (errors : errors_policy) (print_data : bytes) (i : Z)
    (print_fmt : pystr) (c : N) : result (pystr * Z) :=
  if in_VALUE_FORMAT c then
    '(print_fmt, val_fmt) <-
      parse_length_chars (slice print_fmt None (Some (-1))) (Some [c]) ;;
    val_fmt <- dict_get str_eqb VALUE_FORMAT val_fmt ;;
    val_len <- calcsize val_fmt ;;
    v <- unpack val_fmt (slice print_data (Some i) (Some (i + val_len))) ;;
    t <- sprintf fmt_op print_fmt v ;;
    Ok (t, i + val_len)
  else if in_SPECIAL_CHARS c then
    letter <- dict_get N.eqb SPECIAL_CHARS c ;;
    '(print_fmt, _) <-
      parse_length_chars (slice print_fmt None (Some (-1))) (Some [letter]) ;;
    b <- item print_data i ;;
    t <- sprintf fmt_op print_fmt (VInt (int_of_byte b)) ;;
    Ok (t, i + 1)
  else if in_set c FLOAT_VAL_CHARS then
    v <- unpack (lit "<f") (slice print_data (Some i) (Some (i + 4))) ;;
    t <- sprintf fmt_op print_fmt v ;;
    Ok (t, i + 4)
  else if (c =? ch "%")%N then Ok (lit "%", i)
  else if (c =? ch "c")%N then
    b <- item print_data i ;;
    t <- sprintf fmt_op print_fmt (VInt (int_of_byte b)) ;;
    Ok (t, i + 1)
  else if (c =? ch "s")%N then
    let end_ := find_nul (slice print_data (Some i) None) in
    s <- decode_ascii errors (slice print_data (Some i) (Some (i + end_))) ;;
    let i := i + end_ + 1 in
    t <- sprintf fmt_op print_fmt (VStr s) ;;
    Ok (t, i)
  else
    l <- item print_fmt (-1) ;;
    let print_fmt :=
      if (l =? 0)%N then slice print_fmt None (Some (-1)) else print_fmt in
    Ok (print_fmt, i).

(** One pass of the outer loop's body up to line 163, on the segment
    [print_data] that follows a marker: the text appended to [r], the
    terminal character left in [c], and the final [i]. *)
Definition decode_segment (errors : errors_policy) (print_data : bytes)
    (c : option N) : result (pystr * option N * Z) :=
  '(i, print_fmt, c) <- scan print_data 0 (lit "%") c ;;
  match c with
  | None => Raise UnboundLocalError
  | Some c' =>
      '(t, i) <- render errors print_data i print_fmt c' ;;
      Ok (t, c, i)
  end.

Definition inspect {A} (a : A) : {b : A | a = b} := exist _ a eq_refl.

(** The outer [while] loop (lines 112-166), entered with the segment after
    the first marker. *)
Equations? decode_loop (errors : errors_policy) (print_data : bytes)
    (r : pystr) (c : option N) : result pystr
    by wf (List.length print_data) lt :=
  decode_loop errors print_data r c with decode_segment errors print_data c => {
    | Raise e => Raise e
    | Ok (t, c', i) with inspect (split_marker (slice print_data (Some i) None)) => {
        | exist _ (seg0, seg1) Hsplit with decode_ascii errors seg0 => {
            | Raise e => Raise e
            | Ok text with seg1 => {
                | None => Ok ((r ++ t) ++ text)
                | Some next => decode_loop errors next ((r ++ t) ++ text) c' } } } }.
Proof.
  assert (Hshorter : forall data h,
            split_marker data = (h, Some next) ->
            (List.length next < List.length data)%nat).
  { induction data as [|b data IH]; intros h; simpl; [discriminate|].
    destruct (Byte.eqb b xa5); [intros [= _ <-]; lia|].
    destruct (split_marker data) as [h' t'].
    intros [= _ ->]. specialize (IH h' eq_refl). lia. }
  apply Hshorter in Hsplit. unfold slice in Hsplit.
  rewrite List.length_firstn, List.length_skipn in Hsplit. lia.
Qed.

(** [printf_decode(data, errors)] *)
Definition printf_decode (data : bytes) (errors : errors_policy)
  : result (pystr * Z) :=
  let data_split := split_marker data in
  r <- decode_ascii errors (fst data_split) ;;
  r <- match snd data_split with
       | None => Ok r
       | Some print_data => decode_loop errors print_data r None
       end ;;
  Ok (r, py_len r).

(** Lines 165-166 and the iterations that follow them: the input [data] that
    is left after a record, with the text [r] so far and the stale [c]. *)
Definition decode_rest (errors : errors_policy) (data : bytes) (r : pystr)
    (c : option N) : result pystr :=
  let data_split := split_marker data in
  text <- decode_ascii errors (fst data_split) ;;
  match snd data_split with
  | None => Ok (r ++ text)
  | Some print_data => decode_loop errors print_data (r ++ text) c
  end.

(** The text that claim C10 ascribes to an "s" record whose payload has no
    NUL byte: the template rendered against all the remaining bytes but the
    last, followed by the remaining bytes as literal text. *)
Definition s_record_as_claimed (errors : errors_policy) (print_fmt : pystr)
    (remaining : bytes) : result pystr :=
  s <- decode_ascii errors (slice remaining None (Some (-1))) ;;
  t <- sprintf fmt_op print_fmt (VStr s) ;;
  text <- decode_ascii errors remaining ;;
  Ok (t ++ text).

End OneShot.

(** ** The incremental decoder: class [Printf_IncrementalDecoder] *)

Module Printf_IncrementalDecoder.

Inductive phase :=
| FIND_FMT_START | FIND_FMT_END | CAP_VALUE | CAP_TEXT | CAP_WILD.

(** The class constants. *)
Definition tag (p : phase) : Z :=
  match p with
  | FIND_FMT_START => 0
  | FIND_FMT_END => 1
  | CAP_VALUE => 2
  | CAP_TEXT => 3
  | CAP_WILD => 4
  end.

Definition phase_eqb (p q : phase) : bool := tag p =? tag q.

(** The attributes of an instance.  [len] is the attribute that the ['c']
    branch of [decode] creates; it is [None] until then. *)
Record decoder := mk {
  errors : errors_policy;
  print_fmt : pystr;
  data_buffer : bytes;
  val_len : Z;
  val_fmt : pystr;
  state : phase;
  len : option Z
}.

Definition set_print_fmt (x : pystr) (self : decoder) : decoder :=
  mk (errors self) x (data_buffer self) (val_len self) (val_fmt self)
     (state self) (len self).
Definition set_data_buffer (x : bytes) (self : decoder) : decoder :=
  mk (errors self) (print_fmt self) x (val_len self) (val_fmt self)
     (state self) (len self).
Definition set_val_len (x : Z) (self : decoder) : decoder :=
  mk (errors self) (print_fmt self) (data_buffer self) x (val_fmt self)
     (state self) (len self).
Definition set_val_fmt (x : pystr) (self : decoder) : decoder :=
  mk (errors self) (print_fmt self) (data_buffer self) (val_len self) x
     (state self) (len self).
Definition set_state (x : phase) (self : decoder) : decoder :=
  mk (errors self) (print_fmt self) (data_buffer self) (val_len self)
     (val_fmt self) x (len self).
Definition set_len (x : option Z) (self : decoder) : decoder :=
  mk (errors self) (print_fmt self) (data_buffer self) (val_len self)
     (val_fmt self) (state self) x.

(** [__init__(errors)] *)
Definition init (errors : errors_policy) : decoder :=
  mk errors [] [] 0 [] FIND_FMT_START None.

(** [reset()] *)
Definition reset (self : decoder) : decoder :=
  mk (errors self) [] [] 0 [] FIND_FMT_START (len self).

(** [getstate()] *)
Definition getstate (self : decoder) : result (bytes * Z) :=
  b <- encode_ascii (print_fmt self) ;;
  Ok (b ++ data_buffer self, tag (state self)).

Section Decode.

Variable fmt_op : formatter.

(** The body of the [for] loop of [decode] for one element [val] of the
    input: the instance afterwards, and the text appended to [r] or the
    exception that leaves the loop. *)
Definition step (self : decoder) (val : byte) : decoder * result pystr :=
  let c := chr val in
  match state self with
  | FIND_FMT_START =>
      if (c =? 165)%N then
        let self := reset self in
        let self := set_print_fmt (lit "%") self in
        let self := set_state FIND_FMT_END self in
        (self, Ok [])
      else if negb (c =? 0)%N then (self, Ok [c])
      else (self, Ok [])
  | FIND_FMT_END =>
      let self := set_print_fmt (print_fmt self ++ [c]) self in
      if in_VALUE_FORMAT c then
        match parse_length_chars
                (slice (print_fmt self) None (Some (-1))) (Some [c]) with
        | Raise e => (self, Raise e)
        | Ok (pf, vf) =>
            let self := set_val_fmt vf (set_print_fmt pf self) in
            match dict_get str_eqb VALUE_FORMAT (val_fmt self) with
            | Raise e => (self, Raise e)
            | Ok vf =>
                let self := set_val_fmt vf self in
                match calcsize (val_fmt self) with
                | Raise e => (self, Raise e)
                | Ok n =>
                    let self := set_val_len n self in
                    (set_state CAP_VALUE self, Ok [])
                end
            end
        end
      else if in_SPECIAL_CHARS c then
        match (letter <- dict_get N.eqb SPECIAL_CHARS c ;;
               parse_length_chars
                 (slice (print_fmt self) None (Some (-1))) (Some [letter])) with
        | Raise e => (self, Raise e)
        | Ok (pf, _) =>
            let self := set_print_fmt pf self in
            let self := set_val_fmt (lit "<B") self in
            let self := set_val_len 1 self in
            (set_state CAP_VALUE self, Ok [])
        end
      else if in_set c FLOAT_VAL_CHARS then
        let self := set_val_fmt (lit "<f") self in
        let self := set_val_len 4 self in
        (set_state CAP_VALUE self, Ok [])
      else if in_set c NON_VALUE_CHARS then
        if (c =? ch "c")%N then
          let self := set_val_fmt (lit "<B") self in
          let self := set_len (Some 1) self in
          (set_state CAP_VALUE self, Ok [])
        else if (c =? ch "s")%N then (set_state CAP_TEXT self, Ok [])
        else if (c =? ch "%")%N then (self, Ok (lit "%"))
        else (self, Ok (print_fmt self))
      else if (c =? ch "*")%N then
        let self :=
          set_print_fmt (slice (print_fmt self) (Some 0) (Some (-1))) self in
        (set_state CAP_WILD self, Ok [])
      else (self, Ok [])
  | CAP_VALUE =>
      let self := set_data_buffer (data_buffer self ++ [val]) self in
      if py_len (data_buffer self) =? val_len self then
        let self := set_state FIND_FMT_START self in
        (self, v <- unpack (val_fmt self) (data_buffer self) ;;
               sprintf fmt_op (print_fmt self) v)
      else (self, Ok [])
  | CAP_TEXT =>
      if int_of_byte val =? 0 then
        match (s <- decode_ascii (errors self) (data_buffer self) ;;
               sprintf fmt_op (print_fmt self) (VStr s)) with
        | Raise e => (self, Raise e)
        | Ok t => (set_state FIND_FMT_START self, Ok t)
        end
      else (set_data_buffer (data_buffer self ++ [val]) self, Ok [])
  | CAP_WILD =>
      let self :=
        set_print_fmt (print_fmt self ++ str_of_int (int_of_byte val)) self in
      (set_state FIND_FMT_END self, Ok [])
  end.

(** The [for] loop of [decode], entered with the text [r] so far. *)
Fixpoint feed (self : decoder) (input : bytes) (r : pystr)
  : decoder * result pystr :=
  match input with
  | [] => (self, Ok r)
  | val :: rest =>
      match step self val with
      | (self, Raise e) => (self, Raise e)
      | (self, Ok t) => feed self rest (r ++ t)
      end
  end.

(** [decode(input, final)] *)
Definition decode (self : decoder) (input : bytes) (final : bool)
  : decoder * result pystr :=
  match feed self input [] with
  | (self, Raise e) => (self, Raise e)
  | (self, Ok r) =>
      if final && negb (phase_eqb (state self) FIND_FMT_START) then
        match decode_ascii (errors self) (data_buffer self) with
        | Raise e => (self, Raise e)
        | Ok t => (reset self, Ok ((r ++ print_fmt self) ++ t))
        end
      else (self, Ok r)
  end.

(** [setstate(state)]: the instance afterwards, and the exception if the
    replay raised one. *)
Definition setstate (self : decoder) (st : bytes * Z) : decoder * result unit :=
  let self := reset self in
  match decode self (fst st) false with
  | (self, Raise e) => (self, Raise e)
  | (self, Ok _) => (self, Ok tt)
  end.

(** [setstate(getstate())] *)
Definition setstate_getstate (self : decoder) : decoder * result unit :=
  match getstate self with
  | Raise e => (self, Raise e)
  | Ok st => setstate self st
  end.

(** A decoding session: [decode(chunk)] for each chunk in turn, then the
    final call [decode(b'', final=True)]; the texts returned are
    concatenated. *)
Fixpoint decode_chunks (self : decoder) (chunks : list bytes)
  : decoder * result pystr :=
  match chunks with
  | [] => decode self [] true
  | chunk :: chunks =>
      match decode self chunk false with
      | (self, Raise e) => (self, Raise e)
      | (self, Ok t) =>
          match decode_chunks self chunks with
          | (self, Raise e) => (self, Raise e)
          | (self, Ok u) => (self, Ok (t ++ u))
          end
      end
  end.

End Decode.

End Printf_IncrementalDecoder.

(** ** The interpreter's [%] on integer and string arguments

    A model of CPython's [str % val] for one argument that is not a tuple,
    following [unicode_format] (flags, width, precision, length prefix,
    conversion).  The text of a floating-point number and the [repr] of a
    string are produced by routines that are not modelled: a conversion that
    needs one of them is reported as [NotImplementedError].  The decoders
    above do not depend on this model; it serves to run them on records with
    integer and string arguments. *)

Module PyFormat.

Record flags := mkflags {
  F_LJUST : bool; F_SIGN : bool; F_BLANK : bool; F_ALT : bool; F_ZERO : bool
}.

Definition PY_SSIZE_T_MAX : Z := 2 ^ 63 - 1.
Definition INT_MAX : Z := 2 ^ 31 - 1.

Definition is_digit (c : N) : bool := ((48 <=? c) && (c <=? 57))%N.
Definition digit_val (c : N) : Z := Z.of_N c - 48.

Fixpoint parse_flags (fmt : pystr) (fl : flags) : flags * pystr :=
  match fmt with
  | c :: rest =>
      if (c =? ch "-")%N then
        parse_flags rest (mkflags true (F_SIGN fl) (F_BLANK fl) (F_ALT fl) (F_ZERO fl))
      else if (c =? ch "+")%N then
        parse_flags rest (mkflags (F_LJUST fl) true (F_BLANK fl) (F_ALT fl) (F_ZERO fl))
      else if (c =? ch " ")%N then
        parse_flags rest (mkflags (F_LJUST fl) (F_SIGN fl) true (F_ALT fl) (F_ZERO fl))
      else if (c =? ch "#")%N then
        parse_flags rest (mkflags (F_LJUST fl) (F_SIGN fl) (F_BLANK fl) true (F_ZERO fl))
      else if (c =? ch "0")%N then
        parse_flags rest (mkflags (F_LJUST fl) (F_SIGN fl) (F_BLANK fl) (F_ALT fl) true)
      else (fl, fmt)
  | [] => (fl, [])
  end.

(** A run of decimal digits; [ValueError] when it exceeds [limit]. *)
Fixpoint parse_number (limit : Z) (fmt : pystr) (acc : Z) : result (Z * pystr) :=
  match fmt with
  | c :: rest =>
      if is_digit c then
        if acc >? (limit - digit_val c) / 10 then Raise ValueError
        else parse_number limit rest (acc * 10 + digit_val c)
      else Ok (acc, fmt)
  | [] => Ok (acc, [])
  end.

(** The next argument: the single argument, once. *)
Definition getnextarg (v : pyval) (used : bool) : result pyval :=
  if used then Raise TypeError else Ok v.

(** A ["*"] width or precision: the argument must be an [int]. *)
Definition star_arg (limit : Z) (v : pyval) (used : bool) : result Z :=
  v <- getnextarg v used ;;
  match v with
  | VInt z => if (z >? limit) || (z <? - limit - 1) then Raise OverflowError else Ok z
  | _ => Raise TypeError
  end.

(** The width: a ["*"], a run of digits, or nothing. *)
Definition parse_width (fl : flags) (fmt : pystr) (v : pyval) (used : bool)
  : result (flags * option Z * pystr * bool) :=
  match fmt with
  | c :: rest =>
      if (c =? ch "*")%N then
        w <- star_arg PY_SSIZE_T_MAX v used ;;
        if w <? 0
        then Ok (mkflags true (F_SIGN fl) (F_BLANK fl) (F_ALT fl) (F_ZERO fl),
                 Some (- w), rest, true)
        else Ok (fl, Some w, rest, true)
      else if is_digit c then
        '(w, rest) <- parse_number PY_SSIZE_T_MAX fmt 0 ;;
        Ok (fl, Some w, rest, used)
      else Ok (fl, None, fmt, used)
  | [] => Ok (fl, None, fmt, used)
  end.

(** The precision: a ["."] followed by a ["*"], by digits, or by nothing. *)
Definition parse_prec (fmt : pystr) (v : pyval) (used : bool)
  : result (option Z * pystr * bool) :=
  match fmt with
  | c :: rest =>
      if (c =? ch ".")%N then
        match rest with
        | c' :: rest' =>
            if (c' =? ch "*")%N then
              p <- star_arg INT_MAX v used ;;
              Ok (Some (Z.max 0 p), rest', true)
            else if is_digit c' then
              '(p, rest) <- parse_number INT_MAX rest 0 ;;
              Ok (Some p, rest, used)
            else Ok (Some 0, rest, used)
        | [] => Ok (Some 0, rest, used)
        end
      else Ok (None, fmt, used)
  | [] => Ok (None, fmt, used)
  end.

(** The length prefix ["h"], ["l"] or ["L"] is skipped. *)
Definition skip_length_prefix (fmt : pystr) : pystr :=
  match fmt with
  | c :: rest =>
      if (c =? ch "h")%N || (c =? ch "l")%N || (c =? ch "L")%N then rest else fmt
  | [] => fmt
  end.

Record spec := mkspec {
  fl : flags; width : option Z; prec : option Z; conv : N
}.

(** What follows a ["%"] that is not followed by another ["%"]: the parsed
    specifier, the rest of the format, and whether the argument is used. *)
Definition parse_arg (fmt : pystr) (v : pyval) (used : bool)
  : result (spec * pystr * bool) :=
  if match fmt with c :: _ => (c =? ch "(")%N | [] => false end
  then Raise TypeError                      (* format requires a mapping *)
  else
    let (fl, fmt) := parse_flags fmt (mkflags false false false false false) in
    '(fl, width, fmt, used) <- parse_width fl fmt v used ;;
    '(prec, fmt, used) <- parse_prec fmt v used ;;
    match skip_length_prefix fmt with
    | [] => Raise ValueError                (* incomplete format *)
    | c :: rest => Ok (mkspec fl width prec c, rest, used)
    end.

(** Digits of a non-negative number in a base up to 16, lower case. *)
Definition digit_char (d : Z) : N :=
  if d <? 10 then Z.to_N (48 + d) else Z.to_N (87 + d).

Fixpoint digits_from (fuel : nat) (base n : Z) (acc : pystr) : pystr :=
  match fuel with
  | O => acc
  | S fuel =>
      let acc := digit_char (n mod base) :: acc in
      if n / base =? 0 then acc else digits_from fuel base (n / base) acc
  end.

Definition digits (base n : Z) : pystr :=
  digits_from (S (Z.to_nat (Z.log2 n))) base n [].

Definition upper (c : N) : N :=
  if ((97 <=? c) && (c <=? 122))%N then (c - 32)%N else c.

(** [_PyUnicode_FormatLong]: sign, base prefix in the alternate form,
    digits padded with zeros up to the precision. *)
Definition format_long (z : Z) (alt : bool) (prec : option Z) (c : N)
  : result pystr :=
  if match prec with Some p => INT_MAX - 3 <? p | None => false end
  then Raise OverflowError                  (* precision too large *)
  else
  let base := if (c =? ch "o")%N then 8
              else if (c =? ch "x")%N || (c =? ch "X")%N then 16 else 10 in
  let prefix := if negb alt then []
                else if (c =? ch "o")%N then lit "0o"
                else if (c =? ch "x")%N || (c =? ch "X")%N then lit "0x" else [] in
  let ds := digits base (Z.abs z) in
  let zeros := match prec with
               | Some p => repeat (ch "0") (Z.to_nat (p - py_len ds))
               | None => []
               end in
  let s := (if z <? 0 then lit "-" else []) ++ prefix ++ zeros ++ ds in
  Ok (if (c =? ch "X")%N then map upper s else s).

(** [int(x)] for an IEEE single given by its bits. *)
Definition float_to_int (bits : Z) : result Z :=
  let neg := 2 ^ 31 <=? bits in
  let e := (bits / 2 ^ 23) mod 256 in
  let m := bits mod 2 ^ 23 in
  if e =? 255 then (if m =? 0 then Raise OverflowError else Raise ValueError)
  else
    let mag := if e =? 0 then 0
               else if 150 <=? e then (m + 2 ^ 23) * 2 ^ (e - 150)
               else (m + 2 ^ 23) / 2 ^ (150 - e) in
    Ok (if neg then - mag else mag).

Definition is_sra (c : N) : bool :=
  (c =? ch "s")%N || (c =? ch "r")%N || (c =? ch "a")%N.
Definition is_oxX (c : N) : bool :=
  (c =? ch "o")%N || (c =? ch "x")%N || (c =? ch "X")%N.

(** [unicode_format_arg_output]: sign, width and fill around the converted
    text [s]; [sign] is set for the numeric conversions. *)
Definition output (sp : spec) (sign : bool) (s : pystr) : pystr :=
  let f := fl sp in
  let c := conv sp in
  let len := py_len s in
  let zero_fill := sign && F_ZERO f in
  let fill := if zero_fill then ch "0" else ch " " in
  let fits_w := match width sp with None => true | Some w => w <=? len end in
  let fits_p := match prec sp with None => true | Some p => len <=? p end in
  if fits_w && fits_p && negb (F_SIGN f || F_BLANK f) then s
  else
    let len := if is_sra c
               then match prec sp with
                    | Some p => if p <? len then p else len
                    | None => len
                    end
               else len in
    let first := hd 0%N s in
    let has_sign := (first =? ch "-")%N || (first =? ch "+")%N in
    let signchar := if has_sign then first
                    else if F_SIGN f then ch "+" else ch " " in
    let pindex := if sign && has_sign then 1 else 0 in
    let len := if sign && has_sign then len - 1 else len in
    let sign := sign && (has_sign || F_SIGN f || F_BLANK f) in
    let w := match width sp with None => -1 | Some w => w end in
    let w := if w <? len then len else w in
    let out_sign0 := if sign && zero_fill then [signchar] else [] in
    let w := if sign && (len <? w) then w - 1 else w in
    let alt := F_ALT f && is_oxX c in
    let out_prefix0 := if alt && zero_fill then [ch "0"; c] else [] in
    let pindex := if alt then pindex + 2 else pindex in
    let w := if alt then Z.max 0 (w - 2) else w in
    let len := if alt then len - 2 else len in
    let pad_left := if (len <? w) && negb (F_LJUST f)
                    then repeat fill (Z.to_nat (w - len)) else [] in
    let w := if (len <? w) && negb (F_LJUST f) then len else w in
    let out_sign1 := if sign && negb zero_fill then [signchar] else [] in
    let out_prefix1 := if alt && negb zero_fill then [ch "0"; c] else [] in
    let body := firstn (Z.to_nat len) (skipn (Z.to_nat pindex) s) in
    let pad_right := if len <? w then repeat (ch " ") (Z.to_nat (w - len)) else [] in
    out_sign0 ++ out_prefix0 ++ pad_left ++ out_sign1 ++ out_prefix1
      ++ body ++ pad_right.

(** [unicode_format_arg_format] followed by the output step. *)
Definition convert (sp : spec) (v : pyval) : result pystr :=
  let c := conv sp in
  if is_sra c then
    match v with
    | VInt z => Ok (output sp false (str_of_int z))
    | VStr s => if (c =? ch "s")%N then Ok (output sp false s)
                else Raise NotImplementedError
    | VFloat _ => Raise NotImplementedError
    end
  else if (c =? ch "i")%N || (c =? ch "d")%N || (c =? ch "u")%N || is_oxX c then
    match v with
    | VInt z =>
        t <- format_long z (F_ALT (fl sp)) (prec sp) c ;;
        Ok (output sp true t)
    | VFloat bits =>
        if is_oxX c then Raise TypeError
        else z <- float_to_int bits ;;
             t <- format_long z (F_ALT (fl sp)) (prec sp) c ;;
             Ok (output sp true t)
    | VStr _ => Raise TypeError
    end
  else if in_set c FLOAT_VAL_CHARS then
    match v with
    | VStr _ => Raise TypeError
    | _ => Raise NotImplementedError
    end
  else if (c =? ch "c")%N then
    match v with
    | VInt z => if (z <? 0) || (1114111 <? z) then Raise OverflowError
                else Ok (output sp false [Z.to_N z])
    | VStr [x] => Ok (output sp false [x])
    | _ => Raise TypeError
    end
  else Raise ValueError.                    (* unsupported format character *)

(** The main loop of [unicode_format]; [fuel] bounds the number of
    characters still to read. *)
Fixpoint format_loop (fuel : nat) (fmt : pystr) (v : pyval) (used : bool)
    (acc : pystr) : result pystr :=
  match fuel with
  | O => if used then Ok acc else Raise TypeError
  | S fuel =>
      match fmt with
      | [] => if used then Ok acc else Raise TypeError
      | c :: rest =>
          if negb (c =? ch "%")%N then format_loop fuel rest v used (acc ++ [c])
          else
            match rest with
            | c' :: rest' =>
                if (c' =? ch "%")%N
                then format_loop fuel rest' v used (acc ++ [c'])
                else
                  '(sp, rest, used) <- parse_arg rest v used ;;
                  v' <- getnextarg v used ;;
                  t <- convert sp v' ;;
                  format_loop fuel rest v true (acc ++ t)
            | [] => Raise ValueError
            end
      end
  end.

(** [print_fmt % val] *)
Definition py_format : formatter :=
  fun print_fmt val => format_loop (List.length print_fmt) print_fmt val false [].

End PyFormat.

(** * Properties *)

Import Printf_IncrementalDecoder.

(** ** The incremental decoder is a byte-wise machine *)

Section Chunks.

Variable fmt_op : formatter.

Lemma feed_acc (input : bytes) : forall self r,
  feed fmt_op self input r =
  match feed fmt_op self input [] with
  | (self', Ok t) => (self', Ok (r ++ t))
  | (self', Raise e) => (self', Raise e)
  end.
Proof.
  induction input as [|val rest IH]; intros self r; simpl.
  - now rewrite app_nil_r.
  - destruct (step fmt_op self val) as [self1 [t|e]]; [|reflexivity].
    rewrite (IH self1 (r ++ t)), (IH self1 t).
    destruct (feed fmt_op self1 rest []) as [self2 [u|e]]; [|reflexivity].
    now rewrite app_assoc.
Qed.

Lemma feed_app (a b : bytes) : forall self r,
  feed fmt_op self (a ++ b) r =
  match feed fmt_op self a r with
  | (self', Ok r') => feed fmt_op self' b r'
  | (self', Raise e) => (self', Raise e)
  end.
Proof.
  induction a as [|val rest IH]; intros self r; simpl.
  - reflexivity.
  - destruct (step fmt_op self val) as [self1 [t|e]]; [apply IH|reflexivity].
Qed.

(** Feeding the chunks one call at a time and then finalizing is the same as
    one final call on their concatenation: chunk boundaries are not
    observable. *)
Theorem decode_chunks_concat (chunks : list bytes) : forall self,
  decode_chunks fmt_op self chunks = decode fmt_op self (concat chunks) true.
Proof.
  induction chunks as [|chunk chunks IH]; intros self; simpl.
  - reflexivity.
  - unfold decode at 1 2. rewrite feed_app.
    destruct (feed fmt_op self chunk []) as [self1 [t|e]]; [|reflexivity].
    simpl. rewrite IH. unfold decode. rewrite (feed_acc _ self1 t).
    destruct (feed fmt_op self1 (concat chunks) []) as [self2 [u|e]];
      [|reflexivity].
    simpl.
    destruct (negb (phase_eqb (state self2) FIND_FMT_START)); [|reflexivity].
    destruct (decode_ascii (errors self2) (data_buffer self2)) as [v|e];
      [|reflexivity].
    now rewrite !app_assoc.
Qed.

End Chunks.

(** ** The two decoders on a percent record *)

(** C1: the input [A5 25] (a marker and a percent sign) separates the two
    decoders.  However it is split into chunks, the incremental decoder
    returns the text "%" for the record and, staying inside the record,
    appends the template "%%" at the final call; [printf_decode] returns
    "%" for the same buffer, under every error policy and formatter. *)
Theorem percent_record_streaming_vs_one_shot (fmt_op : formatter)
    (errors : errors_policy) (chunks : list bytes)
    (Hchunks : concat chunks = [xa5; x25]) :
  snd (decode_chunks fmt_op (init errors) chunks) = Ok (lit "%%%")
  /\ printf_decode fmt_op [xa5; x25] errors = Ok (lit "%", 1).
Proof.
  rewrite decode_chunks_concat, Hchunks. split; reflexivity.
Qed.

Lemma percent_record_streaming_vs_one_shot_witness :
  snd (decode_chunks PyFormat.py_format (init strict) [[xa5]; [x25]])
    = Ok (lit "%%%")
  /\ printf_decode PyFormat.py_format [xa5; x25] strict = Ok (lit "%", 1).
Proof.
  apply (percent_record_streaming_vs_one_shot
           PyFormat.py_format strict [[xa5]; [x25]]).
  reflexivity.
Defined.

(** ** Export and import of the state *)

(** C2: after the prefix [A5] of a stream the decoder is inside a record
    (phase [FIND_FMT_END], template "%").  [getstate] exports the bytes "%"
    with the tag 1; [setstate] replays them from [FIND_FMT_START], where
    "%" is literal text, and leaves a decoder outside any record.  The byte
    "a" fed next is then returned as literal text, while the uninterrupted
    decoder holds it in the template until the final call. *)
Theorem setstate_getstate_leaves_record (fmt_op : formatter)
    (errors : errors_policy) :
  let self := fst (decode fmt_op (init errors) [xa5] false) in
  let self' := fst (setstate_getstate fmt_op self) in
  state self = FIND_FMT_END /\ print_fmt self = lit "%"
  /\ getstate self = Ok ([x25], 1)
  /\ setstate_getstate fmt_op self = (init errors, Ok tt)
  /\ self' <> self
  /\ snd (decode fmt_op self [x61] false) = Ok []
  /\ snd (decode fmt_op self' [x61] false) = Ok (lit "a")
  /\ snd (decode fmt_op self [x61] true) = Ok (lit "%a")
  /\ snd (decode fmt_op self' [x61] true) = Ok (lit "a").
Proof.
  cbv zeta. repeat split; try reflexivity.
  vm_compute. discriminate.
Qed.

(** C8: [setstate] does not read the tag of the tuple it is given. *)
Theorem setstate_ignores_tag (fmt_op : formatter) (self : decoder)
    (b : bytes) (s1 s2 : Z) :
  setstate fmt_op self (b, s1) = setstate fmt_op self (b, s2).
Proof.
  unfold setstate. simpl. reflexivity.
Qed.

(** [setstate] starts from [reset]: of the decoder it is applied to, only
    the error policy and the stray attribute [len] can make a difference. *)
Lemma setstate_from_reset (fmt_op : formatter) (self self' : decoder)
    (b : bytes) (s1 s2 : Z) :
  errors self = errors self' -> len self = len self' ->
  setstate fmt_op self (b, s1) = setstate fmt_op self' (b, s2).
Proof.
  intros He Hl. unfold setstate, reset. now rewrite He, Hl.
Qed.

(** ** Inputs on which [printf_decode] raises *)

(** C3: under the policies ['replace'] and ['ignore'], [printf_decode] raises
    [IndexError] when a wildcard is the last byte, [struct.error] when the
    argument bytes of a record are cut short, and [UnboundLocalError] on a
    lone marker. *)
Theorem printf_decode_raises (fmt_op : formatter) :
  printf_decode fmt_op [xa5; x2a] replace = Raise IndexError
  /\ printf_decode fmt_op [xa5; x2a] ignore = Raise IndexError
  /\ printf_decode fmt_op [xa5; x64; x01] replace = Raise struct_error
  /\ printf_decode fmt_op [xa5; x64; x01] ignore = Raise struct_error
  /\ printf_decode fmt_op [xa5] replace = Raise UnboundLocalError
  /\ printf_decode fmt_op [xa5] ignore = Raise UnboundLocalError.
Proof.
  repeat split; reflexivity.
Qed.

(** ** The percent record in the incremental decoder *)

(** C6: in [FIND_FMT_END] the byte "%" returns the text "%" and appends
    itself to the template, but the phase is left as it is: the byte that
    follows, here "a", is taken as part of the specifier and produces no
    text. *)
Theorem percent_stays_in_record (fmt_op : formatter) (self : decoder)
    (Hstate : state self = FIND_FMT_END) :
  let self' := fst (step fmt_op self x25) in
  snd (step fmt_op self x25) = Ok (lit "%")
  /\ self' = set_print_fmt (print_fmt self ++ lit "%") self
  /\ state self' = FIND_FMT_END
  /\ step fmt_op self' x61
     = (set_print_fmt (print_fmt self ++ lit "%a") self', Ok []).
Proof.
  cbv zeta. unfold step. rewrite Hstate. cbn. rewrite Hstate.
  repeat split. now rewrite <- app_assoc.
Qed.

Lemma percent_stays_in_record_witness :
  let self := fst (decode PyFormat.py_format (init strict) [xa5] false) in
  let self' := fst (step PyFormat.py_format self x25) in
  snd (step PyFormat.py_format self x25) = Ok (lit "%")
  /\ self' = set_print_fmt (print_fmt self ++ lit "%") self
  /\ state self' = FIND_FMT_END
  /\ step PyFormat.py_format self' x61
     = (set_print_fmt (print_fmt self ++ lit "%a") self', Ok []).
Proof.
  apply (percent_stays_in_record PyFormat.py_format
           (fst (decode PyFormat.py_format (init strict) [xa5] false))).
  reflexivity.
Defined.

(** ** NUL bytes in literal text *)

(** C7: on the literal text "a", NUL, "b" the incremental decoder drops the
    NUL byte, and [printf_decode] returns it in the text. *)
Theorem nul_in_literal_text (fmt_op : formatter) (errors : errors_policy) :
  decode fmt_op (init errors) [x61; x00; x62] true
    = (init errors, Ok (lit "ab"))
  /\ printf_decode fmt_op [x61; x00; x62] errors = Ok ([97; 0; 98]%N, 3).
Proof.
  split; reflexivity.
Qed.

(** ** The length returned by [printf_decode] *)

(** C9: the second component of the result of [printf_decode] is the length
    of the text in the first component. *)
Theorem printf_decode_length (fmt_op : formatter) (data : bytes)
    (errors : errors_policy) (r : pystr) (n : Z)
    (Hdec : printf_decode fmt_op data errors = Ok (r, n)) :
  n = py_len r.
Proof.
  unfold printf_decode in Hdec.
  destruct (decode_ascii errors (fst (split_marker data))) as [r0|e];
    [simpl in Hdec|discriminate].
  destruct (match snd (split_marker data) with
            | Some print_data => decode_loop fmt_op errors print_data r0 None
            | None => Ok r0
            end) as [r1|e]; simpl in Hdec; [|discriminate].
  now injection Hdec as <- <-.
Qed.

Lemma printf_decode_length_witness :
  printf_decode PyFormat.py_format [xa5; x25; x00] strict = Ok ([37; 0]%N, 2)
  /\ 2 = py_len [37; 0]%N.
Proof.
  split; [reflexivity|].
  apply (printf_decode_length PyFormat.py_format [xa5; x25; x00] strict).
  reflexivity.
Defined.

(** ** One iteration of the outer loop of [printf_decode] *)

Section OneShotFacts.

Variable fmt_op : formatter.

(** The loop body: the record of the segment, then the literal text up to
    the next marker and the iterations that follow. *)
Lemma decode_loop_eq (errors : errors_policy) (print_data : bytes)
    (r : pystr) (c : option N) :
  decode_loop fmt_op errors print_data r c =
  ('(t, c', i) <- decode_segment fmt_op errors print_data c ;;
   decode_rest fmt_op errors (slice print_data (Some i) None) (r ++ t) c').
Proof.
  funelim (decode_loop fmt_op errors print_data r c);
    repeat match goal with
           | H : decode_segment _ _ _ _ = _ |- _ => rewrite H; clear H
           end;
    simpl; try reflexivity;
    unfold decode_rest;
    match goal with
    | H : split_marker _ = _ |- _ => rewrite H
    end;
    simpl;
    match goal with
    | H : decode_ascii _ _ = _ |- _ => rewrite H
    end;
    reflexivity.
Qed.

(** [printf_decode] in terms of [decode_rest]. *)
Lemma printf_decode_eq (data : bytes) (errors : errors_policy) :
  printf_decode fmt_op data errors =
  (r <- decode_rest fmt_op errors data [] None ;; Ok (r, py_len r)).
Proof.
  unfold printf_decode, decode_rest.
  destruct (decode_ascii errors (fst (split_marker data))); reflexivity.
Qed.

(** [render] passes to [sprintf] the arguments that [record] computes. *)
Lemma render_record (errors : errors_policy) (print_data : bytes) (i : Z)
    (print_fmt : pystr) (c : N) :
  render fmt_op errors print_data i print_fmt c =
  ('(rt, i') <- record errors print_data i print_fmt c ;;
   t <- match rt with
        | Render p v => sprintf fmt_op p v
        | Literal t => Ok t
        end ;;
   Ok (t, i')).
Proof.
  unfold render, record.
  repeat match goal with
         | |- context [if ?b then _ else _] => destruct b
         end.
  all: repeat match goal with
              | |- bind ?m _ = _ => destruct m as [?|?]; simpl; try reflexivity
              | |- match ?p with _ => _ end = _ => destruct p; simpl
              end.
  all: reflexivity.
Qed.

End OneShotFacts.

(** ** Slices and the specifier scan *)

Lemma slice_drop_last {A} (s : list A) (x : A) :
  slice (s ++ [x]) None (Some (-1)) = s.
Proof.
  unfold slice, clamp, py_len. change (-1 <? 0) with true. cbv iota.
  change (Z.to_nat 0) with O. rewrite skipn_O, length_app.
  replace (Z.to_nat _) with (length s) by (cbn [length]; lia).
  rewrite firstn_app, firstn_all, Nat.sub_diag. cbn [firstn].
  apply app_nil_r.
Qed.

Lemma slice_stop_before_start {A} (l : list A) (i : Z) :
  1 <= i -> slice l (Some i) (Some (i + -1)) = [].
Proof.
  intros Hi. unfold slice, clamp.
  destruct (Z.ltb_spec i 0); [lia|].
  destruct (Z.ltb_spec (i + -1) 0); [lia|].
  replace (Z.to_nat (Z.min (i + -1) (py_len l) - Z.min i (py_len l)))
    with O by lia.
  reflexivity.
Qed.

Lemma slice_of_nil {A} (lo hi : option Z) : slice (@nil A) lo hi = [].
Proof.
  unfold slice. rewrite skipn_nil. apply firstn_nil.
Qed.

(** The scan moves forward, and it stays where it is only at the end of the
    segment. *)
Lemma scan_bounds_upto (n : nat) :
  forall rest i print_fmt c i' print_fmt' c',
    (length rest <= n)%nat ->
    scan rest i print_fmt c = Ok (i', print_fmt', c') ->
    (i' = i /\ rest = []) \/ (i < i' <= i + py_len rest).
Proof.
  induction n as [|n IH]; intros rest i print_fmt c i' print_fmt' c' Hn Hscan.
  - destruct rest; [|cbn [length] in Hn; lia].
    cbn [scan] in Hscan. injection Hscan as <- _ _. now left.
  - destruct rest as [|b rest]; cbn [scan] in Hscan.
    + injection Hscan as <- _ _. now left.
    + right. unfold py_len. cbn [length] in Hn |- *. cbv zeta in Hscan.
      destruct (chr b =? ch "*")%N.
      * destruct rest as [|w rest]; [discriminate|].
        cbn [length] in Hn |- *.
        destruct (in_set (chr b) SPECIFIER_CHARS).
        -- injection Hscan as <- _ _. lia.
        -- apply IH in Hscan; [|lia]. unfold py_len in Hscan.
           destruct Hscan as [[-> _]|Hscan]; lia.
      * destruct (in_set (chr b) SPECIFIER_CHARS).
        -- injection Hscan as <- _ _. lia.
        -- apply IH in Hscan; [|lia]. unfold py_len in Hscan.
           destruct Hscan as [[-> _]|Hscan]; lia.
Qed.

Lemma scan_bounds (rest : bytes) (i : Z) (print_fmt : pystr) (c : option N)
    (i' : Z) (print_fmt' : pystr) (c' : option N) :
  scan rest i print_fmt c = Ok (i', print_fmt', c') ->
  (i' = i /\ rest = []) \/ (i < i' <= i + py_len rest).
Proof.
  apply scan_bounds_upto with (n := length rest). lia.
Qed.

(** A key of [SPECIAL_CHARS] is none of the characters that the dispatch
    tests before it, and its letter is a numeric conversion letter. *)
Lemma special_char_cases (k letter : N) :
  dict_get N.eqb SPECIAL_CHARS k = Ok letter ->
  in_VALUE_FORMAT k = false /\ in_SPECIAL_CHARS k = true
  /\ In letter (map ch ["X"; "d"; "i"; "o"; "u"; "x"]%char).
Proof.
  unfold SPECIAL_CHARS. cbn [dict_get].
  repeat match goal with
         | |- (if (k =? ?x)%N then _ else _) = _ -> _ =>
             destruct (N.eqb_spec k x) as [->|_];
             [intros [= <-]; repeat split; vm_compute; tauto|]
         end.
  discriminate.
Qed.

(** ** A string record whose payload has no NUL byte *)

Section Records.

Variable fmt_op : formatter.

Lemma decode_segment_eq (errors : errors_policy) (print_data : bytes)
    (c0 : option N) (i : Z) (print_fmt : pystr) (c : N) :
  scan print_data 0 (lit "%") c0 = Ok (i, print_fmt, Some c) ->
  decode_segment fmt_op errors print_data c0 =
  ('(t, i') <- render fmt_op errors print_data i print_fmt c ;;
   Ok (t, Some c, i')).
Proof.
  intros Hscan. unfold decode_segment. now rewrite Hscan.
Qed.

(** C10: when the scan of a segment ends on the terminal "s" at position [i]
    and no NUL byte follows, the template is rendered against the empty
    string and [i] is left where it is: all the bytes from [i] on are then
    processed as the input that follows the record, starting with the
    literal text up to the next marker.  The second part states it for the
    first record of a buffer. *)
Theorem s_record_without_nul (errors : errors_policy) (print_data : bytes)
    (c : option N) (i : Z) (print_fmt : pystr)
    (Hscan : scan print_data 0 (lit "%") c = Ok (i, print_fmt, Some (ch "s")))
    (Hnul : find_nul (slice print_data (Some i) None) = -1) :
  (forall r,
     decode_loop fmt_op errors print_data r c =
     (t <- sprintf fmt_op print_fmt (VStr []) ;;
      decode_rest fmt_op errors (slice print_data (Some i) None) (r ++ t)
        (Some (ch "s"))))
  /\ (forall data lead,
        c = None -> split_marker data = (lead, Some print_data) ->
        printf_decode fmt_op data errors =
        (r0 <- decode_ascii errors lead ;;
         t <- sprintf fmt_op print_fmt (VStr []) ;;
         r <- decode_rest fmt_op errors (slice print_data (Some i) None)
                (r0 ++ t) (Some (ch "s")) ;;
         Ok (r, py_len r))).
Proof.
  assert (Hloop : forall r,
     decode_loop fmt_op errors print_data r c =
     (t <- sprintf fmt_op print_fmt (VStr []) ;;
      decode_rest fmt_op errors (slice print_data (Some i) None) (r ++ t)
        (Some (ch "s")))).
  { intros r. rewrite decode_loop_eq, (decode_segment_eq _ _ _ Hscan).
    change (render fmt_op errors print_data i print_fmt (ch "s"))
      with (let end_ := find_nul (slice print_data (Some i) None) in
            s <- decode_ascii errors
                   (slice print_data (Some i) (Some (i + end_))) ;;
            t <- sprintf fmt_op print_fmt (VStr s) ;;
            Ok (t, i + end_ + 1)).
    cbv zeta. rewrite Hnul.
    assert (Hempty : slice print_data (Some i) (Some (i + -1)) = []).
    { destruct (scan_bounds _ _ _ _ Hscan) as [[_ ->]|[Hi _]].
      - apply slice_of_nil.
      - apply slice_stop_before_start. lia. }
    rewrite Hempty. cbn [decode_ascii bind].
    replace (i + -1 + 1) with i by lia.
    destruct (sprintf fmt_op print_fmt (VStr [])); reflexivity. }
  split; [exact Hloop|].
  intros data lead -> Hsplit.
  rewrite printf_decode_eq. unfold decode_rest at 1. rewrite Hsplit.
  cbn [fst snd].
  destruct (decode_ascii errors lead) as [r0|e]; [|reflexivity].
  cbn [bind app]. rewrite Hloop.
  destruct (sprintf fmt_op print_fmt (VStr [])); reflexivity.
Qed.

End Records.

Lemma s_record_without_nul_witness :
  printf_decode PyFormat.py_format [x3e; xa5; x35; x73; x61; x62] strict
  = Ok (lit ">     ab", 8).
Proof.
  rewrite (proj2 (@s_record_without_nul PyFormat.py_format strict
                    [x35; x73; x61; x62] None 2 (lit "%5s")
                    eq_refl eq_refl)
             [x3e; xa5; x35; x73; x61; x62] [x3e] eq_refl eq_refl).
  reflexivity.
Defined.

(** The claimed text differs from the decoder's on the record "s" with the
    payload "ab": the claim gives "aab", the decoder "ab". *)
Lemma s_record_not_all_but_last :
  s_record_as_claimed PyFormat.py_format strict (lit "%s") [x61; x62]
    = Ok (lit "aab")
  /\ printf_decode PyFormat.py_format [xa5; x73; x61; x62] strict
    = Ok (lit "ab", 2)
  /\ printf_decode PyFormat.py_format [xa5; x73; x61; x62] strict
    <> (r <- s_record_as_claimed PyFormat.py_format strict (lit "%s")
               [x61; x62] ;;
        Ok (r, py_len r)).
Proof.
  repeat split; try reflexivity. vm_compute. discriminate.
Qed.

(** Reduction of the attribute updates of a decoder. *)
Ltac fields :=
  unfold set_print_fmt, set_data_buffer, set_val_len, set_val_fmt, set_state,
    set_len, reset;
  cbn [errors print_fmt data_buffer val_len val_fmt state len app].

(** ** Records that end on a special byte *)

Section SpecialBytes.

Variable fmt_op : formatter.

Lemma unpack_unsigned_byte (b : byte) :
  unpack (lit "<B") [b] = Ok (VInt (int_of_byte b)).
Proof.
  unfold unpack. change (calcsize (lit "<B")) with (Ok 1).
  cbn [bind]. change (py_len [b] =? 1) with true.
  cbn -[int_of_byte Z.mul Z.add]. f_equal. f_equal. lia.
Qed.

(** C5: a record that ends on a key of [SPECIAL_CHARS] has its length
    modifiers stripped by [parse_length_chars], which also appends the
    mapped letter, and takes exactly one argument byte, whatever the
    modifiers: in [printf_decode] the byte at [i] is rendered as an unsigned
    number and the input goes on at [i + 1]; in the incremental decoder the
    expected length is 1 and the next byte completes the record. *)
Theorem special_byte_takes_one_byte (k letter : N)
    (Hspecial : dict_get N.eqb SPECIAL_CHARS k = Ok letter) :
  (forall errors print_data c i print_fmt pf lc b r,
     scan print_data 0 (lit "%") c = Ok (i, print_fmt, Some k) ->
     parse_length_chars (slice print_fmt None (Some (-1))) (Some [letter])
       = Ok (pf, lc) ->
     item print_data i = Ok b ->
     decode_loop fmt_op errors print_data r c =
     (t <- sprintf fmt_op pf (VInt (int_of_byte b)) ;;
      decode_rest fmt_op errors (slice print_data (Some (i + 1)) None)
        (r ++ t) (Some k)))
  /\ (forall self val pf lc,
        chr val = k -> state self = FIND_FMT_END -> data_buffer self = [] ->
        parse_length_chars (print_fmt self) (Some [letter]) = Ok (pf, lc) ->
        step fmt_op self val
          = (mk (errors self) pf [] 1 (lit "<B") CAP_VALUE (len self), Ok [])
        /\ forall b,
             step fmt_op
               (mk (errors self) pf [] 1 (lit "<B") CAP_VALUE (len self)) b
             = (mk (errors self) pf [b] 1 (lit "<B") FIND_FMT_START (len self),
                sprintf fmt_op pf (VInt (int_of_byte b)))).
Proof.
  destruct (special_char_cases _ Hspecial) as (Hvalue & Hkey & _).
  split.
  - intros errors print_data c i print_fmt pf lc b r Hscan Hparse Hitem.
    rewrite decode_loop_eq, (decode_segment_eq _ _ _ _ Hscan).
    unfold render. rewrite Hvalue, Hkey, Hspecial. cbn [bind].
    rewrite Hparse. cbn [bind]. rewrite Hitem. cbn [bind].
    destruct (sprintf fmt_op pf (VInt (int_of_byte b))); reflexivity.
  - intros self val pf lc Hval Hstate Hbuf Hparse. split.
    + unfold step. rewrite Hstate, Hval. cbv zeta.
      rewrite Hvalue, Hkey, Hspecial. cbn [bind print_fmt set_print_fmt].
      rewrite slice_drop_last, Hparse. destruct self; simpl in *.
      now subst.
    + intros b. unfold step. cbn [state]. cbv zeta. fields.
      change (py_len [b] =? 1) with true. cbv iota.
      now rewrite unpack_unsigned_byte.
Qed.

End SpecialBytes.

Lemma special_byte_takes_one_byte_witness :
  decode_loop PyFormat.py_format strict [x6c; x6c; xf5; x63; x21] [] None
  = Ok (lit "99!").
Proof.
  rewrite (proj1 (@special_byte_takes_one_byte PyFormat.py_format
                    245%N (ch "u") eq_refl)
             strict [x6c; x6c; xf5; x63; x21] None 3
             (lit "%ll" ++ [245%N]) (lit "%u") (lit "u") x63 []
             eq_refl eq_refl eq_refl).
  reflexivity.
Defined.

(** With no length modifier the special byte E4 takes one argument byte,
    where the letter "d" that it stands for takes four: the two records
    decode differently on the same argument bytes, and the incremental
    decoder expects one byte. *)
Lemma special_byte_is_not_its_letter :
  printf_decode PyFormat.py_format [xa5; xe4; x01; x02; x03; x04] strict
    = Ok ([49; 2; 3; 4]%N, 4)
  /\ printf_decode PyFormat.py_format [xa5; x64; x01; x02; x03; x04] strict
    = Ok (lit "67305985", 8)
  /\ printf_decode PyFormat.py_format [xa5; xe4; x01; x02; x03; x04] strict
    <> printf_decode PyFormat.py_format [xa5; x64; x01; x02; x03; x04] strict
  /\ val_len (fst (decode PyFormat.py_format (init strict) [xa5; xe4] false)) = 1
  /\ val_len (fst (decode PyFormat.py_format (init strict) [xa5; x64] false)) = 4.
Proof.
  repeat split; try reflexivity. vm_compute. discriminate.
Qed.

(** ** Exceptions of the formatter *)

Section FormatterExceptions.

Variable fmt_op : formatter.

(** C4: when the formatter raises [e] on the template and the value of a
    completed record, [sprintf] returns the template if [e] is [TypeError]
    and raises [e] otherwise; so do [render] in [printf_decode], and the
    steps of the incremental decoder that complete a value or a string. *)
Theorem sprintf_catches_type_error_only (tpl : pystr) (v : pyval) (e : exn)
    (Hraise : fmt_op tpl v = Raise e) :
  sprintf fmt_op tpl v = caught e tpl
  /\ (forall errors print_data i print_fmt c i',
        record errors print_data i print_fmt c = Ok (Render tpl v, i') ->
        render fmt_op errors print_data i print_fmt c
        = (t <- caught e tpl ;; Ok (t, i')))
  /\ (forall self val,
        state self = CAP_VALUE ->
        py_len (data_buffer self ++ [val]) = val_len self ->
        print_fmt self = tpl ->
        unpack (val_fmt self) (data_buffer self ++ [val]) = Ok v ->
        step fmt_op self val
        = (set_state FIND_FMT_START
             (set_data_buffer (data_buffer self ++ [val]) self),
           caught e tpl))
  /\ (forall self s,
        state self = CAP_TEXT ->
        print_fmt self = tpl ->
        decode_ascii (errors self) (data_buffer self) = Ok s ->
        v = VStr s ->
        step fmt_op self x00
        = match caught e tpl with
          | Ok t => (set_state FIND_FMT_START self, Ok t)
          | Raise e' => (self, Raise e')
          end).
Proof.
  assert (Hs : sprintf fmt_op tpl v = caught e tpl).
  { unfold sprintf. rewrite Hraise. now destruct e. }
  split; [exact Hs|]. split; [|split].
  - intros errors print_data i print_fmt c i' Hrecord.
    rewrite render_record, Hrecord. cbn [bind]. rewrite Hs.
    now destruct (caught e tpl).
  - intros self val Hstate Hlen Hfmt Hunpack.
    unfold step. rewrite Hstate. cbv zeta. fields.
    rewrite Hlen, Z.eqb_refl, Hunpack, Hfmt. cbn [bind]. now rewrite Hs.
  - intros self s Hstate Hfmt Hdec ->.
    unfold step. rewrite Hstate. change (int_of_byte x00 =? 0) with true.
    cbv iota. rewrite Hdec, Hfmt. cbn [bind]. now rewrite Hs.
Qed.

End FormatterExceptions.

Lemma sprintf_catches_type_error_only_witness :
  sprintf PyFormat.py_format (lit "%(d") (VInt 1) = Ok (lit "%(d")
  /\ render PyFormat.py_format strict [x28; x64; x01; x00; x00; x00] 2
       (lit "%(d") (ch "d")
     = Ok (lit "%(d", 6).
Proof.
  pose proof (@sprintf_catches_type_error_only PyFormat.py_format
                (lit "%(d") (VInt 1) TypeError eq_refl) as (Hs & Hr & _).
  split; [exact Hs|].
  exact (Hr strict [x28; x64; x01; x00; x00; x00] 2 (lit "%(d") (ch "d") 6
            eq_refl).
Defined.

(** The formatter rejects the template "%qd" with [ValueError] (unsupported
    format character), and the exception leaves both decoders. *)
Lemma value_error_is_not_caught :
  PyFormat.py_format (lit "%qd") (VInt 1) = Raise ValueError
  /\ printf_decode PyFormat.py_format
       [xa5; x71; x64; x01; x00; x00; x00] replace
     = Raise ValueError
  /\ snd (decode PyFormat.py_format (init replace)
            [xa5; x71; x64; x01; x00; x00; x00] true)
     = Raise ValueError.
Proof.
  repeat split; reflexivity.
Qed.

(** ** Literal text *)

Lemma marker_eqb (b : byte) : Byte.eqb b xa5 = (chr b =? 165)%N.
Proof.
  destruct b; reflexivity.
Qed.

Lemma nul_eqb (b : byte) : Byte.eqb b x00 = (chr b =? 0)%N.
Proof.
  destruct b; reflexivity.
Qed.

Lemma split_marker_none (data : bytes) :
  forallb (fun b => negb (Byte.eqb b xa5)) data = true ->
  split_marker data = (data, None).
Proof.
  induction data as [|b data IH]; cbn [forallb split_marker]; [reflexivity|].
  intros [Hb Hdata]%andb_prop. apply negb_true_iff in Hb.
  now rewrite Hb, (IH Hdata).
Qed.

(** On a buffer without a marker [printf_decode] is the ASCII decoder: NUL
    bytes are kept. *)
Lemma printf_decode_literal (fmt_op : formatter) (data : bytes)
    (errors : errors_policy) :
  forallb (fun b => negb (Byte.eqb b xa5)) data = true ->
  printf_decode fmt_op data errors =
  (r <- decode_ascii errors data ;; Ok (r, py_len r)).
Proof.
  intros Hdata. unfold printf_decode. rewrite (split_marker_none _ Hdata).
  cbn [fst snd]. now destruct (decode_ascii errors data).
Qed.

(** Outside a record the incremental decoder returns every byte but NUL as
    the character of the same code, and stays outside. *)
Lemma feed_literal (fmt_op : formatter) (input : bytes) :
  forall self r,
    state self = FIND_FMT_START ->
    forallb (fun b => negb (Byte.eqb b xa5)) input = true ->
    feed fmt_op self input r =
    (self, Ok (r ++ map chr (filter (fun b => negb (Byte.eqb b x00)) input))).
Proof.
  induction input as [|b input IH]; intros self r Hstate Hinput;
    cbn [feed filter map].
  - now rewrite app_nil_r.
  - cbn [forallb] in Hinput. apply andb_prop in Hinput as [Hb Hinput].
    unfold step. rewrite Hstate. rewrite marker_eqb in Hb.
    apply negb_true_iff in Hb. rewrite Hb, nul_eqb.
    destruct (chr b =? 0)%N; cbn [negb map].
    + rewrite (IH _ _ Hstate Hinput). now rewrite app_nil_r.
    + rewrite (IH _ _ Hstate Hinput). now rewrite <- app_assoc.
Qed.

(** ** The argument buffer is empty while a specifier is read *)

Definition buffer_empty_in_specifier (self : decoder) : Prop :=
  state self = FIND_FMT_END \/ state self = CAP_WILD -> data_buffer self = [].

Lemma step_buffer_empty_in_specifier (fmt_op : formatter) (self : decoder)
    (val : byte) :
  buffer_empty_in_specifier self ->
  buffer_empty_in_specifier (fst (step fmt_op self val)).
Proof.
  unfold buffer_empty_in_specifier, step. intros Hinv.
  destruct (state self) eqn:Hstate; cbv zeta;
    repeat match goal with
           | |- context [if ?b then _ else _] => destruct b
           | |- context [match ?m with Ok _ => _ | Raise _ => _ end] =>
               destruct m as [[? ?]|?]
           | |- context [match ?m with Ok _ => _ | Raise _ => _ end] =>
               destruct m as [?|?]
           end;
    cbn [fst]; fields; try rewrite Hstate;
    first [ intros [H|H]; discriminate
          | reflexivity
          | intros _; apply Hinv; auto ].
Qed.

Lemma feed_buffer_empty_in_specifier (fmt_op : formatter) (input : bytes) :
  forall self r,
    buffer_empty_in_specifier self ->
    buffer_empty_in_specifier (fst (feed fmt_op self input r)).
Proof.
  induction input as [|val input IH]; intros self r Hinv; cbn [feed].
  - exact Hinv.
  - pose proof (@step_buffer_empty_in_specifier fmt_op self val Hinv) as Hstep.
    destruct (step fmt_op self val) as [self1 [t|e]]; cbn [fst] in *.
    + now apply IH.
    + exact Hstep.
Qed.

(** ** What [setstate(getstate())] restores *)

Lemma encode_ascii_no_marker (s : pystr) (b : bytes) :
  encode_ascii s = Ok b ->
  forallb (fun x => negb (Byte.eqb x xa5)) b = true.
Proof.
  revert b. induction s as [|c s IH]; intros b; cbn [encode_ascii].
  - now intros [= <-].
  - destruct (N.ltb_spec c 128); [|discriminate].
    destruct (Byte.of_N c) as [x|] eqn:Hx; [|discriminate].
    destruct (encode_ascii s) as [t|e]; [|discriminate].
    cbn [bind]. intros [= <-]. cbn [forallb]. rewrite (IH t eq_refl).
    rewrite marker_eqb. unfold chr. rewrite (Byte.to_of_N _ Hx).
    destruct (N.eqb_spec c 165); [lia|reflexivity].
Qed.

(** Unless the argument buffer holds a marker byte, [setstate(getstate())]
    is [reset()]: whatever record the decoder was in is forgotten. *)
Lemma setstate_getstate_is_reset (fmt_op : formatter) (self : decoder)
    (st : bytes * Z) :
  getstate self = Ok st ->
  forallb (fun x => negb (Byte.eqb x xa5)) (data_buffer self) = true ->
  setstate_getstate fmt_op self = (reset self, Ok tt).
Proof.
  unfold setstate_getstate, getstate. intros Hget Hbuf.
  destruct (encode_ascii (print_fmt self)) as [b|e] eqn:Henc; [|discriminate].
  cbn [bind] in Hget |- *. unfold setstate, decode. cbn [fst].
  rewrite feed_literal.
  - reflexivity.
  - reflexivity.
  - rewrite forallb_app, Hbuf, (encode_ascii_no_marker _ Henc). reflexivity.
Qed.

(** ** The examples of the module *)

Definition ascii_bytes (s : string) : bytes := list_byte_of_string s.
Arguments ascii_bytes s%_string.

Example main_plus_20_X :
  printf_decode PyFormat.py_format
    (ascii_bytes "The value is " ++ [xa5] ++ ascii_bytes "+20X"
       ++ [xef; xbe; xad; xde] ++ ascii_bytes ".") strict
  = Ok (lit "The value is            +DEADBEEF.", 34).
Proof. reflexivity. Qed.

Example main_percent_then_u :
  printf_decode PyFormat.py_format
    (ascii_bytes "The value is " ++ [xa5] ++ ascii_bytes "%" ++ [xa5]
       ++ ascii_bytes "uc" ++ [x00; x00; x00] ++ ascii_bytes ".") strict
  = Ok (lit "The value is %99.", 17).
Proof. reflexivity. Qed.

Example main_string_width_precision :
  printf_decode PyFormat.py_format
    ([xa5] ++ ascii_bytes "-11.5shello there" ++ [x00] ++ ascii_bytes ".")
    strict
  = Ok (lit "hello      .", 12).
Proof. reflexivity. Qed.

Example main_special_bytes :
  printf_decode PyFormat.py_format
    ([xa5] ++ ascii_bytes "hh" ++ [xf8; x12; xa5] ++ ascii_bytes "hh"
       ++ [xf8; x34]) strict
  = Ok (lit "1234", 4).
Proof. reflexivity. Qed.

Example main_signed_char :
  printf_decode PyFormat.py_format
    ([xa5] ++ ascii_bytes "hhd" ++ [xff]) strict
  = Ok (lit "-1", 2).
Proof. reflexivity. Qed.

Example main_nul_ends_specifier :
  printf_decode PyFormat.py_format
    ([xa5] ++ ascii_bytes "123456" ++ [x00] ++ ascii_bytes " and " ++ [xa5; xef]
       ++ ascii_bytes "@") strict
  = Ok (lit "%123456 and 100", 15).
Proof. reflexivity. Qed.

Example main_plus_20_X_streaming :
  decode_chunks PyFormat.py_format (init strict)
    [ascii_bytes "The value is " ++ [xa5] ++ ascii_bytes "+2";
     ascii_bytes "0X" ++ [xef; xbe];
     [xad; xde] ++ ascii_bytes "."]
  = (mk strict (lit "%+20X") [xef; xbe; xad; xde] 4 (lit "<I")
       FIND_FMT_START None,
     Ok (lit "The value is            +DEADBEEF.")).
Proof. reflexivity. Qed.

(** From a fresh decoder the invariant holds after any input. *)
Lemma init_buffer_empty_in_specifier (fmt_op : formatter)
    (errors : errors_policy) (input : bytes) :
  buffer_empty_in_specifier (fst (feed fmt_op (init errors) input [])).
Proof.
  apply feed_buffer_empty_in_specifier. intros [H|H]; discriminate.
Qed.

(** ** The formatter's loop reads its format to the end

    The loop of [PyFormat.py_format] is written with a bound on the number
    of characters still to read.  Each specifier consumes at least one
    character, so the bound is never reached: every bound that covers the
    format gives the same result. *)

Lemma parse_flags_length (fmt : pystr) : forall fl,
  (length (snd (PyFormat.parse_flags fmt fl)) <= length fmt)%nat.
Proof.
  induction fmt as [|c fmt IH]; intros fl; cbn [PyFormat.parse_flags].
  - cbn. lia.
  - repeat match goal with
           | |- context [if ?b then _ else _] => destruct b
           end;
    try (match goal with
         | |- context [PyFormat.parse_flags fmt ?f] => specialize (IH f)
         end; cbn [length]; lia).
    cbn. lia.
Qed.

Lemma parse_number_length (limit : Z) (fmt : pystr) : forall acc n rest,
  PyFormat.parse_number limit fmt acc = Ok (n, rest) ->
  (length rest <= length fmt)%nat.
Proof.
  induction fmt as [|c fmt IH]; intros acc n rest;
    cbn [PyFormat.parse_number].
  - intros [= _ <-]. lia.
  - destruct (PyFormat.is_digit c).
    + destruct (acc >? _); [discriminate|].
      intros H. apply IH in H. cbn [length]. lia.
    + intros [= _ <-]. lia.
Qed.

Lemma parse_width_length (fl fl' : PyFormat.flags) (fmt rest : pystr)
    (v : pyval) (used used' : bool) (w : option Z) :
  PyFormat.parse_width fl fmt v used = Ok (fl', w, rest, used') ->
  (length rest <= length fmt)%nat.
Proof.
  unfold PyFormat.parse_width. destruct fmt as [|c fmt].
  - intros [= _ _ <- _]. lia.
  - destruct (c =? ch "*")%N.
    + destruct (PyFormat.star_arg _ v used) as [z|e]; [|discriminate].
      cbn [bind]. destruct (z <? 0); intros [= _ _ <- _]; cbn [length]; lia.
    + destruct (PyFormat.is_digit c).
      * destruct (PyFormat.parse_number _ _ _) as [[n r]|e] eqn:E;
          [|discriminate].
        cbn [bind]. intros [= _ _ <- _].
        now apply parse_number_length in E.
      * intros [= _ _ <- _]. lia.
Qed.

Lemma parse_prec_length (fmt rest : pystr) (v : pyval) (used used' : bool)
    (p : option Z) :
  PyFormat.parse_prec fmt v used = Ok (p, rest, used') ->
  (length rest <= length fmt)%nat.
Proof.
  unfold PyFormat.parse_prec. destruct fmt as [|c fmt].
  - intros [= _ <- _]. lia.
  - destruct (c =? ch ".")%N; [|intros [= _ <- _]; lia].
    destruct fmt as [|c' fmt]; [intros [= _ <- _]; cbn [length]; lia|].
    destruct (c' =? ch "*")%N.
    + destruct (PyFormat.star_arg _ v used) as [z|e]; [|discriminate].
      cbn [bind]. intros [= _ <- _]. cbn [length]. lia.
    + destruct (PyFormat.is_digit c').
      * destruct (PyFormat.parse_number _ _ _) as [[n r]|e] eqn:E;
          [|discriminate].
        cbn [bind]. intros [= _ <- _].
        apply parse_number_length in E. cbn [length] in *. lia.
      * intros [= _ <- _]. cbn [length]. lia.
Qed.

Lemma skip_length_prefix_length (fmt : pystr) :
  (length (PyFormat.skip_length_prefix fmt) <= length fmt)%nat.
Proof.
  unfold PyFormat.skip_length_prefix. destruct fmt as [|c fmt]; [lia|].
  destruct (_ || _); cbn [length]; lia.
Qed.

Lemma parse_arg_length (fmt : pystr) (v : pyval) (used : bool)
    (sp : PyFormat.spec) (rest : pystr) (used' : bool) :
  PyFormat.parse_arg fmt v used = Ok (sp, rest, used') ->
  (length rest < length fmt)%nat.
Proof.
  unfold PyFormat.parse_arg.
  destruct (match fmt with c :: _ => (c =? ch "(")%N | [] => false end);
    [discriminate|].
  pose proof (parse_flags_length fmt
                (PyFormat.mkflags false false false false false)) as Hfl.
  destruct (PyFormat.parse_flags fmt _) as [fl fmt1]. cbn [snd] in Hfl.
  destruct (PyFormat.parse_width fl fmt1 v used)
    as [[[[fl' w] fmt2] used1]|e] eqn:Hw; [|discriminate].
  apply parse_width_length in Hw. cbn [bind].
  destruct (PyFormat.parse_prec fmt2 v used1)
    as [[[p fmt3] used2]|e] eqn:Hp; [|discriminate].
  apply parse_prec_length in Hp. cbn [bind].
  pose proof (skip_length_prefix_length fmt3) as Hs.
  destruct (PyFormat.skip_length_prefix fmt3) as [|c fmt4]; [discriminate|].
  intros [= _ <- _]. cbn [length] in Hs. lia.
Qed.

Lemma format_loop_fuel (fuel1 : nat) :
  forall fuel2 fmt v used acc,
    (length fmt <= fuel1)%nat -> (length fmt <= fuel2)%nat ->
    PyFormat.format_loop fuel1 fmt v used acc
    = PyFormat.format_loop fuel2 fmt v used acc.
Proof.
  induction fuel1 as [|fuel1 IH]; intros fuel2 fmt v used acc H1 H2.
  - destruct fmt; [|cbn [length] in H1; lia]. now destruct fuel2.
  - destruct fuel2 as [|fuel2].
    + destruct fmt; [reflexivity|cbn [length] in H2; lia].
    + cbn [PyFormat.format_loop].
      destruct fmt as [|c rest]; [reflexivity|]. cbn [length] in H1, H2.
      destruct (negb (c =? ch "%")%N); [apply IH; lia|].
      destruct rest as [|c' rest']; [reflexivity|]. cbn [length] in H1, H2.
      destruct (c' =? ch "%")%N; [apply IH; lia|].
      destruct (PyFormat.parse_arg (c' :: rest') v used)
        as [[[sp rest2] used2]|e] eqn:Hparse; [|reflexivity].
      apply parse_arg_length in Hparse. cbn [length] in Hparse. cbn [bind].
      destruct (PyFormat.getnextarg v used2); [|reflexivity]. cbn [bind].
      destruct (PyFormat.convert sp a); [|reflexivity]. cbn [bind].
      apply IH; lia.
Qed.

(** [py_format] with any larger bound. *)
Lemma py_format_fuel (fuel : nat) (print_fmt : pystr) (val : pyval) :
  (length print_fmt <= fuel)%nat ->
  PyFormat.format_loop fuel print_fmt val false []
  = PyFormat.py_format print_fmt val.
Proof.
  intros H. unfold PyFormat.py_format. apply format_loop_fuel; lia.
Qed.

(** * The rest of the module *)

(** ** The encoders and the codec class *)

(** [bytes(data, 'ascii', errors)] *)
Fixpoint bytes_ascii (data : pystr) (errors : errors_policy) : result bytes :=
  match data with
  | [] => Ok []
  | c :: rest =>
      match (if (c <? 128)%N then Byte.of_N c else None) with
      | Some b => t <- bytes_ascii rest errors ;; Ok (b :: t)
      | None =>
          match errors with
          | strict => Raise UnicodeEncodeError
          | replace => t <- bytes_ascii rest errors ;; Ok (x3f :: t)
          | ignore => bytes_ascii rest errors
          end
      end
  end.

(** [printf_encode(data, errors)] *)
Definition printf_encode (data : pystr) (errors : errors_policy)
  : result (bytes * Z) :=
  b <- bytes_ascii data errors ;;
  Ok (b, py_len data).

Module Printf_Codec.

(** [Printf_Codec.encode(data, errors)] *)
Definition encode (data : pystr) (errors : errors_policy) : result bytes :=
  bytes_ascii data errors.

(** [Printf_Codec.decode(data, errors)] *)
Definition decode (fmt_op : formatter) (data : bytes) (errors : errors_policy)
  : result pystr :=
  p <- printf_decode fmt_op data errors ;;
  Ok (fst p).

End Printf_Codec.

Module Printf_IncrementalEncoder.

(** [Printf_IncrementalEncoder.encode(input, final)], for an encoder built
    with the policy [errors]. *)
Definition encode (errors : errors_policy) (input : pystr) (final : bool)
  : result bytes :=
  bytes_ascii input errors.

End Printf_IncrementalEncoder.

(** ** Indexing from the end *)

Lemma item_last {A} (s : list A) (x : A) : item (s ++ [x]) (-1) = Ok x.
Proof.
  unfold item, py_len. change (-1 <? 0) with true. cbv iota.
  rewrite length_app. cbn [length].
  destruct (Z.ltb_spec (-1 + Z.of_nat (length s + 1)) 0) as [H|H]; [lia|].
  replace (Z.to_nat (-1 + Z.of_nat (length s + 1))) with (length s) by lia.
  rewrite nth_error_app2, Nat.sub_diag; [reflexivity|lia].
Qed.

Lemma item_of_nil {A} (i : Z) : item (@nil A) i = Raise IndexError.
Proof.
  unfold item. destruct (_ <? 0); [reflexivity|].
  now destruct (Z.to_nat _).
Qed.

Lemma last_split {A} (l : list A) : l = [] \/ exists s x, l = s ++ [x].
Proof.
  destruct l as [|a l]; [now left|right].
  destruct (exists_last (l := a :: l)) as (s & x & ->); [discriminate|].
  now exists s, x.
Qed.

(** ** [parse_length_chars] *)

(** The return statement of [parse_length_chars]. *)
Definition with_val_char (print_fmt len_chars : pystr) (val_char : option pystr)
  : pystr * pystr :=
  match val_char with
  | Some ((_ :: _) as v) => (print_fmt ++ v, len_chars ++ v)
  | _ => (print_fmt, len_chars)
  end.

Lemma parse_length_chars_nil (val_char : option pystr) :
  parse_length_chars [] val_char = Raise IndexError.
Proof.
  reflexivity.
Qed.

Lemma parse_length_chars_snoc (s : pystr) (x : N) (val_char : option pystr) :
  parse_length_chars (s ++ [x]) val_char =
  if negb (in_set x len_char_set) then Ok (with_val_char (s ++ [x]) [] val_char)
  else if (x =? ch "h")%N then
    match s with
    | [] => Raise IndexError
    | _ :: _ =>
        if (last s 0 =? ch "h")%N
        then Ok (with_val_char (removelast s) (lit "hh") val_char)
        else Ok (with_val_char s (lit "h") val_char)
    end
  else if (x =? ch "l")%N then
    match s with
    | [] => Raise IndexError
    | _ :: _ =>
        if (last s 0 =? ch "l")%N
        then Ok (with_val_char (removelast s) [] val_char)
        else Ok (with_val_char s [] val_char)
    end
  else Ok (with_val_char s [] val_char).
Proof.
  assert (Hret : forall pf lc,
            match val_char with
            | Some ((_ :: _) as v) => Ok (pf ++ v, lc ++ v)
            | _ => Ok (pf, lc)
            end = Ok (with_val_char pf lc val_char)).
  { intros pf lc. unfold with_val_char. now destruct val_char as [[|? ?]|]. }
  unfold parse_length_chars. rewrite item_last. cbn [bind].
  destruct (in_set x len_char_set) eqn:Hset; cbn [negb bind]; [|apply Hret].
  cbv zeta. rewrite slice_drop_last.
  destruct (N.eqb_spec x (ch "h")) as [->|Hh].
  - change (ch "h" =? ch "l")%N with false. cbv iota.
    destruct (last_split s) as [->|(s' & y & ->)]; [reflexivity|].
    rewrite item_last, last_last, removelast_last, slice_drop_last.
    destruct (s' ++ [y]) eqn:E; [now destruct s'|]. rewrite <- E.
    cbn [bind]. destruct (N.eqb_spec y (ch "h")) as [->|_]; cbn [bind];
      apply Hret.
  - cbn [bind]. destruct (N.eqb_spec x (ch "l")) as [->|Hl]; [|apply Hret].
    destruct (last_split s) as [->|(s' & y & ->)]; [reflexivity|].
    rewrite item_last, last_last, removelast_last, slice_drop_last.
    destruct (s' ++ [y]) eqn:E; [now destruct s'|]. rewrite <- E.
    cbn [bind]. destruct (y =? ch "l")%N; cbn [bind]; apply Hret.
Qed.

(** X1: [parse_length_chars] raises only [IndexError], and exactly on the
    empty format and on the formats "h" and "l" (a length character with
    nothing before it to compare with). *)
Theorem parse_length_chars_raises (print_fmt : pystr)
    (val_char : option pystr) (e : exn) :
  parse_length_chars print_fmt val_char = Raise e
  <-> e = IndexError
      /\ (print_fmt = [] \/ print_fmt = lit "h" \/ print_fmt = lit "l").
Proof.
  destruct (last_split print_fmt) as [->|(s & x & ->)].
  - rewrite parse_length_chars_nil. split.
    + intros [= <-]. auto.
    + now intros [-> _].
  - rewrite parse_length_chars_snoc.
    destruct (in_set x len_char_set) eqn:Hset; cbn [negb].
    + destruct (N.eqb_spec x (ch "h")) as [->|Hh];
        [|destruct (N.eqb_spec x (ch "l")) as [->|Hl]].
      * destruct s as [|a s].
        -- split; [intros [= <-]; auto|now intros [-> _]].
        -- split.
           ++ destruct (last (a :: s) 0 =? ch "h")%N; discriminate.
           ++ intros [_ [H|[H|H]]]; destruct s; discriminate.
      * destruct s as [|a s].
        -- split; [intros [= <-]; auto|now intros [-> _]].
        -- split.
           ++ destruct (last (a :: s) 0 =? ch "l")%N; discriminate.
           ++ intros [_ [H|[H|H]]]; destruct s; discriminate.
      * split; [discriminate|].
        intros [_ [H|[H|H]]].
        -- now destruct s.
        -- destruct s as [|a [|b s]]; try discriminate.
           injection H as ->. now elim Hh.
        -- destruct s as [|a [|b s]]; try discriminate.
           injection H as ->. now elim Hl.
    + split; [discriminate|].
      intros [_ [H|[H|H]]].
      * now destruct s.
      * destruct s as [|a [|b s]]; try discriminate.
        injection H as ->. discriminate.
      * destruct s as [|a [|b s]]; try discriminate.
        injection H as ->. discriminate.
Qed.

Lemma parse_length_chars_raises_witness :
  IndexError = IndexError
  /\ (lit "h" = [] \/ lit "h" = lit "h" \/ lit "h" = lit "l").
Proof.
  apply (proj1 (parse_length_chars_raises (lit "h") (Some (lit "d"))
                  IndexError)).
  reflexivity.
Defined.

(** X2: when [parse_length_chars] returns, the cleaned format is the given
    one without a suffix of at most two length characters, followed by the
    conversion letter; the width tag is made of the letters "h" of that
    suffix, followed by the conversion letter. *)
Theorem parse_length_chars_strips (print_fmt : pystr)
    (val_char : option pystr) (p lc : pystr)
    (Hparse : parse_length_chars print_fmt val_char = Ok (p, lc)) :
  exists base stripped,
    print_fmt = base ++ stripped
    /\ (length stripped <= 2)%nat
    /\ forallb (fun c => in_set c len_char_set) stripped = true
    /\ (p, lc) = with_val_char base
                   (filter (fun c => (c =? ch "h")%N) stripped) val_char.
Proof.
  destruct (last_split print_fmt) as [->|(s & x & ->)]; [discriminate|].
  rewrite parse_length_chars_snoc in Hparse.
  destruct (in_set x len_char_set) eqn:Hset; cbn [negb] in Hparse.
  - destruct (N.eqb_spec x (ch "h")) as [->|Hh];
      [|destruct (N.eqb_spec x (ch "l")) as [->|Hl]].
    + destruct (last_split s) as [->|(s' & y & ->)]; [discriminate|].
      destruct (s' ++ [y]) eqn:E; [now destruct s'|]. rewrite <- E in *.
      rewrite last_last, removelast_last in Hparse.
      destruct (N.eqb_spec y (ch "h")) as [->|Hy]; injection Hparse as Hp.
      * exists s', (lit "hh"). rewrite <- app_assoc. repeat split; auto.
      * exists (s' ++ [y]), (lit "h"). repeat split; auto.
    + destruct (last_split s) as [->|(s' & y & ->)]; [discriminate|].
      destruct (s' ++ [y]) eqn:E; [now destruct s'|]. rewrite <- E in *.
      rewrite last_last, removelast_last in Hparse.
      destruct (N.eqb_spec y (ch "l")) as [->|Hy]; injection Hparse as Hp.
      * exists s', (lit "ll"). rewrite <- app_assoc. repeat split; auto.
      * exists (s' ++ [y]), (lit "l"). repeat split; auto.
    + injection Hparse as Hp. exists s, [x]. repeat split; auto.
      * cbn [forallb]. now rewrite Hset.
      * cbn [filter]. destruct (N.eqb_spec x (ch "h")); [contradiction|].
        now rewrite Hp.
  - injection Hparse as Hp. exists (s ++ [x]), []. rewrite app_nil_r.
    repeat split; auto.
Qed.

Lemma parse_length_chars_strips_witness :
  exists base stripped,
    lit "%-5hh" = base ++ stripped
    /\ (length stripped <= 2)%nat
    /\ forallb (fun c => in_set c len_char_set) stripped = true
    /\ (lit "%-5x", lit "hhx")
       = with_val_char base (filter (fun c => (c =? ch "h")%N) stripped)
           (Some (lit "x")).
Proof.
  apply (@parse_length_chars_strips (lit "%-5hh") (Some (lit "x"))
           (lit "%-5x") (lit "hhx")).
  reflexivity.
Defined.

Lemma in_VALUE_FORMAT_letters (c : N) :
  in_VALUE_FORMAT c = in_set c (map ch ["d"; "u"; "o"; "x"; "X"]%char).
Proof.
  unfold in_VALUE_FORMAT, dict_in, VALUE_FORMAT, in_set.
  cbn [existsb fst lit list_ascii_of_string map str_eqb].
  now rewrite ?andb_true_r, ?andb_false_r, ?orb_false_r.
Qed.

Lemma value_format_letters (c : N) :
  in_VALUE_FORMAT c = true ->
  c = ch "d" \/ c = ch "u" \/ c = ch "o" \/ c = ch "x" \/ c = ch "X".
Proof.
  rewrite in_VALUE_FORMAT_letters. unfold in_set. cbn [existsb map].
  rewrite !orb_true_iff, !N.eqb_eq. intuition discriminate.
Qed.

Lemma numeric_layout (print_fmt : pystr) (c : N) (p lc : pystr)
    (Hc : in_VALUE_FORMAT c = true)
    (Hparse : parse_length_chars print_fmt (Some [c]) = Ok (p, lc)) :
  exists fmt n,
    dict_get str_eqb VALUE_FORMAT lc = Ok fmt
    /\ calcsize fmt = Ok n
    /\ n = (if (last print_fmt 0 =? ch "h")%N
            then if (last (removelast print_fmt) 0 =? ch "h")%N then 1 else 2
            else 4)
    /\ forall data,
         py_len data = n ->
         unpack fmt data
         = Ok (VInt (if (c =? ch "d")%N then le_signed data
                     else le_unsigned data)).
Proof.
  assert (Hrule : forall hs n,
            (hs = [] /\ n = 4) \/ (hs = lit "h" /\ n = 2)
            \/ (hs = lit "hh" /\ n = 1) ->
            exists fmt,
              dict_get str_eqb VALUE_FORMAT (hs ++ [c]) = Ok fmt
              /\ calcsize fmt = Ok n
              /\ forall data,
                   py_len data = n ->
                   unpack fmt data
                   = Ok (VInt (if (c =? ch "d")%N then le_signed data
                               else le_unsigned data))).
  { intros hs n Hhs.
    destruct (value_format_letters _ Hc) as [-> | [-> | [-> | [-> | ->]]]];
      destruct Hhs as [ [-> ->] | [ [-> ->] | [-> ->] ] ];
      (eexists; split; [reflexivity|]; split; [reflexivity|];
       intros data Hdata; unfold unpack; cbn [calcsize bind];
       match goal with
       | |- context [calcsize ?f] =>
           let r := eval vm_compute in (calcsize f) in
           change (calcsize f) with r
       end;
       cbn [bind]; rewrite Hdata, Z.eqb_refl; reflexivity). }
  destruct (last_split print_fmt) as [->|(s & x & ->)]; [discriminate|].
  rewrite parse_length_chars_snoc in Hparse.
  rewrite last_last, removelast_last.
  destruct (in_set x len_char_set) eqn:Hset; cbn [negb] in Hparse.
  - destruct (N.eqb_spec x (ch "h")) as [->|Hh];
      [|destruct (N.eqb_spec x (ch "l")) as [->|Hl]].
    + destruct (last_split s) as [->|(s' & y & ->)]; [discriminate|].
      destruct (s' ++ [y]) eqn:E; [now destruct s'|]. rewrite <- E in *.
      rewrite last_last in *.
      destruct (y =? ch "h")%N; injection Hparse as _ <-.
      * destruct (Hrule (lit "hh") 1) as (fmt & ? & ? & ?); [auto|].
        exists fmt, 1. auto.
      * destruct (Hrule (lit "h") 2) as (fmt & ? & ? & ?); [auto|].
        exists fmt, 2. auto.
    + destruct (last_split s) as [->|(s' & y & ->)]; [discriminate|].
      destruct (s' ++ [y]) eqn:E; [now destruct s'|]. rewrite <- E in *.
      destruct (last (s' ++ [y]) 0 =? ch "l")%N; injection Hparse as _ <-;
        destruct (Hrule [] 4) as (fmt & ? & ? & ?); auto;
        exists fmt, 4; auto.
    + injection Hparse as _ <-.
      destruct (Hrule [] 4) as (fmt & ? & ? & ?); [auto|].
      exists fmt, 4. auto.
  - injection Hparse as _ <-.
    destruct (N.eqb_spec x (ch "h")) as [->|Hh]; [discriminate|].
    destruct (Hrule [] 4) as (fmt & ? & ? & ?); [auto|].
    exists fmt, 4. auto.
Qed.

(** X3: for a numeric conversion letter the width tag returned by
    [parse_length_chars] is always a key of [VALUE_FORMAT]: the lookup
    cannot fail.  The format found has 1 byte after "hh", 2 bytes after one
    "h" and 4 bytes otherwise, and unpacks a little-endian number that is
    signed for "d" and unsigned for "u", "o", "x" and "X". *)
Theorem numeric_unpack_rule (print_fmt : pystr) (c : N) (p lc : pystr)
    (Hc : in_VALUE_FORMAT c = true)
    (Hparse : parse_length_chars print_fmt (Some [c]) = Ok (p, lc)) :
  exists fmt n,
    dict_get str_eqb VALUE_FORMAT lc = Ok fmt
    /\ calcsize fmt = Ok n
    /\ n = (if (last print_fmt 0 =? ch "h")%N
            then if (last (removelast print_fmt) 0 =? ch "h")%N then 1 else 2
            else 4)
    /\ forall data,
         py_len data = n ->
         unpack fmt data
         = Ok (VInt (if (c =? ch "d")%N then le_signed data
                     else le_unsigned data)).
Proof.
  now apply numeric_layout with (p := p).
Qed.

Lemma numeric_unpack_rule_witness :
  exists fmt n,
    dict_get str_eqb VALUE_FORMAT (lit "hd") = Ok fmt
    /\ calcsize fmt = Ok n
    /\ n = 2
    /\ forall data,
         py_len data = n -> unpack fmt data = Ok (VInt (le_signed data)).
Proof.
  apply (@numeric_unpack_rule (lit "%+5h") (ch "d") (lit "%+5d") (lit "hd"));
    reflexivity.
Defined.

(** ** The exceptions of [printf_decode] *)


Lemma decode_ascii_raises (errors : errors_policy) (data : bytes) (e : exn) :
  decode_ascii errors data = Raise e ->
  e = UnicodeDecodeError /\ errors = strict.
Proof.
  induction data as [|b data IH]; cbn [decode_ascii]; [discriminate|].
  unfold decode_ascii_byte.
  destruct (Byte.to_N b <? 128)%N; cbn [bind].
  - destruct (decode_ascii errors data); [discriminate|].
    intros [= <-]. now apply IH.
  - destruct errors; cbn [bind].
    + now intros [= <-].
    + destruct (decode_ascii replace data); [discriminate|].
      intros [= <-]. now apply IH.
    + destruct (decode_ascii ignore data); [discriminate|].
      intros [= <-]. now apply IH.
Qed.




Lemma sprintf_raises (fmt_op : formatter) (print_fmt : pystr) (val : pyval)
    (e : exn) :
  sprintf fmt_op print_fmt val = Raise e ->
  e <> TypeError /\ fmt_op print_fmt val = Raise e.
Proof.
  unfold sprintf. destruct (fmt_op print_fmt val) as [t|e']; [discriminate|].
  destruct e'; intros [= <-]; split; congruence.
Qed.


Lemma dict_get_in {K V} (eqb : K -> K -> bool) (d : list (K * V)) (k : K) :
  dict_in eqb d k = true -> exists v, dict_get eqb d k = Ok v.
Proof.
  unfold dict_in. induction d as [|[k' v] d IH]; cbn [existsb dict_get fst].
  - discriminate.
  - destruct (eqb k k'); [now exists v|exact IH].
Qed.


Section OneShotExceptions.

Variable fmt_op : formatter.
Variable errors : errors_policy.










End OneShotExceptions.



(** ** The encoders *)

Definition is_ascii (c : N) : bool := (c <? 128)%N.

Lemma of_N_ascii (c : N) :
  (c <? 128)%N = true -> exists b, Byte.of_N c = Some b /\ chr b = c.
Proof.
  intros Hc. apply N.ltb_lt in Hc.
  destruct (Byte.of_N c) as [b|] eqn:Hb.
  - exists b. split; [reflexivity|]. unfold chr. now apply Byte.to_of_N.
  - apply Byte.of_N_None_iff in Hb. lia.
Qed.


Lemma bytes_ascii_of_ascii (data : pystr) (errors : errors_policy) :
  forallb is_ascii data = true ->
  exists b, bytes_ascii data errors = Ok b /\ map chr b = data.
Proof.
  unfold is_ascii.
  induction data as [|c data IH]; cbn [bytes_ascii forallb].
  - intros _. now exists [].
  - intros [Hc Hdata]%andb_prop. rewrite Hc.
    destruct (of_N_ascii _ Hc) as (x & -> & Hx).
    destruct (IH Hdata) as (b & -> & Hb). cbn [bind].
    exists (x :: b). cbn [map]. now rewrite Hx, Hb.
Qed.

(** The bytes the encoders produce are ASCII: none is the marker. *)
Lemma bytes_ascii_is_ascii (data : pystr) (errors : errors_policy) :
  forall b, bytes_ascii data errors = Ok b ->
            forallb (fun x => is_ascii (chr x)) b = true.
Proof.
  unfold is_ascii.
  induction data as [|c data IH]; cbn [bytes_ascii]; intros b.
  - now intros [= <-].
  - destruct (c <? 128)%N eqn:Hc.
    + destruct (of_N_ascii _ Hc) as (x & -> & Hx).
      destruct (bytes_ascii data errors) as [t|e']; [|discriminate].
      cbn [bind]. intros [= <-]. cbn [forallb]. now rewrite Hx, Hc, IH.
    + destruct errors; [discriminate| |apply IH].
      destruct (bytes_ascii data replace) as [t|e']; [|discriminate].
      cbn [bind]. intros [= <-]. cbn [forallb]. now rewrite IH.
Qed.

Lemma ascii_no_marker (b : bytes) :
  forallb (fun x => is_ascii (chr x)) b = true ->
  forallb (fun x => negb (Byte.eqb x xa5)) b = true.
Proof.
  unfold is_ascii. rewrite !forallb_forall. intros H x Hx.
  specialize (H x Hx). rewrite marker_eqb. apply N.ltb_lt in H.
  destruct (N.eqb_spec (chr x) 165); [lia|reflexivity].
Qed.

Lemma decode_ascii_of_ascii (errors : errors_policy) (b : bytes) :
  forallb (fun x => is_ascii (chr x)) b = true ->
  decode_ascii errors b = Ok (map chr b).
Proof.
  unfold is_ascii, chr.
  induction b as [|x b IH]; cbn [forallb decode_ascii map]; [reflexivity|].
  intros [Hx Hb]%andb_prop. unfold decode_ascii_byte. rewrite Hx, (IH Hb).
  reflexivity.
Qed.



(** X6: on ASCII text the two codec functions are inverse to each other
    whatever the policies: [printf_decode] returns the text that
    [printf_encode] was given, and its length. *)
Theorem printf_encode_decode (fmt_op : formatter) (data : pystr)
    (errors errors' : errors_policy)
    (Hascii : forallb is_ascii data = true) :
  ('(b, _) <- printf_encode data errors ;; printf_decode fmt_op b errors')
  = Ok (data, py_len data).
Proof.
  unfold printf_encode.
  destruct (@bytes_ascii_of_ascii data errors Hascii) as (b & Hb & Hdata).
  rewrite Hb. cbn [bind].
  pose proof (bytes_ascii_is_ascii _ _ Hb) as Hbytes.
  rewrite printf_decode_literal by now apply ascii_no_marker.
  rewrite (decode_ascii_of_ascii _ _ Hbytes), Hdata. reflexivity.
Qed.

Lemma printf_encode_decode_witness :
  ('(b, _) <- printf_encode (lit "50% off") strict ;;
   printf_decode PyFormat.py_format b replace)
  = Ok (lit "50% off", 7).
Proof.
  apply (@printf_encode_decode PyFormat.py_format (lit "50% off") strict
           replace).
  reflexivity.
Defined.

(** X7: the incremental decoder does not invert the incremental encoder on
    ASCII text: it returns the text without its NUL characters, and is left
    as it was created. *)
Theorem incremental_encode_decode (fmt_op : formatter) (data : pystr)
    (errors errors' : errors_policy) (final : bool)
    (Hascii : forallb is_ascii data = true) :
  exists b,
    Printf_IncrementalEncoder.encode errors data final = Ok b
    /\ Printf_IncrementalDecoder.decode fmt_op (init errors') b true
       = (init errors', Ok (filter (fun c => negb (c =? 0)%N) data)).
Proof.
  unfold Printf_IncrementalEncoder.encode.
  destruct (@bytes_ascii_of_ascii data errors Hascii) as (b & Hb & Hdata).
  exists b. split; [exact Hb|].
  pose proof (bytes_ascii_is_ascii _ _ Hb) as Hbytes.
  unfold Printf_IncrementalDecoder.decode.
  rewrite feed_literal; [|reflexivity|now apply ascii_no_marker].
  cbn [state init]. change (phase_eqb FIND_FMT_START FIND_FMT_START) with true.
  rewrite andb_false_r. cbn [app]. f_equal. f_equal. rewrite <- Hdata.
  clear. induction b as [|x b IH]; cbn [filter map]; [reflexivity|].
  rewrite nul_eqb. destruct (chr x =? 0)%N; cbn [negb map]; now rewrite IH.
Qed.

Lemma incremental_encode_decode_witness :
  exists b,
    Printf_IncrementalEncoder.encode strict [ch "a"; 0%N; ch "b"] false = Ok b
    /\ Printf_IncrementalDecoder.decode PyFormat.py_format (init strict) b true
       = (init strict, Ok (lit "ab")).
Proof.
  apply (@incremental_encode_decode PyFormat.py_format [ch "a"; 0%N; ch "b"]
           strict strict false).
  reflexivity.
Defined.

(** ** The exceptions of the incremental decoder *)

Lemma parse_length_chars_template (t : pystr) (val_char : option pystr) :
  exists p lc, parse_length_chars (ch "%" :: t) val_char = Ok (p, lc).
Proof.
  destruct (last_split (ch "%" :: t)) as [H|(s & x & H)]; [discriminate|].
  rewrite H, parse_length_chars_snoc.
  assert (Hs : s = [] -> in_set x len_char_set = false).
  { intros ->. injection H as <- _. reflexivity. }
  assert (Hok : forall pf lc,
             exists p lc',
               Ok (with_val_char pf lc val_char) = Ok (p, lc') :> result _).
  { intros pf lc. destruct (with_val_char pf lc val_char); eauto. }
  destruct (in_set x len_char_set); cbn [negb]; [|apply Hok].
  destruct s as [|a s]; [now discriminate Hs|].
  repeat match goal with
         | |- context [if ?b then _ else _] => destruct b
         end; apply Hok.
Qed.

Lemma slice_from_0_drop_last {A} (s : list A) (x : A) :
  slice (s ++ [x]) (Some 0) (Some (-1)) = s.
Proof.
  rewrite <- (slice_drop_last s x) at 2. unfold slice, clamp.
  change (0 <? 0) with false. cbv iota.
  replace (Z.min 0 (py_len (s ++ [x]))) with 0; [reflexivity|].
  unfold py_len. lia.
Qed.

Lemma unpack_of_calcsize (fmt : pystr) (data : bytes) (n : Z) :
  calcsize fmt = Ok n -> py_len data = n -> exists v, unpack fmt data = Ok v.
Proof.
  intros Hsize Hlen. unfold unpack. rewrite Hsize. cbn [bind].
  rewrite Hlen, Z.eqb_refl. cbn [negb].
  repeat match goal with
         | |- context [if ?b then _ else _] => destruct b
         end; eauto.
Qed.

(** The exceptions that can leave [decode]: the decoding error of the strict
    policy, and whatever the formatter raises apart from [TypeError]. *)
Definition may_leave_decode (fmt_op : formatter) (errors : errors_policy)
    (e : exn) : Prop :=
  (e = UnicodeDecodeError /\ errors = strict)
  \/ (e <> TypeError /\ exists print_fmt val, fmt_op print_fmt val = Raise e).

(** What the attributes satisfy between two steps of a decoder that was
    created by [__init__]: while a specifier is read the template starts
    with "%" and nothing is buffered, and while a value is captured the
    buffer is shorter than the size of the format, unless no size was
    set. *)
Definition consistent (self : decoder) : Prop :=
  match state self with
  | FIND_FMT_END | CAP_WILD =>
      data_buffer self = [] /\ val_len self = 0
      /\ exists t, print_fmt self = ch "%" :: t
  | CAP_VALUE =>
      val_len self = 0
      \/ (py_len (data_buffer self) < val_len self
          /\ calcsize (val_fmt self) = Ok (val_len self))
  | FIND_FMT_START | CAP_TEXT => True
  end.

Section DecoderExceptions.

Variable fmt_op : formatter.

Lemma step_consistent (self : decoder) (val : byte) :
  consistent self ->
  consistent (fst (step fmt_op self val))
  /\ errors (fst (step fmt_op self val)) = errors self
  /\ forall e, snd (step fmt_op self val) = Raise e ->
               may_leave_decode fmt_op (errors self) e.
Proof.
  unfold consistent, step. intros Hinv.
  destruct (state self) eqn:Hstate; cbv zeta.
  - (* FIND_FMT_START *)
    destruct (chr val =? 165)%N; [|destruct (negb _)]; cbn [fst snd];
      fields; try rewrite Hstate; repeat split; try discriminate; eauto.
    now exists [].
  - (* FIND_FMT_END *)
    destruct Hinv as (Hbuf & Hlen & t & Hfmt).
    fields. rewrite Hfmt, slice_drop_last.
    destruct (in_VALUE_FORMAT (chr val)) eqn:Hc.
    + destruct (parse_length_chars_template t (Some [chr val]))
        as (p & lc & Hparse).
      rewrite Hparse. fields.
      destruct (@numeric_layout _ _ _ _ Hc Hparse)
        as (fmt & n & -> & Hsize & Hn & _).
      fields. rewrite Hsize. cbn [fst snd]. fields.
      repeat split; try discriminate.
      right. split; [|exact Hsize]. rewrite Hbuf. unfold py_len. cbn [length].
      rewrite Hn. repeat match goal with
                         | |- context [if ?b then _ else _] => destruct b
                         end; lia.
    + destruct (in_SPECIAL_CHARS (chr val)) eqn:Hsp.
      * destruct (dict_get_in _ _ _ Hsp) as [letter ->]. cbn [bind].
        destruct (parse_length_chars_template t (Some [letter]))
          as (p & lc & ->).
        cbn [fst snd]. fields. repeat split; try discriminate.
        right. rewrite Hbuf. split; [reflexivity|reflexivity].
      * destruct (in_set (chr val) FLOAT_VAL_CHARS).
        { cbn [fst snd]. fields. repeat split; try discriminate.
          right. rewrite Hbuf. split; reflexivity. }
        destruct (in_set (chr val) NON_VALUE_CHARS).
        { destruct (chr val =? ch "c")%N;
            [|destruct (chr val =? ch "s")%N;
              [|destruct (chr val =? ch "%")%N]];
            cbn [fst snd]; fields; try rewrite Hstate;
            repeat split; try discriminate; eauto. }
        destruct (chr val =? ch "*")%N; cbn [fst snd]; fields;
          try rewrite Hstate; repeat split; try discriminate; eauto.
        rewrite app_comm_cons, slice_from_0_drop_last. eauto.
  - (* CAP_VALUE *)
    fields.
    destruct (Z.eqb_spec (py_len (data_buffer self ++ [val])) (val_len self))
      as [Heq|Hne]; cbn [fst snd]; fields.
    + repeat split; try discriminate.
      intros e. destruct Hinv as [H0|[_ Hsize]].
      * exfalso. revert Heq. rewrite H0. unfold py_len. rewrite length_app.
        cbn [length]. lia.
      * destruct (unpack_of_calcsize _ _ Hsize Heq) as [v ->]. cbn [bind].
        intros [Hne Hf]%sprintf_raises. right. eauto.
    + rewrite Hstate. repeat split; try discriminate.
      destruct Hinv as [H0|[Hlt Hsize]]; [now left|right].
      split; [|exact Hsize]. revert Hne Hlt. unfold py_len.
      rewrite length_app. cbn [length]. lia.
  - (* CAP_TEXT *)
    destruct (int_of_byte val =? 0).
    + destruct (decode_ascii (errors self) (data_buffer self)) as [s|e']
        eqn:Hd; cbn [bind].
      * destruct (sprintf fmt_op (print_fmt self) (VStr s)) as [u|e'] eqn:Hs;
          cbn [fst snd]; fields; try rewrite Hstate;
          repeat split; try discriminate.
        intros e [= <-]. apply sprintf_raises in Hs as [Hne Hf].
        right. eauto.
      * cbn [fst snd]. rewrite Hstate. repeat split.
        intros e [= <-]. left. now apply decode_ascii_raises in Hd.
    + cbn [fst snd]. fields. rewrite Hstate. repeat split; discriminate.
  - (* CAP_WILD *)
    destruct Hinv as (Hbuf & Hlen & t & Hfmt).
    cbn [fst snd]. fields. rewrite Hfmt. repeat split; try discriminate; eauto.
    now exists (t ++ str_of_int (int_of_byte val)).
Qed.

Lemma feed_consistent (input : bytes) : forall self r,
  consistent self ->
  consistent (fst (feed fmt_op self input r))
  /\ errors (fst (feed fmt_op self input r)) = errors self
  /\ forall e, snd (feed fmt_op self input r) = Raise e ->
               may_leave_decode fmt_op (errors self) e.
Proof.
  induction input as [|val input IH]; intros self r Hinv; cbn [feed].
  - cbn [fst snd]. repeat split; [exact Hinv|discriminate].
  - destruct (@step_consistent self val Hinv) as (Hinv1 & Herr1 & Hraise1).
    destruct (step fmt_op self val) as [self1 [t|e1]]; cbn [fst snd] in *.
    + destruct (IH self1 (r ++ t) Hinv1) as (Hinv2 & Herr2 & Hraise2).
      rewrite <- Herr1. repeat split; [exact Hinv2|congruence|exact Hraise2].
    + repeat split; [exact Hinv1|exact Herr1|].
      intros e [= <-]. now apply Hraise1.
Qed.

Lemma reset_consistent (self : decoder) : consistent (reset self).
Proof. exact I. Qed.

Lemma decode_consistent (self : decoder) (input : bytes) (final : bool) :
  consistent self ->
  consistent (fst (decode fmt_op self input final))
  /\ errors (fst (decode fmt_op self input final)) = errors self
  /\ forall e, snd (decode fmt_op self input final) = Raise e ->
               may_leave_decode fmt_op (errors self) e.
Proof.
  intros Hinv. unfold decode.
  destruct (@feed_consistent input self [] Hinv) as (Hinv1 & Herr1 & Hraise1).
  destruct (feed fmt_op self input []) as [self1 [r|e1]]; cbn [fst snd] in *.
  - destruct (final && negb (phase_eqb (state self1) FIND_FMT_START)).
    + destruct (decode_ascii (errors self1) (data_buffer self1)) as [t|e1]
        eqn:Hd; cbn [fst snd].
      * repeat split; [exact Herr1|discriminate].
      * repeat split; [exact Hinv1|exact Herr1|].
        intros e [= <-]. left. rewrite <- Herr1.
        now apply decode_ascii_raises in Hd.
    + cbn [fst snd]. repeat split; [exact Hinv1|exact Herr1|discriminate].
  - repeat split; [exact Hinv1|exact Herr1|].
    intros e [= <-]. now apply Hraise1.
Qed.

(** The decoders that a program can hold: one created by [__init__], after
    any calls of [decode], [reset] and [setstate], whether they returned or
    raised. *)
Inductive reachable (errors0 : errors_policy) : decoder -> Prop :=
| reach_init : reachable errors0 (init errors0)
| reach_decode self input final :
    reachable errors0 self ->
    reachable errors0 (fst (decode fmt_op self input final))
| reach_reset self :
    reachable errors0 self -> reachable errors0 (reset self)
| reach_setstate self st :
    reachable errors0 self ->
    reachable errors0 (fst (setstate fmt_op self st)).

Lemma reachable_consistent (errors0 : errors_policy) (self : decoder) :
  reachable errors0 self -> consistent self /\ errors self = errors0.
Proof.
  induction 1 as [|self input final _ [Hinv Herr]|self _ [Hinv Herr]
                 |self st _ [Hinv Herr]].
  - split; [exact I|reflexivity].
  - destruct (@decode_consistent self input final Hinv) as (H1 & H2 & _).
    split; [exact H1|congruence].
  - split; [exact I|exact Herr].
  - unfold setstate.
    destruct (@decode_consistent (reset self) (fst st) false
                (reset_consistent self))
      as (H1 & H2 & _).
    destruct (decode fmt_op (reset self) (fst st) false) as [self1 [u|e]];
      cbn [fst] in *; (split; [exact H1|]); rewrite H2; exact Herr.
Qed.

End DecoderExceptions.



(** X9: what a decoding session returns, and the decoder it leaves, depend
    on the bytes only, not on how they are cut into chunks. *)
Theorem decode_chunks_cut (fmt_op : formatter) (self : decoder)
    (chunks chunks' : list bytes)
    (Hbytes : concat chunks = concat chunks') :
  decode_chunks fmt_op self chunks = decode_chunks fmt_op self chunks'.
Proof.
  now rewrite !decode_chunks_concat, Hbytes.
Qed.

Lemma decode_chunks_cut_witness :
  decode_chunks PyFormat.py_format (init strict)
    [[x61; xa5; x68]; [x64; x2a]; [x00; x62]]
  = decode_chunks PyFormat.py_format (init strict)
      [[x61]; []; [xa5; x68; x64; x2a; x00]; [x62]].
Proof.
  apply (@decode_chunks_cut PyFormat.py_format (init strict)
           [[x61; xa5; x68]; [x64; x2a]; [x00; x62]]
           [[x61]; []; [xa5; x68; x64; x2a; x00]; [x62]]).
  reflexivity.
Defined.

(** ** Specifiers

    The bytes between the marker and the character that ends a specifier,
    as both decoders read them: a byte that is neither a specifier
    character nor "*" stands for its character, and "*" followed by a byte
    stands for the decimal digits of that byte's value. *)

Inductive spec_item :=
| Plain (b : byte)
| Wild (w : byte).

Definition plain (b : byte) : bool :=
  negb (in_set (chr b) SPECIFIER_CHARS) && negb (chr b =? ch "*")%N.

Definition spec_ok (s : spec_item) : bool :=
  match s with
  | Plain b => plain b
  | Wild _ => true
  end.

Definition spec_bytes (spec : list spec_item) : bytes :=
  flat_map (fun s => match s with
                     | Plain b => [b]
                     | Wild w => [x2a; w]
                     end) spec.

Definition spec_text (spec : list spec_item) : pystr :=
  flat_map (fun s => match s with
                     | Plain b => [chr b]
                     | Wild w => str_of_int (int_of_byte w)
                     end) spec.

Lemma plain_cases (b : byte) :
  plain b = true ->
  in_set (chr b) SPECIFIER_CHARS = false
  /\ (chr b =? ch "*")%N = false
  /\ (chr b =? 0)%N = false
  /\ in_VALUE_FORMAT (chr b) = false
  /\ in_SPECIAL_CHARS (chr b) = false
  /\ in_set (chr b) FLOAT_VAL_CHARS = false
  /\ in_set (chr b) NON_VALUE_CHARS = false.
Proof.
  destruct b; vm_compute; intros H; first [discriminate H|repeat split].
Qed.

Lemma star_cases :
  in_set (chr x2a) SPECIFIER_CHARS = false
  /\ in_VALUE_FORMAT (chr x2a) = false
  /\ in_SPECIAL_CHARS (chr x2a) = false
  /\ in_set (chr x2a) FLOAT_VAL_CHARS = false
  /\ in_set (chr x2a) NON_VALUE_CHARS = false.
Proof. repeat split. Qed.

(** The one-shot decoder's scan of a specifier that is followed by a
    specifier character. *)
Lemma scan_spec (spec : list spec_item) (term : byte) (rest : bytes) :
  forallb spec_ok spec = true ->
  in_set (chr term) SPECIFIER_CHARS = true ->
  forall i print_fmt c,
    scan (spec_bytes spec ++ term :: rest) i print_fmt c =
    Ok (i + py_len (spec_bytes spec) + 1,
        (print_fmt ++ spec_text spec)
          ++ (if (chr term =? 0)%N then [] else [chr term]),
        Some (chr term)).
Proof.
  intros Hspec Hterm.
  induction spec as [|[b|w] spec IH]; intros i print_fmt c;
    cbn [spec_bytes spec_text flat_map app].
  - cbn [scan]. cbv zeta. rewrite Hterm, app_nil_r.
    destruct (N.eqb_spec (chr term) (ch "*")) as [E|_].
    + rewrite E in Hterm. discriminate.
    + unfold py_len. cbn [length]. rewrite Z.add_0_r.
      destruct (chr term =? 0)%N; [now rewrite app_nil_r|reflexivity].
  - cbn [forallb spec_ok] in Hspec. apply andb_prop in Hspec as [Hb Hspec].
    destruct (plain_cases _ Hb) as (Hset & Hstar & Hnul & _).
    cbn [scan]. cbv zeta. rewrite Hstar, Hset, Hnul.
    fold (spec_bytes spec). fold (spec_text spec).
    rewrite (IH Hspec). unfold py_len. cbn [length].
    rewrite <- !app_assoc. cbn [app]. f_equal. f_equal. f_equal. lia.
  - cbn [forallb spec_ok] in Hspec.
    cbn [scan]. cbv zeta. change (chr x2a =? ch "*")%N with true. cbv iota.
    change (in_set (chr x2a) SPECIFIER_CHARS) with false. cbv iota.
    fold (spec_bytes spec). fold (spec_text spec).
    rewrite (IH Hspec). unfold py_len. cbn [length].
    rewrite <- !app_assoc. f_equal. f_equal. f_equal. lia.
Qed.

(** The steps of the incremental decoder inside a specifier. *)
Lemma step_plain (fmt_op : formatter) (self : decoder) (b : byte) :
  state self = FIND_FMT_END ->
  plain b = true ->
  step fmt_op self b
  = (set_print_fmt (print_fmt self ++ [chr b]) self, Ok []).
Proof.
  intros Hstate Hb.
  destruct (plain_cases _ Hb) as (_ & Hstar & _ & Hv & Hsp & Hf & Hn).
  unfold step. rewrite Hstate. cbv zeta.
  now rewrite Hv, Hsp, Hf, Hn, Hstar.
Qed.

Lemma step_star (fmt_op : formatter) (self : decoder) :
  state self = FIND_FMT_END ->
  step fmt_op self x2a = (set_state CAP_WILD self, Ok []).
Proof.
  intros Hstate. unfold step. rewrite Hstate. cbv zeta.
  change (in_VALUE_FORMAT (chr x2a)) with false.
  change (in_SPECIAL_CHARS (chr x2a)) with false.
  change (in_set (chr x2a) FLOAT_VAL_CHARS) with false.
  change (in_set (chr x2a) NON_VALUE_CHARS) with false.
  change (chr x2a =? ch "*")%N with true. cbv iota.
  destruct self as [e pf buf vl vf st l]. fields.
  now rewrite slice_from_0_drop_last.
Qed.

Lemma step_wild (fmt_op : formatter) (self : decoder) (w : byte) :
  state self = CAP_WILD ->
  step fmt_op self w
  = (set_state FIND_FMT_END
       (set_print_fmt (print_fmt self ++ str_of_int (int_of_byte w)) self),
     Ok []).
Proof.
  intros Hstate. unfold step. now rewrite Hstate.
Qed.

(** The incremental decoder's reading of a specifier. *)
Lemma feed_spec (fmt_op : formatter) (spec : list spec_item) (rest : bytes) :
  forallb spec_ok spec = true ->
  forall self r,
    state self = FIND_FMT_END ->
    feed fmt_op self (spec_bytes spec ++ rest) r =
    feed fmt_op (set_print_fmt (print_fmt self ++ spec_text spec) self) rest r.
Proof.
  intros Hspec.
  induction spec as [|[b|w] spec IH]; intros self r Hstate;
    cbn [spec_bytes spec_text flat_map app].
  - rewrite app_nil_r. now destruct self.
  - cbn [forallb spec_ok] in Hspec. apply andb_prop in Hspec as [Hb Hspec].
    cbn [feed]. rewrite (step_plain _ _ _ Hstate Hb), app_nil_r.
    fold (spec_bytes spec). fold (spec_text spec).
    rewrite (IH Hspec); [|exact Hstate].
    destruct self as [e pf buf vl vf st l]. fields.
    now rewrite <- app_assoc.
  - cbn [forallb spec_ok] in Hspec.
    cbn [feed]. rewrite (step_star _ _ Hstate), app_nil_r.
    rewrite step_wild by reflexivity. rewrite app_nil_r.
    fold (spec_bytes spec). fold (spec_text spec).
    rewrite (IH Hspec); [|reflexivity].
    destruct self as [e pf buf vl vf st l]. cbn [state] in Hstate. subst st.
    fields. now rewrite <- app_assoc.
Qed.

(** ** Slices of a concatenation *)

Lemma slice_app_middle {A} (a b c : list A) :
  slice (a ++ b ++ c) (Some (py_len a)) (Some (py_len a + py_len b)) = b.
Proof.
  unfold slice, clamp, py_len. rewrite !length_app.
  destruct (Z.ltb_spec (Z.of_nat (length a)) 0) as [H|_]; [lia|].
  destruct (Z.ltb_spec (Z.of_nat (length a) + Z.of_nat (length b)) 0)
    as [H|_]; [lia|].
  rewrite !Z.min_l by lia.
  replace (Z.to_nat (_ + _ - _)) with (length b) by lia.
  rewrite Nat2Z.id, skipn_app, skipn_all, Nat.sub_diag. cbn [app skipn].
  rewrite firstn_app, firstn_all, Nat.sub_diag. cbn [firstn].
  apply app_nil_r.
Qed.

Lemma py_len_app {A} (a b : list A) : py_len (a ++ b) = py_len a + py_len b.
Proof. unfold py_len. rewrite length_app. lia. Qed.

Lemma slice_app_suffix {A} (a c : list A) :
  slice (a ++ c) (Some (py_len a)) None = c.
Proof.
  unfold slice, clamp, py_len. rewrite !length_app.
  destruct (Z.ltb_spec (Z.of_nat (length a)) 0) as [H|_]; [lia|].
  rewrite Z.min_l by lia.
  replace (Z.to_nat (_ - _)) with (length c) by lia.
  rewrite Nat2Z.id, skipn_app, skipn_all, Nat.sub_diag. cbn [app skipn].
  apply firstn_all.
Qed.

Lemma item_app {A} (a c : list A) (x : A) :
  item (a ++ x :: c) (py_len a) = Ok x.
Proof.
  unfold item, py_len.
  destruct (Z.ltb_spec (Z.of_nat (length a)) 0) as [H|_]; [lia|].
  destruct (Z.ltb_spec (Z.of_nat (length a)) 0) as [H|_]; [lia|].
  rewrite Nat2Z.id, nth_error_app2, Nat.sub_diag; [reflexivity|lia].
Qed.

(** ** Streams of complete records

    A stream is cut into literal text, records with a fixed number of
    argument bytes (numeric, special-byte and floating-point records) and
    string records that end with a NUL byte. *)

Inductive stream_item :=
| Text (t : bytes)
| Value (spec : list spec_item) (term : byte) (payload : bytes)
| Str (spec : list spec_item) (payload : bytes).

(** The template of a record, before its terminal character. *)
Definition template (spec : list spec_item) : pystr :=
  ch "%" :: spec_text spec.

(** The number of argument bytes of a record that ends on [c]. *)
Definition payload_len (spec : list spec_item) (c : N) : option Z :=
  if in_VALUE_FORMAT c then
    Some (if (last (template spec) 0 =? ch "h")%N then
            if (last (removelast (template spec)) 0 =? ch "h")%N then 1
            else 2
          else 4)
  else if in_SPECIAL_CHARS c then Some 1
  else if in_set c FLOAT_VAL_CHARS then Some 4
  else None.

(** The bytes of an item. *)
Definition wire (it : stream_item) : bytes :=
  match it with
  | Text t => t
  | Value spec term payload => xa5 :: spec_bytes spec ++ term :: payload
  | Str spec payload => xa5 :: spec_bytes spec ++ x73 :: payload ++ [x00]
  end.

(** Literal text is ASCII without NUL, a specifier is made of plain bytes
    and wildcards, a value record has all its argument bytes, and the
    payload of a string record has no NUL byte. *)
Definition item_ok (it : stream_item) : bool :=
  match it with
  | Text t => forallb (fun b => is_ascii (chr b) && negb (chr b =? 0)%N) t
  | Value spec term payload =>
      forallb spec_ok spec
      && match payload_len spec (chr term) with
         | Some n => py_len payload =? n
         | None => false
         end
  | Str spec payload =>
      forallb spec_ok spec
      && forallb (fun b => negb (Byte.eqb b x00)) payload
  end.

(** The text of a value record: the template, cleaned of its length
    characters, applied to the value of the argument bytes. *)
Definition value_text (fmt_op : formatter) (spec : list spec_item)
    (term : byte) (payload : bytes) : result pystr :=
  let c := chr term in
  if in_VALUE_FORMAT c then
    '(p, lc) <- parse_length_chars (template spec) (Some [c]) ;;
    fmt <- dict_get str_eqb VALUE_FORMAT lc ;;
    v <- unpack fmt payload ;;
    sprintf fmt_op p v
  else if in_SPECIAL_CHARS c then
    letter <- dict_get N.eqb SPECIAL_CHARS c ;;
    '(p, _) <- parse_length_chars (template spec) (Some [letter]) ;;
    b <- item payload 0 ;;
    sprintf fmt_op p (VInt (int_of_byte b))
  else
    v <- unpack (lit "<f") payload ;;
    sprintf fmt_op (template spec ++ [c]) v.

Definition item_text (fmt_op : formatter) (errors : errors_policy)
    (it : stream_item) : result pystr :=
  match it with
  | Text t => Ok (map chr t)
  | Value spec term payload => value_text fmt_op spec term payload
  | Str spec payload =>
      s <- decode_ascii errors payload ;;
      sprintf fmt_op (template spec ++ lit "s") (VStr s)
  end.

Fixpoint items_text (fmt_op : formatter) (errors : errors_policy)
    (items : list stream_item) : result pystr :=
  match items with
  | [] => Ok []
  | it :: items =>
      t <- item_text fmt_op errors it ;;
      u <- items_text fmt_op errors items ;;
      Ok (t ++ u)
  end.

Lemma term_cases (term : byte) :
  in_VALUE_FORMAT (chr term) || in_SPECIAL_CHARS (chr term)
  || in_set (chr term) FLOAT_VAL_CHARS = true ->
  in_set (chr term) SPECIFIER_CHARS = true
  /\ (chr term =? 0)%N = false.
Proof.
  destruct term; vm_compute; intros H; first [discriminate H|now split].
Qed.

Lemma payload_len_term (spec : list spec_item) (term : byte) (n : Z) :
  payload_len spec (chr term) = Some n ->
  in_set (chr term) SPECIFIER_CHARS = true /\ (chr term =? 0)%N = false.
Proof.
  intros H. apply term_cases. revert H. unfold payload_len.
  destruct (in_VALUE_FORMAT _); [reflexivity|].
  destruct (in_SPECIAL_CHARS _); [reflexivity|].
  now destruct (in_set _ FLOAT_VAL_CHARS).
Qed.

Lemma py_len_1 {A} (l : list A) : py_len l = 1 -> exists x, l = [x].
Proof.
  unfold py_len. destruct l as [|x [|y l]]; cbn [length]; try lia.
  intros _. now exists x.
Qed.

Lemma find_nul_payload (payload rest : bytes) :
  forallb (fun b => negb (Byte.eqb b x00)) payload = true ->
  find_nul (payload ++ x00 :: rest) = py_len payload.
Proof.
  unfold py_len.
  induction payload as [|b payload IH]; cbn [forallb app find_nul length].
  - reflexivity.
  - intros [Hb Hp]%andb_prop. apply negb_true_iff in Hb.
    rewrite Hb, (IH Hp). destruct (Z.ltb_spec (Z.of_nat (length payload)) 0);
      lia.
Qed.

Section OneShotStream.

Variable fmt_op : formatter.
Variable errors : errors_policy.

(** [printf_decode] on a value record that is followed by [rest]. *)
Lemma decode_loop_value (spec : list spec_item) (term : byte)
    (payload rest : bytes) (r : pystr) (c0 : option N) :
  item_ok (Value spec term payload) = true ->
  decode_loop fmt_op errors (spec_bytes spec ++ term :: payload ++ rest) r c0
  = (t <- value_text fmt_op spec term payload ;;
     decode_rest fmt_op errors rest (r ++ t) (Some (chr term))).
Proof.
  cbn [item_ok]. intros [Hspec Hlen]%andb_prop.
  destruct (payload_len spec (chr term)) as [n|] eqn:Hn; [|discriminate].
  apply Z.eqb_eq in Hlen.
  destruct (payload_len_term _ _ Hn) as [Hterm Hnul].
  rewrite decode_loop_eq.
  rewrite (@decode_segment_eq fmt_op errors _ _ _ _ _
             (@scan_spec spec term _ Hspec Hterm _ _ _)).
  rewrite Hnul. cbn [Z.add].
  replace (spec_bytes spec ++ term :: payload ++ rest)
    with ((spec_bytes spec ++ [term]) ++ payload ++ rest)
    by now rewrite <- app_assoc.
  replace (py_len (spec_bytes spec) + 1)
    with (py_len (spec_bytes spec ++ [term]))
    by (unfold py_len; rewrite length_app; cbn [length]; lia).
  set (a := spec_bytes spec ++ [term]).
  change (lit "%" ++ spec_text spec) with (template spec).
  unfold render, value_text. cbv zeta. rewrite slice_drop_last.
  unfold payload_len in Hn.
  destruct (in_VALUE_FORMAT (chr term)) eqn:Hv.
  - destruct (parse_length_chars_template (spec_text spec)
                (Some [chr term])) as (p & lc & Hparse).
    fold (template spec) in Hparse. rewrite Hparse. cbn [bind].
    destruct (@numeric_layout _ _ _ _ Hv Hparse)
      as (fmt & n' & -> & Hsize & Hn' & _).
    cbn [bind]. rewrite Hsize. cbn [bind].
    assert (n' = n) as -> by congruence.
    rewrite <- Hlen, slice_app_middle.
    destruct (unpack fmt payload) as [v|e]; [|reflexivity]. cbn [bind].
    destruct (sprintf fmt_op p v) as [t|e]; [|reflexivity]. cbn [bind].
    now rewrite app_assoc, <- py_len_app, slice_app_suffix.
  - destruct (in_SPECIAL_CHARS (chr term)) eqn:Hsp.
    + injection Hn as <-. destruct (py_len_1 _ Hlen) as [b ->].
      destruct (dict_get N.eqb SPECIAL_CHARS (chr term)) as [letter|e];
        [|reflexivity].
      cbn [bind].
      destruct (parse_length_chars (template spec) (Some [letter]))
        as [[p lc]|e]; [|reflexivity].
      cbn [bind app]. rewrite item_app.
      change (item [b] 0) with (Ok b). cbn [bind].
      destruct (sprintf fmt_op p _) as [t|e]; [|reflexivity]. cbn [bind].
      replace (a ++ b :: rest) with ((a ++ [b]) ++ rest)
        by now rewrite <- app_assoc.
      replace (py_len a + 1) with (py_len (a ++ [b]))
        by (unfold py_len; rewrite length_app; cbn [length]; lia).
      now rewrite slice_app_suffix.
    + destruct (in_set (chr term) FLOAT_VAL_CHARS) eqn:Hf; [|discriminate].
      injection Hn as <-. rewrite <- Hlen, slice_app_middle.
      destruct (unpack (lit "<f") payload) as [v|e]; [|reflexivity].
      cbn [bind].
      destruct (sprintf fmt_op _ v) as [t|e]; [|reflexivity]. cbn [bind].
      now rewrite app_assoc, <- py_len_app, slice_app_suffix.
Qed.

(** [printf_decode] on a string record that is followed by [rest]. *)
Lemma decode_loop_str (spec : list spec_item) (payload rest : bytes)
    (r : pystr) (c0 : option N) :
  item_ok (Str spec payload) = true ->
  decode_loop fmt_op errors
    (spec_bytes spec ++ x73 :: (payload ++ [x00]) ++ rest) r c0
  = (t <- item_text fmt_op errors (Str spec payload) ;;
     decode_rest fmt_op errors rest (r ++ t) (Some (ch "s"))).
Proof.
  cbn [item_ok item_text]. intros [Hspec Hpayload]%andb_prop.
  rewrite decode_loop_eq.
  rewrite (@decode_segment_eq fmt_op errors _ _ _ _ _
             (@scan_spec spec x73 _ Hspec eq_refl _ _ _)).
  change (chr x73 =? 0)%N with false. cbv iota. cbn [Z.add].
  change (chr x73) with (ch "s").
  replace (spec_bytes spec ++ x73 :: (payload ++ [x00]) ++ rest)
    with ((spec_bytes spec ++ [x73]) ++ payload ++ x00 :: rest)
    by now rewrite <- !app_assoc.
  replace (py_len (spec_bytes spec) + 1)
    with (py_len (spec_bytes spec ++ [x73]))
    by (unfold py_len; rewrite length_app; cbn [length]; lia).
  set (a := spec_bytes spec ++ [x73]).
  change (lit "%" ++ spec_text spec) with (template spec).
  unfold render. change (in_VALUE_FORMAT (ch "s")) with false.
  change (in_SPECIAL_CHARS (ch "s")) with false.
  change (in_set (ch "s") FLOAT_VAL_CHARS) with false.
  change (ch "s" =? ch "%")%N with false.
  change (ch "s" =? ch "c")%N with false.
  change (ch "s" =? ch "s")%N with true. cbv iota zeta.
  rewrite slice_app_suffix, (find_nul_payload _ _ Hpayload), slice_app_middle.
  destruct (decode_ascii errors payload) as [s|e]; [|reflexivity].
  cbn [bind].
  destruct (sprintf fmt_op _ (VStr s)) as [t|e]; [|reflexivity]. cbn [bind].
  replace (a ++ payload ++ x00 :: rest) with ((a ++ payload ++ [x00]) ++ rest)
    by now rewrite <- !app_assoc.
  replace (py_len a + py_len payload + 1)
    with (py_len (a ++ payload ++ [x00]))
    by (unfold py_len; rewrite !length_app; cbn [length]; lia).
  now rewrite slice_app_suffix.
Qed.

End OneShotStream.

Lemma split_marker_text (t data : bytes) :
  forallb (fun b => negb (Byte.eqb b xa5)) t = true ->
  split_marker (t ++ data)
  = (t ++ fst (split_marker data), snd (split_marker data)).
Proof.
  induction t as [|b t IH]; cbn [forallb app split_marker].
  - intros _. now destruct (split_marker data).
  - intros [Hb Ht]%andb_prop. apply negb_true_iff in Hb.
    rewrite Hb, (IH Ht). reflexivity.
Qed.

Lemma decode_ascii_app (errors : errors_policy) (a b : bytes) :
  decode_ascii errors (a ++ b)
  = (s <- decode_ascii errors a ;; t <- decode_ascii errors b ;; Ok (s ++ t)).
Proof.
  induction a as [|x a IH]; cbn [app decode_ascii bind].
  - now destruct (decode_ascii errors b).
  - rewrite IH. destruct (decode_ascii_byte errors x) as [u|e]; [|reflexivity].
    cbn [bind]. destruct (decode_ascii errors a) as [s|e]; [|reflexivity].
    cbn [bind]. destruct (decode_ascii errors b) as [t|e]; [|reflexivity].
    cbn [bind]. now rewrite app_assoc.
Qed.

Lemma text_ok_ascii (t : bytes) :
  forallb (fun b => is_ascii (chr b) && negb (chr b =? 0)%N) t = true ->
  forallb (fun b => is_ascii (chr b)) t = true
  /\ forallb (fun b => negb (Byte.eqb b x00)) t = true.
Proof.
  induction t as [|b t IH]; cbn [forallb]; [now split|].
  intros [[Hb Hn]%andb_prop Ht]%andb_prop. destruct (IH Ht) as [H1 H2].
  now rewrite Hb, H1, H2, nul_eqb, Hn.
Qed.

Section OneShotStreamText.

Variable fmt_op : formatter.
Variable errors : errors_policy.

Lemma decode_rest_text (t data : bytes) (r : pystr) (c : option N) :
  forallb (fun b => is_ascii (chr b)) t = true ->
  decode_rest fmt_op errors (t ++ data) r c
  = decode_rest fmt_op errors data (r ++ map chr t) c.
Proof.
  intros Ht. unfold decode_rest. cbv zeta.
  rewrite (split_marker_text _ _ (ascii_no_marker _ Ht)). cbn [fst snd].
  rewrite decode_ascii_app, (decode_ascii_of_ascii _ _ Ht). cbn [bind].
  destruct (decode_ascii errors (fst (split_marker data))) as [s|e];
    [|reflexivity].
  cbn [bind]. now rewrite !app_assoc.
Qed.

Lemma decode_rest_marker (data : bytes) (r : pystr) (c : option N) :
  decode_rest fmt_op errors (xa5 :: data) r c
  = decode_loop fmt_op errors data r c.
Proof.
  unfold decode_rest. cbn. now rewrite app_nil_r.
Qed.

Lemma decode_rest_items (items : list stream_item) :
  forallb item_ok items = true ->
  forall r c,
    decode_rest fmt_op errors (flat_map wire items) r c
    = (t <- items_text fmt_op errors items ;; Ok (r ++ t)).
Proof.
  induction items as [|it items IH]; cbn [forallb flat_map items_text].
  - intros _ r c. reflexivity.
  - intros [Hit Hitems]%andb_prop r c. specialize (IH Hitems).
    destruct it as [t|spec term payload|spec payload]; cbn [wire item_text].
    + destruct (text_ok_ascii _ Hit) as [Hascii _].
      rewrite (decode_rest_text _ _ _ _ Hascii), IH. cbn [bind].
      destruct (items_text fmt_op errors items) as [u|e]; [|reflexivity].
      cbn [bind]. now rewrite app_assoc.
    + cbn [app]. rewrite decode_rest_marker, <- app_assoc. cbn [app].
      rewrite (decode_loop_value fmt_op errors _ _ _ _ _ _ Hit).
      destruct (value_text fmt_op spec term payload) as [t|e]; [|reflexivity].
      cbn [bind]. rewrite IH.
      destruct (items_text fmt_op errors items) as [u|e]; [|reflexivity].
      cbn [bind]. now rewrite app_assoc.
    + cbn [app]. rewrite decode_rest_marker, <- app_assoc. cbn [app].
      rewrite (decode_loop_str fmt_op errors _ _ _ _ _ Hit).
      cbn [item_text].
      destruct (decode_ascii errors payload) as [s|e]; [|reflexivity].
      cbn [bind].
      destruct (sprintf fmt_op _ (VStr s)) as [t|e]; [|reflexivity].
      cbn [bind]. rewrite IH.
      destruct (items_text fmt_op errors items) as [u|e]; [|reflexivity].
      cbn [bind]. now rewrite app_assoc.
Qed.

Lemma printf_decode_items (items : list stream_item) :
  forallb item_ok items = true ->
  Printf_Codec.decode fmt_op (flat_map wire items) errors
  = items_text fmt_op errors items.
Proof.
  intros Hitems. unfold Printf_Codec.decode.
  rewrite printf_decode_eq, (decode_rest_items _ Hitems).
  destruct (items_text fmt_op errors items); reflexivity.
Qed.

End OneShotStreamText.

(** ** The incremental decoder on a stream of complete records *)

Lemma int_of_byte_nul (b : byte) :
  (int_of_byte b =? 0) = Byte.eqb b x00.
Proof. destruct b; reflexivity. Qed.

Section DecoderStream.

Variable fmt_op : formatter.

(** Literal text that is followed by [rest]. *)
Lemma feed_text (t rest : bytes) (self : decoder) (r : pystr) :
  state self = FIND_FMT_START ->
  forallb (fun b => negb (Byte.eqb b xa5)) t = true ->
  feed fmt_op self (t ++ rest) r
  = feed fmt_op self rest
      (r ++ map chr (filter (fun b => negb (Byte.eqb b x00)) t)).
Proof.
  intros Hstate Ht. now rewrite feed_app, (feed_literal _ _ _ _ Hstate Ht).
Qed.

(** The capture of the argument bytes of a value record. *)
Lemma feed_capture (payload rest : bytes) : forall self r,
  state self = CAP_VALUE ->
  payload <> [] ->
  py_len (data_buffer self ++ payload) = val_len self ->
  feed fmt_op self (payload ++ rest) r
  = let self' := set_state FIND_FMT_START
                   (set_data_buffer (data_buffer self ++ payload) self) in
    match (v <- unpack (val_fmt self) (data_buffer self ++ payload) ;;
           sprintf fmt_op (print_fmt self) v) with
    | Ok t => feed fmt_op self' rest (r ++ t)
    | Raise e => (self', Raise e)
    end.
Proof.
  induction payload as [|b payload IH]; intros self r Hstate Hne Hlen;
    [congruence|].
  cbn [app feed]. unfold step at 1. rewrite Hstate. cbv zeta. fields.
  destruct payload as [|b' payload].
  - rewrite Hlen, Z.eqb_refl. cbn [app]. fields.
    now destruct (v <- unpack _ _ ;; sprintf fmt_op _ v).
  - destruct (Z.eqb_spec (py_len (data_buffer self ++ [b])) (val_len self))
      as [Heq|_].
    + exfalso. revert Heq Hlen. unfold py_len. rewrite !length_app.
      cbn [length]. lia.
    + rewrite app_nil_r, IH.
      * cbv zeta. fields. rewrite <- !app_assoc. reflexivity.
      * exact Hstate.
      * discriminate.
      * fields. rewrite <- app_assoc. exact Hlen.
Qed.

(** The capture of the payload of a string record. *)
Lemma feed_payload (payload rest : bytes) : forall self r,
  state self = CAP_TEXT ->
  forallb (fun b => negb (Byte.eqb b x00)) payload = true ->
  feed fmt_op self (payload ++ x00 :: rest) r
  = let self' := set_data_buffer (data_buffer self ++ payload) self in
    match (s <- decode_ascii (errors self) (data_buffer self ++ payload) ;;
           sprintf fmt_op (print_fmt self) (VStr s)) with
    | Ok t => feed fmt_op (set_state FIND_FMT_START self') rest (r ++ t)
    | Raise e => (self', Raise e)
    end.
Proof.
  induction payload as [|b payload IH]; intros self r Hstate Hpayload;
    cbn [app feed forallb] in *.
  - unfold step at 1. rewrite Hstate. change (int_of_byte x00 =? 0) with true.
    cbv iota zeta. rewrite app_nil_r.
    replace (set_data_buffer (data_buffer self) self) with self
      by now destruct self.
    now destruct (s <- decode_ascii _ _ ;; sprintf fmt_op _ (VStr s)).
  - apply andb_prop in Hpayload as [Hb Hpayload].
    unfold step at 1. rewrite Hstate, int_of_byte_nul.
    apply negb_true_iff in Hb. rewrite Hb, app_nil_r.
    rewrite IH; [|exact Hstate|exact Hpayload]. fields.
    rewrite <- !app_assoc. reflexivity.
Qed.

(** The steps that open a record and that end its specifier. *)
Lemma step_marker (self : decoder) :
  state self = FIND_FMT_START ->
  step fmt_op self xa5
  = (mk (errors self) (lit "%") [] 0 [] FIND_FMT_END (len self), Ok []).
Proof.
  intros Hstate. unfold step. now rewrite Hstate.
Qed.

Lemma step_numeric (self : decoder) (term : byte) (p lc fmt : pystr)
    (n : Z) :
  state self = FIND_FMT_END ->
  in_VALUE_FORMAT (chr term) = true ->
  parse_length_chars (print_fmt self) (Some [chr term]) = Ok (p, lc) ->
  dict_get str_eqb VALUE_FORMAT lc = Ok fmt ->
  calcsize fmt = Ok n ->
  step fmt_op self term
  = (mk (errors self) p (data_buffer self) n fmt CAP_VALUE (len self),
     Ok []).
Proof.
  intros Hstate Hv Hparse Hfmt Hsize. unfold step. rewrite Hstate. cbv zeta.
  rewrite Hv. unfold set_print_fmt at 1. cbn [print_fmt].
  rewrite slice_drop_last, Hparse.
  unfold set_print_fmt, set_val_fmt, set_val_len, set_state.
  cbn [errors print_fmt data_buffer val_len val_fmt state len].
  rewrite Hfmt. cbn [errors print_fmt data_buffer val_len val_fmt state len].
  now rewrite Hsize.
Qed.

Lemma step_special (self : decoder) (term : byte) (letter : N)
    (p lc : pystr) :
  state self = FIND_FMT_END ->
  in_VALUE_FORMAT (chr term) = false ->
  in_SPECIAL_CHARS (chr term) = true ->
  dict_get N.eqb SPECIAL_CHARS (chr term) = Ok letter ->
  parse_length_chars (print_fmt self) (Some [letter]) = Ok (p, lc) ->
  step fmt_op self term
  = (mk (errors self) p (data_buffer self) 1 (lit "<B") CAP_VALUE (len self),
     Ok []).
Proof.
  intros Hstate Hv Hsp Hletter Hparse. unfold step. rewrite Hstate. cbv zeta.
  rewrite Hv, Hsp, Hletter. cbn [bind]. unfold set_print_fmt at 1.
  cbn [print_fmt]. now rewrite slice_drop_last, Hparse.
Qed.

Lemma step_float (self : decoder) (term : byte) :
  state self = FIND_FMT_END ->
  in_VALUE_FORMAT (chr term) = false ->
  in_SPECIAL_CHARS (chr term) = false ->
  in_set (chr term) FLOAT_VAL_CHARS = true ->
  step fmt_op self term
  = (mk (errors self) (print_fmt self ++ [chr term]) (data_buffer self) 4
       (lit "<f") CAP_VALUE (len self),
     Ok []).
Proof.
  intros Hstate Hv Hsp Hf. unfold step. rewrite Hstate. cbv zeta.
  now rewrite Hv, Hsp, Hf.
Qed.

Lemma step_s (self : decoder) :
  state self = FIND_FMT_END ->
  step fmt_op self x73
  = (mk (errors self) (print_fmt self ++ lit "s") (data_buffer self)
       (val_len self) (val_fmt self) CAP_TEXT (len self),
     Ok []).
Proof.
  intros Hstate. unfold step. now rewrite Hstate.
Qed.

(** One item that is followed by [rest]: the decoder goes on outside a
    record, with the same error policy. *)
Lemma feed_item (it : stream_item) (rest : bytes) (self : decoder)
    (r : pystr) :
  item_ok it = true ->
  state self = FIND_FMT_START ->
  exists self',
    (forall t, item_text fmt_op (errors self) it = Ok t ->
               state self' = FIND_FMT_START)
    /\ errors self' = errors self
    /\ feed fmt_op self (wire it ++ rest) r
       = match item_text fmt_op (errors self) it with
         | Ok t => feed fmt_op self' rest (r ++ t)
         | Raise e => (self', Raise e)
         end.
Proof.
  intros Hit Hstate.
  destruct it as [t|spec term payload|spec payload]; cbn [wire item_text].
  - exists self. destruct (text_ok_ascii _ Hit) as [Hascii Hnul].
    repeat split; [now intros _ _|].
    rewrite (feed_text _ _ _ _ Hstate (ascii_no_marker _ Hascii)).
    f_equal. f_equal. f_equal. clear - Hnul.
    induction t as [|b t IH]; cbn [forallb filter] in *; [reflexivity|].
    apply andb_prop in Hnul as [-> Hnul]. now rewrite (IH Hnul).
  - cbn [item_ok] in Hit. apply andb_prop in Hit as [Hspec Hlen].
    destruct (payload_len spec (chr term)) as [n|] eqn:Hn; [|discriminate].
    apply Z.eqb_eq in Hlen.
    cbn [app feed]. rewrite (step_marker _ Hstate), app_nil_r.
    rewrite <- app_assoc, feed_spec; [|exact Hspec|reflexivity].
    unfold set_print_fmt.
    cbn [errors print_fmt data_buffer val_len val_fmt state len].
    change (lit "%" ++ spec_text spec) with (template spec). cbn [app feed].
    unfold value_text, payload_len in *. cbv zeta.
    destruct (in_VALUE_FORMAT (chr term)) eqn:Hv.
    + destruct (parse_length_chars_template (spec_text spec)
                  (Some [chr term])) as (p & lc & Hparse).
      fold (template spec) in Hparse. rewrite Hparse. cbn [bind].
      destruct (@numeric_layout _ _ _ _ Hv Hparse)
        as (fmt & n' & Hfmt & Hsize & Hn' & _).
      assert (n' = n) as -> by congruence.
      rewrite Hfmt. cbn [bind].
      erewrite step_numeric;
        [|reflexivity|exact Hv|exact Hparse|exact Hfmt|exact Hsize].
      cbn [errors print_fmt data_buffer val_len val_fmt state len].
      rewrite app_nil_r.
      exists (mk (errors self) p payload n fmt FIND_FMT_START (len self)).
      split; [reflexivity|]. split; [reflexivity|].
      rewrite feed_capture; [reflexivity|reflexivity| |exact Hlen].
      intros ->. revert Hlen Hn'. unfold py_len. cbn [length].
      intros <-.
      repeat match goal with
             | |- context [if ?b then _ else _] => destruct b
             end; discriminate.
    + destruct (in_SPECIAL_CHARS (chr term)) eqn:Hsp.
      * injection Hn as <-. destruct (py_len_1 _ Hlen) as [b ->].
        destruct (dict_get_in _ _ _ Hsp) as [letter Hletter].
        rewrite Hletter. cbn [bind].
        destruct (parse_length_chars_template (spec_text spec)
                    (Some [letter])) as (p & lc & Hparse).
        fold (template spec) in Hparse. rewrite Hparse. cbn [bind].
        erewrite step_special;
          [|reflexivity|exact Hv|exact Hsp|exact Hletter|exact Hparse].
        cbn [errors print_fmt data_buffer val_len val_fmt state len].
        rewrite app_nil_r.
        exists (mk (errors self) p [b] 1 (lit "<B") FIND_FMT_START (len self)).
        split; [reflexivity|]. split; [reflexivity|].
        rewrite feed_capture; [|reflexivity|discriminate|reflexivity].
        cbv zeta.
        cbn [errors print_fmt data_buffer val_len val_fmt state len app].
        rewrite unpack_unsigned_byte.
        change (item [b] 0) with (Ok b). reflexivity.
      * destruct (in_set (chr term) FLOAT_VAL_CHARS) eqn:Hf; [|discriminate].
        injection Hn as <-.
        rewrite step_float; [|reflexivity|exact Hv|exact Hsp|exact Hf].
        cbn [errors print_fmt data_buffer val_len val_fmt state len].
        rewrite app_nil_r.
        exists (mk (errors self) (template spec ++ [chr term]) payload 4
                  (lit "<f") FIND_FMT_START (len self)).
        split; [reflexivity|]. split; [reflexivity|].
        rewrite feed_capture; [reflexivity|reflexivity| |exact Hlen].
        intros ->. discriminate Hlen.
  - cbn [item_ok] in Hit. apply andb_prop in Hit as [Hspec Hpayload].
    cbn [app feed]. rewrite (step_marker _ Hstate), app_nil_r.
    rewrite <- app_assoc, feed_spec; [|exact Hspec|reflexivity].
    unfold set_print_fmt.
    cbn [errors print_fmt data_buffer val_len val_fmt state len].
    change (lit "%" ++ spec_text spec) with (template spec). cbn [app feed].
    rewrite step_s by reflexivity.
    cbn [errors print_fmt data_buffer val_len val_fmt state len].
    rewrite app_nil_r, <- (app_assoc payload [x00] rest). cbn [app].
    rewrite feed_payload; [|reflexivity|exact Hpayload].
    cbv zeta. unfold set_data_buffer, set_state.
    cbn [errors print_fmt data_buffer val_len val_fmt state len app].
    destruct (decode_ascii (errors self) payload) as [s|e]; cbn [bind].
    + destruct (sprintf fmt_op _ (VStr s)) as [t|e].
      * exists (mk (errors self) (template spec ++ lit "s") payload 0 []
                  FIND_FMT_START (len self)).
        repeat split.
      * exists (mk (errors self) (template spec ++ lit "s") payload 0 []
                  CAP_TEXT (len self)).
        repeat split. discriminate.
    + exists (mk (errors self) (template spec ++ lit "s") payload 0 []
                CAP_TEXT (len self)).
      repeat split. discriminate.
Qed.

(** A stream of items: the texts of the items, and a decoder that is
    outside any record. *)
Lemma feed_items (items : list stream_item) :
  forallb item_ok items = true ->
  forall self r,
    state self = FIND_FMT_START ->
    exists self',
      (forall t, items_text fmt_op (errors self) items = Ok t ->
                 state self' = FIND_FMT_START)
      /\ feed fmt_op self (flat_map wire items) r
         = (self', t <- items_text fmt_op (errors self) items ;; Ok (r ++ t)).
Proof.
  induction items as [|it items IH]; cbn [forallb flat_map items_text feed].
  - intros _ self r Hstate. exists self. split; [now intros _ _|].
    cbn [bind]. now rewrite app_nil_r.
  - intros [Hit Hitems]%andb_prop self r Hstate.
    destruct (feed_item it (flat_map wire items) self r Hit Hstate)
      as (self1 & Hstate1 & Herr1 & ->).
    destruct (item_text fmt_op (errors self) it) as [t|e]; cbn [bind].
    + destruct (IH Hitems self1 (r ++ t) (Hstate1 t eq_refl))
        as (self2 & Hstate2 & ->).
      rewrite Herr1 in *. exists self2.
      destruct (items_text fmt_op (errors self) items) as [u|e]; cbn [bind].
      * split; [intros _ _; now apply (Hstate2 u)|].
        now rewrite app_assoc.
      * split; [discriminate|reflexivity].
    + exists self1. split; [discriminate|reflexivity].
Qed.

Lemma decode_items (errors : errors_policy) (items : list stream_item) :
  forallb item_ok items = true ->
  snd (decode fmt_op (init errors) (flat_map wire items) true)
  = items_text fmt_op errors items.
Proof.
  intros Hitems. unfold decode.
  destruct (feed_items _ Hitems (init errors) [] eq_refl)
    as (self' & Hstate & ->).
  cbn [Printf_IncrementalDecoder.errors init app] in *.
  destruct (items_text fmt_op errors items) as [t|e]; cbn [bind snd];
    [|reflexivity].
  rewrite (Hstate t eq_refl). reflexivity.
Qed.

End DecoderStream.

(** X10: on a stream of complete records with ASCII literal text that has
    no NUL (numeric, special-byte, floating-point and string records whose
    specifiers are made of plain bytes and wildcards), the incremental
    decoder, however the stream is cut into chunks, and the one-shot
    decoder return the same text or raise the same exception. *)
Theorem decoders_agree_on_complete_records (fmt_op : formatter)
    (errors : errors_policy) (items : list stream_item)
    (chunks : list bytes)
    (Hitems : forallb item_ok items = true)
    (Hchunks : concat chunks = flat_map wire items) :
  snd (decode_chunks fmt_op (init errors) chunks)
  = Printf_Codec.decode fmt_op (concat chunks) errors.
Proof.
  rewrite decode_chunks_concat, Hchunks.
  now rewrite decode_items, printf_decode_items.
Qed.

Lemma decoders_agree_on_complete_records_witness :
  snd (decode_chunks PyFormat.py_format (init strict)
         [[x76; x3d; xa5; x2b]; [x2a; x05; x68; x64; x2a]; [];
          [x00; xa5; x73; x68; x69; x00; x2e]])
  = Printf_Codec.decode PyFormat.py_format
      (concat [[x76; x3d; xa5; x2b]; [x2a; x05; x68; x64; x2a]; [];
               [x00; xa5; x73; x68; x69; x00; x2e]])
      strict.
Proof.
  apply (@decoders_agree_on_complete_records PyFormat.py_format strict
           [Text [x76; x3d];
            Value [Plain x2b; Wild x05; Plain x68] x64 [x2a; x00];
            Str [] [x68; x69];
            Text [x2e]]);
    reflexivity.
Defined.

(** X11: on such a stream [printf_decode] returns the texts of the items
    one after the other: the characters of literal text, for a value
    record the template, cleaned of its length characters, applied to the
    value of the argument bytes, and for a string record the template
    applied to the decoded payload.  The first item whose text raises
    determines the exception. *)
Theorem printf_decode_complete_records (fmt_op : formatter)
    (errors : errors_policy) (items : list stream_item)
    (Hitems : forallb item_ok items = true) :
  printf_decode fmt_op (flat_map wire items) errors
  = (t <- items_text fmt_op errors items ;; Ok (t, py_len t)).
Proof.
  rewrite printf_decode_eq, (decode_rest_items _ _ _ Hitems).
  now destruct (items_text fmt_op errors items).
Qed.

Lemma printf_decode_complete_records_witness :
  printf_decode PyFormat.py_format
    (flat_map wire
       [Text [x76; x3d];
        Value [Plain x2b; Wild x05; Plain x68] x64 [x2a; x00];
        Str [] [x68; x69]])
    strict
  = Ok (lit "v=  +42hi", 9).
Proof.
  apply (@printf_decode_complete_records PyFormat.py_format strict
           [Text [x76; x3d];
            Value [Plain x2b; Wild x05; Plain x68] x64 [x2a; x00];
            Str [] [x68; x69]]).
  reflexivity.
Defined.

(** ** The "c" record in the incremental decoder *)

Section CharRecord.

Variable fmt_op : formatter.

Lemma step_c (self : decoder) :
  state self = FIND_FMT_END ->
  step fmt_op self x63
  = (mk (errors self) (print_fmt self ++ lit "c") (data_buffer self)
       (val_len self) (lit "<B") CAP_VALUE (Some 1),
     Ok []).
Proof.
  intros Hstate. unfold step. now rewrite Hstate.
Qed.

(** A capture whose buffer has already reached the expected length never
    ends. *)
Lemma feed_stuck (input : bytes) : forall self r,
  state self = CAP_VALUE ->
  val_len self <= py_len (data_buffer self) ->
  feed fmt_op self input r
  = (set_data_buffer (data_buffer self ++ input) self, Ok r).
Proof.
  induction input as [|b input IH]; intros self r Hstate Hlen; cbn [feed].
  - rewrite app_nil_r. now destruct self.
  - unfold step. rewrite Hstate. cbv zeta.
    unfold set_data_buffer at 1 2 3. cbn [data_buffer val_len].
    destruct (Z.eqb_spec (py_len (data_buffer self ++ [b])) (val_len self))
      as [Heq|_].
    + exfalso. rewrite py_len_app in Heq. unfold py_len in Heq at 2.
      cbn [length] in Heq. lia.
    + rewrite IH.
      * unfold set_data_buffer.
        cbn [errors print_fmt data_buffer val_len val_fmt state len].
        now rewrite app_nil_r, <- app_assoc.
      * exact Hstate.
      * unfold set_data_buffer. cbn [val_len data_buffer].
        rewrite py_len_app. unfold py_len at 2. cbn [length]. lia.
Qed.

End CharRecord.

(** X12: the incremental decoder never renders a "c" record.  The branch
    of the terminal "c" sets no expected length (it sets the attribute
    [len] instead), so every byte that follows, markers included, is
    buffered and no text is returned; the final call returns the template
    followed by the decoded buffer. *)
Theorem c_record_is_never_rendered (fmt_op : formatter) (self : decoder)
    (spec : list spec_item) (input : bytes) (final : bool)
    (Hstate : state self = FIND_FMT_START)
    (Hspec : forallb spec_ok spec = true) :
  decode fmt_op self (xa5 :: spec_bytes spec ++ x63 :: input) final
  = let self' := mk (errors self) (template spec ++ lit "c") input 0
                   (lit "<B") CAP_VALUE (Some 1) in
    if final then
      match decode_ascii (errors self) input with
      | Ok t => (reset self', Ok ((template spec ++ lit "c") ++ t))
      | Raise e => (self', Raise e)
      end
    else (self', Ok []).
Proof.
  unfold decode. cbn [feed].
  rewrite (step_marker _ _ Hstate), feed_spec; [|exact Hspec|reflexivity].
  unfold set_print_fmt.
  cbn [errors print_fmt data_buffer val_len val_fmt state len feed].
  rewrite step_c by reflexivity.
  cbn [errors print_fmt data_buffer val_len val_fmt state len].
  rewrite feed_stuck; [|reflexivity|cbn [val_len]; unfold py_len; lia].
  unfold set_data_buffer.
  cbn [errors print_fmt data_buffer val_len val_fmt state len app].
  change (phase_eqb CAP_VALUE FIND_FMT_START) with false.
  change (lit "%" ++ spec_text spec) with (template spec).
  now destruct final.
Qed.

Lemma c_record_is_never_rendered_witness :
  decode PyFormat.py_format (init strict) [xa5; x35; x63; x41; xa5; x64] false
  = (mk strict (lit "%5c") [x41; xa5; x64] 0 (lit "<B") CAP_VALUE (Some 1),
     Ok []).
Proof.
  apply (@c_record_is_never_rendered PyFormat.py_format (init strict)
           [Plain x35] [x41; xa5; x64] false);
    reflexivity.
Defined.

(** X13: on input without a marker the two decoders differ in two ways.
    The incremental decoder, outside a record, returns the character of
    every byte but NUL, whatever the error policy: a byte above 127 comes
    out as the character of the same code and never raises.
    [printf_decode] is the ASCII decoder under the given policy, and keeps
    NUL. *)
Theorem literal_text (fmt_op : formatter) (self : decoder) (data : bytes)
    (errors0 : errors_policy) (final : bool)
    (Hstate : state self = FIND_FMT_START)
    (Hdata : forallb (fun b => negb (Byte.eqb b xa5)) data = true) :
  decode fmt_op self data final
  = (self, Ok (map chr (filter (fun b => negb (Byte.eqb b x00)) data)))
  /\ printf_decode fmt_op data errors0
     = (r <- decode_ascii errors0 data ;; Ok (r, py_len r)).
Proof.
  split; [|now apply printf_decode_literal].
  unfold decode. rewrite (feed_literal _ _ _ _ Hstate Hdata). cbn [app].
  rewrite Hstate. change (phase_eqb FIND_FMT_START FIND_FMT_START) with true.
  now rewrite andb_false_r.
Qed.

Lemma literal_text_witness :
  decode PyFormat.py_format (init strict) [x61; x00; xe9] true
  = (init strict, Ok [97; 233]%N)
  /\ printf_decode PyFormat.py_format [x61; x00; xe9] replace
     = Ok ([97; 0; 65533]%N, 3).
Proof.
  apply (@literal_text PyFormat.py_format (init strict) [x61; x00; xe9]
           replace true);
    reflexivity.
Defined.

(** ** [getstate] *)

Lemma encode_ascii_raises (s : pystr) (e : exn) :
  encode_ascii s = Raise e <->
  e = UnicodeEncodeError /\ forallb is_ascii s = false.
Proof.
  unfold is_ascii. revert e.
  induction s as [|c s IH]; intros e; cbn [encode_ascii forallb].
  - split; [discriminate|]. now intros [_ H].
  - destruct (c <? 128)%N eqn:Hc; cbn [andb].
    + destruct (of_N_ascii _ Hc) as (b & -> & _). rewrite <- IH.
      destruct (encode_ascii s) as [t|e']; cbn [bind];
        split; intros H; first [discriminate H|exact H].
    + split; [intros [= <-]; auto|]. now intros [-> _].
Qed.

Lemma encode_ascii_chars (s : pystr) (b : bytes) :
  encode_ascii s = Ok b -> map chr b = s.
Proof.
  revert b. induction s as [|c s IH]; intros b; cbn [encode_ascii].
  - now intros [= <-].
  - destruct (c <? 128)%N eqn:Hc; [|discriminate].
    destruct (of_N_ascii _ Hc) as (x & -> & Hx).
    destruct (encode_ascii s) as [t|e]; [|discriminate].
    cbn [bind]. intros [= <-]. cbn [map]. now rewrite Hx, (IH t eq_refl).
Qed.

(** X14: [getstate] raises exactly when the template holds a character
    that is not ASCII, and then [UnicodeEncodeError]; otherwise it returns
    the bytes of the template followed by the buffered bytes, with the
    number of the phase. *)
Theorem getstate_result (self : decoder) :
  (forall e, getstate self = Raise e <->
             e = UnicodeEncodeError
             /\ forallb is_ascii (print_fmt self) = false)
  /\ (forall b n, getstate self = Ok (b, n) ->
        n = tag (state self)
        /\ exists t, b = t ++ data_buffer self
                     /\ map chr t = print_fmt self).
Proof.
  unfold getstate. split.
  - intros e. rewrite <- encode_ascii_raises.
    destruct (encode_ascii (print_fmt self)); cbn [bind];
      split; intros H; first [discriminate H|now injection H as <-].
  - intros b n.
    destruct (encode_ascii (print_fmt self)) as [t|e] eqn:Ht; [|discriminate].
    cbn [bind]. intros [= <- <-]. split; [reflexivity|].
    exists t. split; [reflexivity|now apply encode_ascii_chars].
Qed.

Lemma getstate_result_witness :
  1 = tag FIND_FMT_END
  /\ exists t, [x25; x2d; x35] = t ++ [] /\ map chr t = lit "%-5".
Proof.
  apply (proj2 (getstate_result
                  (mk strict (lit "%-5") [] 0 [] FIND_FMT_END None))).
  reflexivity.
Defined.

(** X15: a checkpoint taken while a specifier is read loses the record.
    For a decoder that was created by [__init__], when [getstate] returns
    in the phase [FIND_FMT_END] or [CAP_WILD], [setstate] on what it
    returned leaves the decoder as [reset] does: the template comes back as
    literal text that the replay discards. *)
Theorem checkpoint_in_specifier_resets (fmt_op : formatter)
    (errors0 : errors_policy) (self : decoder) (st : bytes * Z)
    (Hreach : reachable fmt_op errors0 self)
    (Hstate : state self = FIND_FMT_END \/ state self = CAP_WILD)
    (Hget : getstate self = Ok st) :
  setstate fmt_op self st = (reset self, Ok tt).
Proof.
  destruct (reachable_consistent Hreach) as [Hinv _].
  assert (Hbuf : data_buffer self = []).
  { unfold consistent in Hinv.
    destruct Hstate as [H|H]; rewrite H in Hinv; now destruct Hinv. }
  pose proof (setstate_getstate_is_reset fmt_op self Hget) as Hreset.
  rewrite Hbuf in Hreset. specialize (Hreset eq_refl).
  unfold setstate_getstate in Hreset. now rewrite Hget in Hreset.
Qed.

Lemma checkpoint_in_specifier_resets_witness :
  setstate PyFormat.py_format
    (mk strict (lit "%-5") [] 0 [] FIND_FMT_END None) ([x25; x2d; x35], 1)
  = (init strict, Ok tt).
Proof.
  apply (@checkpoint_in_specifier_resets PyFormat.py_format strict
           (mk strict (lit "%-5") [] 0 [] FIND_FMT_END None)
           ([x25; x2d; x35], 1)).
  - exact (reach_decode [xa5; x2d; x35] false
             (reach_init PyFormat.py_format strict)).
  - now left.
  - reflexivity.
Defined.

(** ** Records that [printf_decode] does not render *)

Definition no_nul (s : pystr) : bool := forallb (fun c => negb (c =? 0)%N) s.

Lemma str_of_int_no_nul (w : byte) : no_nul (str_of_int (int_of_byte w)) = true.
Proof. destruct w; reflexivity. Qed.

Lemma no_nul_app (s t : pystr) : no_nul (s ++ t) = no_nul s && no_nul t.
Proof. apply forallb_app. Qed.

(** The scan only appends to the template, and never a NUL. *)
Lemma scan_template (n : nat) :
  forall rest i print_fmt c i' print_fmt' c',
    (length rest <= n)%nat ->
    scan rest i print_fmt c = Ok (i', print_fmt', c') ->
    exists t, print_fmt' = print_fmt ++ t /\ no_nul t = true.
Proof.
  induction n as [|n IH]; intros rest i print_fmt c i' print_fmt' c' Hn.
  - destruct rest; [|cbn [length] in Hn; lia].
    cbn [scan]. intros [= _ <- _]. exists []. now rewrite app_nil_r.
  - destruct rest as [|b rest]; cbn [scan].
    + intros [= _ <- _]. exists []. now rewrite app_nil_r.
    + cbn [length] in Hn. cbv zeta.
      assert (Hgo : forall rest' i0 pf0,
                 (length rest' <= n)%nat ->
                 (exists t0, pf0 = print_fmt ++ t0 /\ no_nul t0 = true) ->
                 (if in_set (chr b) SPECIFIER_CHARS
                  then Ok (i0, pf0, Some (chr b))
                  else scan rest' i0 pf0 (Some (chr b)))
                 = Ok (i', print_fmt', c') ->
                 exists t, print_fmt' = print_fmt ++ t /\ no_nul t = true).
      { intros rest' i0 pf0 Hlen (t0 & -> & Ht0).
        destruct (in_set (chr b) SPECIFIER_CHARS).
        - intros [= _ <- _]. now exists t0.
        - intros (t & -> & Ht)%IH; [|exact Hlen].
          exists (t0 ++ t). now rewrite app_assoc, no_nul_app, Ht0, Ht. }
      destruct (chr b =? ch "*")%N.
      * destruct rest as [|w rest]; [discriminate|]. cbn [length] in Hn.
        apply Hgo; [lia|].
        exists (str_of_int (int_of_byte w)).
        split; [reflexivity|apply str_of_int_no_nul].
      * destruct (chr b =? 0)%N eqn:Hb; (apply Hgo; [lia|]).
        -- exists []. now rewrite app_nil_r.
        -- exists [chr b]. split; [reflexivity|].
           unfold no_nul. cbn [forallb]. now rewrite Hb.
Qed.

(** The terminal characters that no branch of the dispatch renders. *)
Definition unrendered (c : N) : bool :=
  negb (in_VALUE_FORMAT c) && negb (in_SPECIAL_CHARS c)
  && negb (in_set c FLOAT_VAL_CHARS)
  && negb (in_set c [ch "%"; ch "c"; ch "s"]).

Lemma render_unrendered (fmt_op : formatter) (errors : errors_policy)
    (print_data : bytes) (i : Z) (t : pystr) (c : N) :
  unrendered c = true ->
  no_nul t = true ->
  render fmt_op errors print_data i (ch "%" :: t) c = Ok (ch "%" :: t, i).
Proof.
  unfold unrendered, render.
  intros [[[Hv Hsp]%andb_prop Hf]%andb_prop Hn]%andb_prop Ht.
  apply negb_true_iff in Hv, Hsp, Hf, Hn. rewrite Hv, Hsp, Hf.
  cbn [in_set existsb] in Hn. rewrite !orb_false_iff in Hn.
  destruct Hn as (-> & -> & -> & _).
  destruct (last_split (ch "%" :: t)) as [H|(s & x & Hs)]; [discriminate|].
  rewrite Hs, item_last. cbn [bind].
  assert (Hx : no_nul (s ++ [x]) = true) by now rewrite <- Hs.
  rewrite no_nul_app in Hx. apply andb_prop in Hx as [_ Hx].
  unfold no_nul in Hx. cbn [forallb] in Hx. rewrite andb_true_r in Hx.
  apply negb_true_iff in Hx. now rewrite Hx.
Qed.

Lemma decode_segment_unrendered (fmt_op : formatter)
    (errors : errors_policy) (print_data : bytes) (c0 : option N)
    (i : Z) (print_fmt : pystr) (c : N) :
  scan print_data 0 (lit "%") c0 = Ok (i, print_fmt, Some c) ->
  unrendered c = true ->
  (exists t, print_fmt = ch "%" :: t /\ no_nul t = true)
  /\ decode_segment fmt_op errors print_data c0 = Ok (print_fmt, Some c, i).
Proof.
  intros Hscan Hc.
  destruct (@scan_template (length print_data) _ _ _ _ _ _ _ (le_n _) Hscan)
    as (t & -> & Ht).
  split; [now exists t|].
  rewrite (@decode_segment_eq fmt_op errors _ _ _ _ _ Hscan).
  change (lit "%" ++ t) with (ch "%" :: t). now rewrite render_unrendered.
Qed.

(** X16: the template that the scan of [printf_decode] builds starts with
    "%" and holds no NUL, so the test [print_fmt[-1] == '\0'] of the last
    branch never succeeds: when the terminal character is rendered by no
    branch (the letter "i", NUL, or the last character of a segment that
    ends inside its specifier), the template is appended to the text as it
    is and [i] is not moved. *)
Theorem template_is_returned_as_text (fmt_op : formatter)
    (errors : errors_policy) (print_data : bytes) (c0 : option N)
    (i : Z) (print_fmt : pystr) (c : N)
    (Hscan : scan print_data 0 (lit "%") c0 = Ok (i, print_fmt, Some c))
    (Hc : unrendered c = true) :
  (exists t, print_fmt = ch "%" :: t /\ no_nul t = true)
  /\ decode_segment fmt_op errors print_data c0 = Ok (print_fmt, Some c, i).
Proof.
  now apply decode_segment_unrendered.
Qed.

Lemma template_is_returned_as_text_witness :
  (exists t, lit "%-5i" = ch "%" :: t /\ no_nul t = true)
  /\ decode_segment PyFormat.py_format strict [x2d; x35; x69; x07] None
     = Ok (lit "%-5i", Some (ch "i"), 3).
Proof.
  apply (@template_is_returned_as_text PyFormat.py_format strict
           [x2d; x35; x69; x07] None 3 (lit "%-5i") (ch "i"));
    reflexivity.
Defined.

(** X17: a record whose specifier ends on the letter "i" or on NUL is not
    rendered by [printf_decode]: when no marker follows, the result is the
    template, with the "i" and without the NUL, followed by the decoded
    rest of the input. *)
Theorem printf_decode_unrendered_record (fmt_op : formatter)
    (errors : errors_policy) (spec : list spec_item) (term : byte)
    (rest : bytes)
    (Hspec : forallb spec_ok spec = true)
    (Hterm : term = x69 \/ term = x00)
    (Hrest : forallb (fun b => negb (Byte.eqb b xa5)) rest = true) :
  printf_decode fmt_op (xa5 :: spec_bytes spec ++ term :: rest) errors
  = (t <- decode_ascii errors rest ;;
     let r := (template spec
               ++ (if (chr term =? 0)%N then [] else [chr term])) ++ t in
     Ok (r, py_len r)).
Proof.
  assert (Hset : in_set (chr term) SPECIFIER_CHARS = true)
    by now destruct Hterm as [-> | ->].
  assert (Hun : unrendered (chr term) = true)
    by now destruct Hterm as [-> | ->].
  pose proof (@scan_spec spec term rest Hspec Hset 0 (lit "%") None) as Hscan.
  destruct (@decode_segment_unrendered fmt_op errors _ _ _ _ _ Hscan Hun)
    as [_ Hseg].
  rewrite printf_decode_eq, decode_rest_marker, decode_loop_eq, Hseg.
  cbn [bind Z.add].
  replace (spec_bytes spec ++ term :: rest)
    with ((spec_bytes spec ++ [term]) ++ rest) by now rewrite <- app_assoc.
  replace (py_len (spec_bytes spec) + 1)
    with (py_len (spec_bytes spec ++ [term]))
    by (rewrite py_len_app; reflexivity).
  rewrite slice_app_suffix. unfold decode_rest. cbv zeta.
  rewrite (split_marker_none _ Hrest). cbn [fst snd app].
  change (lit "%" ++ spec_text spec) with (template spec).
  now destruct (decode_ascii errors rest).
Qed.

Lemma printf_decode_unrendered_record_witness :
  printf_decode PyFormat.py_format [xa5; x2d; x35; x69; x07; x41] strict
  = Ok (lit "%-5i" ++ [7; 65]%N, 6).
Proof.
  apply (@printf_decode_unrendered_record PyFormat.py_format strict
           [Plain x2d; Plain x35] x69 [x07; x41]).
  - reflexivity.
  - now left.
  - reflexivity.
Defined.

(** ** The "c" record in [printf_decode] *)

(** X18: [printf_decode] renders a "c" record from the one byte that
    follows the specifier; when no marker follows, the result is the
    template applied to the value of that byte, followed by the decoded
    rest of the input. *)
Theorem printf_decode_c_record (fmt_op : formatter) (errors : errors_policy)
    (spec : list spec_item) (b : byte) (rest : bytes)
    (Hspec : forallb spec_ok spec = true)
    (Hrest : forallb (fun x => negb (Byte.eqb x xa5)) rest = true) :
  printf_decode fmt_op (xa5 :: spec_bytes spec ++ x63 :: b :: rest) errors
  = (u <- sprintf fmt_op (template spec ++ lit "c") (VInt (int_of_byte b)) ;;
     t <- decode_ascii errors rest ;;
     Ok (u ++ t, py_len (u ++ t))).
Proof.
  pose proof (@scan_spec spec x63 (b :: rest) Hspec eq_refl 0 (lit "%") None)
    as Hscan.
  rewrite printf_decode_eq, decode_rest_marker, decode_loop_eq.
  rewrite (@decode_segment_eq fmt_op errors _ _ _ _ _ Hscan).
  change (chr x63 =? 0)%N with false. cbv iota. cbn [Z.add].
  change (lit "%" ++ spec_text spec) with (template spec).
  change [chr x63] with (lit "c").
  unfold render. change (in_VALUE_FORMAT (chr x63)) with false.
  change (in_SPECIAL_CHARS (chr x63)) with false.
  change (in_set (chr x63) FLOAT_VAL_CHARS) with false.
  change (chr x63 =? ch "%")%N with false.
  change (chr x63 =? ch "c")%N with true. cbv iota.
  replace (spec_bytes spec ++ x63 :: b :: rest)
    with ((spec_bytes spec ++ [x63]) ++ b :: rest)
    by now rewrite <- app_assoc.
  replace (py_len (spec_bytes spec) + 1)
    with (py_len (spec_bytes spec ++ [x63]))
    by (rewrite py_len_app; reflexivity).
  rewrite item_app. cbn [bind].
  destruct (sprintf fmt_op _ _) as [u|e]; [|reflexivity]. cbn [bind].
  replace ((spec_bytes spec ++ [x63]) ++ b :: rest)
    with (((spec_bytes spec ++ [x63]) ++ [b]) ++ rest)
    by now rewrite <- !app_assoc.
  replace (py_len (spec_bytes spec ++ [x63]) + 1)
    with (py_len ((spec_bytes spec ++ [x63]) ++ [b]))
    by (rewrite (py_len_app _ [b]); reflexivity).
  rewrite slice_app_suffix. unfold decode_rest. cbv zeta.
  rewrite (split_marker_none _ Hrest). cbn [fst snd app].
  now destruct (decode_ascii errors rest).
Qed.

Lemma printf_decode_c_record_witness :
  printf_decode PyFormat.py_format [xa5; x33; x63; x41; x21] strict
  = (u <- sprintf PyFormat.py_format (lit "%3c") (VInt 65) ;;
     t <- decode_ascii strict [x21] ;;
     Ok (u ++ t, py_len (u ++ t))).
Proof.
  apply (@printf_decode_c_record PyFormat.py_format strict [Plain x33] x41
           [x21]);
    reflexivity.
Defined.

(** ** A marker at the end of the data *)

(** The terminal character that the last record of a stream leaves in the
    variable [c] of [printf_decode]. *)
Fixpoint terminal_after (items : list stream_item) (c : option N)
  : option N :=
  match items with
  | [] => c
  | Text _ :: items => terminal_after items c
  | Value _ term _ :: items => terminal_after items (Some (chr term))
  | Str _ _ :: items => terminal_after items (Some (ch "s"))
  end.

Lemma render_empty_segment (fmt_op : formatter) (errors : errors_policy)
    (term : byte) :
  in_VALUE_FORMAT (chr term) || in_SPECIAL_CHARS (chr term)
  || in_set (chr term) FLOAT_VAL_CHARS = true ->
  render fmt_op errors [] 0 (lit "%") (chr term)
  = Raise (if in_set (chr term) FLOAT_VAL_CHARS then struct_error
           else IndexError).
Proof.
  destruct term; intros H; first [discriminate H|reflexivity].
Qed.

Section TrailingMarker.

Variable fmt_op : formatter.
Variable errors : errors_policy.

Lemma decode_rest_items_then (items : list stream_item) (tail : bytes) :
  forallb item_ok items = true ->
  forall r c,
    decode_rest fmt_op errors (flat_map wire items ++ tail) r c
    = (t <- items_text fmt_op errors items ;;
       decode_rest fmt_op errors tail (r ++ t) (terminal_after items c)).
Proof.
  induction items as [|it items IH];
    cbn [forallb flat_map items_text terminal_after].
  - intros _ r c. cbn [app bind]. now rewrite app_nil_r.
  - intros [Hit Hitems]%andb_prop r c. specialize (IH Hitems).
    rewrite <- app_assoc.
    destruct it as [t|spec term payload|spec payload]; cbn [wire item_text].
    + destruct (text_ok_ascii _ Hit) as [Hascii _].
      rewrite (decode_rest_text _ _ _ _ _ _ Hascii), IH. cbn [bind].
      destruct (items_text fmt_op errors items) as [u|e]; [|reflexivity].
      cbn [bind]. now rewrite app_assoc.
    + cbn [app]. rewrite decode_rest_marker, <- app_assoc. cbn [app].
      rewrite (decode_loop_value fmt_op errors _ _ _ _ _ _ Hit).
      destruct (value_text fmt_op spec term payload) as [t|e]; [|reflexivity].
      cbn [bind]. rewrite IH.
      destruct (items_text fmt_op errors items) as [u|e]; [|reflexivity].
      cbn [bind]. now rewrite app_assoc.
    + cbn [app]. rewrite decode_rest_marker, <- app_assoc. cbn [app].
      rewrite (decode_loop_str fmt_op errors _ _ _ _ _ Hit).
      cbn [item_text].
      destruct (decode_ascii errors payload) as [s|e]; [|reflexivity].
      cbn [bind].
      destruct (sprintf fmt_op _ (VStr s)) as [t|e]; [|reflexivity].
      cbn [bind]. rewrite IH.
      destruct (items_text fmt_op errors items) as [u|e]; [|reflexivity].
      cbn [bind]. now rewrite app_assoc.
Qed.

Lemma terminal_after_cases (items : list stream_item) :
  forallb item_ok items = true ->
  forall c,
    terminal_after items c = c
    \/ terminal_after items c = Some (ch "s")
    \/ exists term,
         terminal_after items c = Some (chr term)
         /\ in_VALUE_FORMAT (chr term) || in_SPECIAL_CHARS (chr term)
            || in_set (chr term) FLOAT_VAL_CHARS = true.
Proof.
  induction items as [|it items IH]; cbn [forallb terminal_after].
  - intros _ c. now left.
  - intros [Hit Hitems]%andb_prop c. specialize (IH Hitems).
    destruct it as [t|spec term payload|spec payload].
    + apply IH.
    + destruct (IH (Some (chr term))) as [H|H]; [|now right].
      right. right. exists term. split; [exact H|].
      cbn [item_ok] in Hit. apply andb_prop in Hit as [_ Hlen].
      unfold payload_len in Hlen.
      destruct (in_VALUE_FORMAT _); [reflexivity|].
      destruct (in_SPECIAL_CHARS _); [reflexivity|].
      now destruct (in_set _ FLOAT_VAL_CHARS).
    + destruct (IH (Some (ch "s"))) as [H|H]; [|now right].
      right. now left.
Qed.

End TrailingMarker.

(** X19: a marker that ends the data opens a record with no byte at all,
    and [printf_decode] dispatches on the variable [c] as the previous
    record left it.  After a stream of complete records: with no record
    before it the variable is unbound ([UnboundLocalError]); after a string
    record the bare template "%" is applied to the empty string; after a
    floating-point record [struct.error] is raised, and after a numeric or
    special-byte record [IndexError]. *)
Theorem trailing_marker_reuses_terminal (fmt_op : formatter)
    (errors : errors_policy) (items : list stream_item)
    (Hitems : forallb item_ok items = true) :
  printf_decode fmt_op (flat_map wire items ++ [xa5]) errors
  = (t <- items_text fmt_op errors items ;;
     match terminal_after items None with
     | None => Raise UnboundLocalError
     | Some c =>
         if (c =? ch "s")%N then
           u <- sprintf fmt_op (lit "%") (VStr []) ;;
           Ok (t ++ u, py_len (t ++ u))
         else if in_set c FLOAT_VAL_CHARS then Raise struct_error
         else Raise IndexError
     end).
Proof.
  rewrite printf_decode_eq, (decode_rest_items_then _ _ _ _ Hitems).
  destruct (items_text fmt_op errors items) as [t|e]; [|reflexivity].
  cbn [bind app]. rewrite decode_rest_marker, decode_loop_eq.
  unfold decode_segment. cbn [scan bind].
  destruct (terminal_after_cases _ Hitems None) as [->|[->|(term & -> & H)]].
  - reflexivity.
  - change (ch "s" =? ch "s")%N with true. cbv iota.
    unfold render. change (in_VALUE_FORMAT (ch "s")) with false.
    change (in_SPECIAL_CHARS (ch "s")) with false.
    change (in_set (ch "s") FLOAT_VAL_CHARS) with false.
    change (ch "s" =? ch "%")%N with false.
    change (ch "s" =? ch "c")%N with false.
    change (ch "s" =? ch "s")%N with true. cbv iota zeta.
    rewrite !slice_of_nil. cbn [find_nul decode_ascii bind].
    destruct (sprintf fmt_op (lit "%") (VStr [])) as [u|e]; [|reflexivity].
    cbn [bind]. rewrite slice_of_nil. unfold decode_rest. cbn.
    now rewrite app_nil_r.
  - rewrite (render_empty_segment fmt_op errors _ H). cbn [bind].
    destruct term; first [discriminate H|reflexivity].
Qed.

Lemma trailing_marker_reuses_terminal_witness :
  printf_decode PyFormat.py_format
    (flat_map wire [Value [] x64 [x2a; x00; x00; x00]; Text [x21]] ++ [xa5])
    strict
  = Raise IndexError.
Proof.
  apply (@trailing_marker_reuses_terminal PyFormat.py_format strict
           [Value [] x64 [x2a; x00; x00; x00]; Text [x21]]).
  reflexivity.
Defined.

(** ** Input that ends inside a value record *)

Lemma slice_app_short {A} (a b : list A) (m : Z) :
  py_len b <= m ->
  slice (a ++ b) (Some (py_len a)) (Some (py_len a + m)) = b.
Proof.
  intros Hm. unfold slice, clamp. rewrite py_len_app. unfold py_len in *.
  destruct (Z.ltb_spec (Z.of_nat (length a)) 0) as [H|_]; [lia|].
  destruct (Z.ltb_spec (Z.of_nat (length a) + m) 0) as [H|_]; [lia|].
  rewrite (Z.min_l (Z.of_nat (length a))) by lia.
  rewrite (Z.min_r (Z.of_nat (length a) + m)) by lia.
  replace (Z.to_nat (_ + _ - _)) with (length b) by lia.
  rewrite Nat2Z.id, skipn_app, skipn_all, Nat.sub_diag. cbn [app skipn].
  apply firstn_all.
Qed.

Lemma item_end {A} (a : list A) : item a (py_len a) = Raise IndexError.
Proof.
  unfold item, py_len.
  destruct (Z.ltb_spec (Z.of_nat (length a)) 0) as [H|_]; [lia|].
  destruct (Z.ltb_spec (Z.of_nat (length a)) 0) as [H|_]; [lia|].
  rewrite Nat2Z.id.
  now rewrite (proj2 (nth_error_None a (length a)) (le_n _)).
Qed.

Lemma unpack_short (fmt : pystr) (data : bytes) (n : Z) :
  calcsize fmt = Ok n -> py_len data <> n ->
  unpack fmt data = Raise struct_error.
Proof.
  intros Hsize Hlen. unfold unpack. rewrite Hsize. cbn [bind].
  destruct (Z.eqb_spec (py_len data) n); [contradiction|reflexivity].
Qed.

(** The template of a value record once its terminal character is read. *)
Definition record_template (spec : list spec_item) (c : N) : pystr :=
  if in_VALUE_FORMAT c then
    match parse_length_chars (template spec) (Some [c]) with
    | Ok (p, _) => p
    | Raise _ => []
    end
  else if in_SPECIAL_CHARS c then
    match (letter <- dict_get N.eqb SPECIAL_CHARS c ;;
           parse_length_chars (template spec) (Some [letter])) with
    | Ok (p, _) => p
    | Raise _ => []
    end
  else template spec ++ [c].

Section Truncated.

Variable fmt_op : formatter.

(** A capture that the input does not complete. *)
Lemma feed_partial (payload : bytes) : forall self r,
  state self = CAP_VALUE ->
  py_len (data_buffer self ++ payload) < val_len self ->
  feed fmt_op self payload r
  = (set_data_buffer (data_buffer self ++ payload) self, Ok r).
Proof.
  induction payload as [|b payload IH]; intros self r Hstate Hlen;
    cbn [feed].
  - rewrite app_nil_r. now destruct self.
  - unfold step. rewrite Hstate. cbv zeta.
    unfold set_data_buffer at 1 2 3. cbn [data_buffer val_len].
    destruct (Z.eqb_spec (py_len (data_buffer self ++ [b])) (val_len self))
      as [Heq|_].
    + exfalso. revert Heq Hlen. rewrite !py_len_app. unfold py_len.
      cbn [length]. lia.
    + rewrite IH.
      * unfold set_data_buffer.
        cbn [errors print_fmt data_buffer val_len val_fmt state len].
        now rewrite app_nil_r, <- app_assoc.
      * exact Hstate.
      * unfold set_data_buffer. cbn [val_len data_buffer].
        now rewrite <- app_assoc.
Qed.

Lemma decode_truncated (errors0 : errors_policy) (spec : list spec_item)
    (term : byte) (payload : bytes) (n : Z) :
  forallb spec_ok spec = true ->
  payload_len spec (chr term) = Some n ->
  py_len payload < n ->
  snd (decode fmt_op (init errors0)
         (xa5 :: spec_bytes spec ++ term :: payload) true)
  = (t <- decode_ascii errors0 payload ;;
     Ok (record_template spec (chr term) ++ t)).
Proof.
  intros Hspec Hn Hshort. unfold decode. cbn [feed].
  rewrite step_marker by reflexivity.
  rewrite feed_spec; [|exact Hspec|reflexivity].
  unfold set_print_fmt.
  cbn [errors print_fmt data_buffer val_len val_fmt state len init feed app].
  change (lit "%" ++ spec_text spec) with (template spec).
  unfold payload_len in Hn. unfold record_template.
  assert (Hfinal : forall p fmt,
             snd (match feed fmt_op
                          (mk errors0 p [] n fmt CAP_VALUE None) payload []
                  with
                  | (self, Ok r) =>
                      if true && negb (phase_eqb (state self) FIND_FMT_START)
                      then match decode_ascii (errors self) (data_buffer self)
                           with
                           | Ok t => (reset self, Ok ((r ++ print_fmt self) ++ t))
                           | Raise e => (self, Raise e)
                           end
                      else (self, Ok r)
                  | (self, Raise e) => (self, Raise e)
                  end)
             = (t <- decode_ascii errors0 payload ;; Ok (p ++ t))).
  { intros p fmt. rewrite feed_partial; [|reflexivity|exact Hshort].
    unfold set_data_buffer.
    cbn [errors print_fmt data_buffer val_len val_fmt state len app].
    change (phase_eqb CAP_VALUE FIND_FMT_START) with false. cbn [andb negb].
    now destruct (decode_ascii errors0 payload). }
  destruct (in_VALUE_FORMAT (chr term)) eqn:Hv.
  - destruct (parse_length_chars_template (spec_text spec)
                (Some [chr term])) as (p & lc & Hparse).
    fold (template spec) in Hparse. rewrite Hparse.
    destruct (@numeric_layout _ _ _ _ Hv Hparse)
      as (fmt & n' & Hfmt & Hsize & Hn' & _).
    assert (n' = n) as -> by congruence.
    erewrite step_numeric;
      [|reflexivity|exact Hv|exact Hparse|exact Hfmt|exact Hsize].
    cbn [errors print_fmt data_buffer val_len val_fmt state len app].
    apply Hfinal.
  - destruct (in_SPECIAL_CHARS (chr term)) eqn:Hsp.
    + injection Hn as <-.
      destruct (dict_get_in _ _ _ Hsp) as [letter Hletter].
      rewrite Hletter. cbn [bind].
      destruct (parse_length_chars_template (spec_text spec)
                  (Some [letter])) as (p & lc & Hparse).
      fold (template spec) in Hparse. rewrite Hparse.
      erewrite step_special;
        [|reflexivity|exact Hv|exact Hsp|exact Hletter|exact Hparse].
      cbn [errors print_fmt data_buffer val_len val_fmt state len app].
      apply Hfinal.
    + destruct (in_set (chr term) FLOAT_VAL_CHARS) eqn:Hf; [|discriminate].
      injection Hn as <-.
      rewrite step_float; [|reflexivity|exact Hv|exact Hsp|exact Hf].
      cbn [errors print_fmt data_buffer val_len val_fmt state len app].
      apply Hfinal.
Qed.

Lemma printf_decode_truncated (errors0 : errors_policy)
    (spec : list spec_item) (term : byte) (payload : bytes) (n : Z) :
  forallb spec_ok spec = true ->
  payload_len spec (chr term) = Some n ->
  py_len payload < n ->
  printf_decode fmt_op (xa5 :: spec_bytes spec ++ term :: payload) errors0
  = Raise (if in_VALUE_FORMAT (chr term)
              || in_set (chr term) FLOAT_VAL_CHARS
           then struct_error else IndexError).
Proof.
  intros Hspec Hn Hshort.
  destruct (payload_len_term _ _ Hn) as [Hterm Hnul].
  pose proof (@scan_spec spec term payload Hspec Hterm 0 (lit "%") None)
    as Hscan.
  rewrite printf_decode_eq, decode_rest_marker, decode_loop_eq.
  rewrite (@decode_segment_eq fmt_op errors0 _ _ _ _ _ Hscan).
  rewrite Hnul. cbn [Z.add].
  replace (spec_bytes spec ++ term :: payload)
    with ((spec_bytes spec ++ [term]) ++ payload)
    by now rewrite <- app_assoc.
  replace (py_len (spec_bytes spec) + 1)
    with (py_len (spec_bytes spec ++ [term]))
    by (rewrite py_len_app; reflexivity).
  change (lit "%" ++ spec_text spec) with (template spec).
  unfold render. rewrite slice_drop_last. unfold payload_len in Hn.
  destruct (in_VALUE_FORMAT (chr term)) eqn:Hv; cbn [orb].
  - destruct (parse_length_chars_template (spec_text spec)
                (Some [chr term])) as (p & lc & Hparse).
    fold (template spec) in Hparse. rewrite Hparse. cbn [bind].
    destruct (@numeric_layout _ _ _ _ Hv Hparse)
      as (fmt & n' & -> & Hsize & Hn' & _).
    assert (n' = n) as -> by congruence.
    cbn [bind]. rewrite Hsize. cbn [bind].
    rewrite slice_app_short by lia.
    rewrite (unpack_short _ _ Hsize) by lia. reflexivity.
  - destruct (in_SPECIAL_CHARS (chr term)) eqn:Hsp.
    + injection Hn as <-.
      assert (payload = []) as ->
        by (destruct payload; [reflexivity|];
            unfold py_len in Hshort; cbn [length] in Hshort; lia).
      destruct (dict_get_in _ _ _ Hsp) as [letter ->]. cbn [bind].
      destruct (parse_length_chars_template (spec_text spec)
                  (Some [letter])) as (p & lc & Hparse).
      fold (template spec) in Hparse. rewrite Hparse. cbn [bind].
      rewrite app_nil_r, item_end. cbn [bind].
      now destruct (in_set (chr term) FLOAT_VAL_CHARS) eqn:Hf;
        [destruct term; discriminate|].
    + destruct (in_set (chr term) FLOAT_VAL_CHARS) eqn:Hf; [|discriminate].
      injection Hn as <-. rewrite slice_app_short by lia.
      rewrite (@unpack_short (lit "<f") payload 4 eq_refl) by lia.
      reflexivity.
Qed.

End Truncated.

(** X20: when the input ends inside the argument bytes of a value record,
    [printf_decode] raises ([struct.error] for a numeric or floating-point
    record, [IndexError] for a special-byte record), while the incremental
    decoder's final call raises nothing of the kind: it returns the
    template of the record followed by the argument bytes decoded as
    text. *)
Theorem truncated_value_record (fmt_op : formatter) (errors : errors_policy)
    (spec : list spec_item) (term : byte) (payload : bytes) (n : Z)
    (Hspec : forallb spec_ok spec = true)
    (Hn : payload_len spec (chr term) = Some n)
    (Hshort : py_len payload < n) :
  printf_decode fmt_op (xa5 :: spec_bytes spec ++ term :: payload) errors
  = Raise (if in_VALUE_FORMAT (chr term)
              || in_set (chr term) FLOAT_VAL_CHARS
           then struct_error else IndexError)
  /\ snd (decode fmt_op (init errors)
            (xa5 :: spec_bytes spec ++ term :: payload) true)
     = (t <- decode_ascii errors payload ;;
        Ok (record_template spec (chr term) ++ t)).
Proof.
  split.
  - now apply printf_decode_truncated with (n := n).
  - now apply decode_truncated with (n := n).
Qed.

Lemma truncated_value_record_witness :
  printf_decode PyFormat.py_format [xa5; x6c; x75; x41] strict
  = Raise struct_error
  /\ snd (decode PyFormat.py_format (init strict) [xa5; x6c; x75; x41] true)
     = Ok (lit "%uA").
Proof.
  apply (@truncated_value_record PyFormat.py_format strict
           [Plain x6c] x75 [x41] 4);
    reflexivity.
Defined.

(** ** The attribute [len] is never read *)

Definition forget_len (self : decoder) : decoder := set_len None self.

Section ForgetLen.

Variable fmt_op : formatter.

Lemma step_forget_len (self : decoder) (l : option Z) (val : byte) :
  forget_len (fst (step fmt_op (set_len l self) val))
  = forget_len (fst (step fmt_op self val))
  /\ snd (step fmt_op (set_len l self) val) = snd (step fmt_op self val).
Proof.
  destruct self as [e pf buf vl vf st l0].
  unfold step, forget_len, set_len.
  cbn [errors print_fmt data_buffer val_len val_fmt state len].
  destruct st; cbv zeta;
    unfold set_print_fmt, set_data_buffer, set_val_len, set_val_fmt,
      set_state, set_len, reset;
    cbn [errors print_fmt data_buffer val_len val_fmt state len];
    repeat match goal with
           | |- context [if ?b then _ else _] => destruct b
           | |- context [match ?m with Ok _ => _ | Raise _ => _ end] =>
               destruct m as [[? ?]|?]
           | |- context [match ?m with Ok _ => _ | Raise _ => _ end] =>
               destruct m as [?|?]
           end;
    cbn [fst snd errors print_fmt data_buffer val_len val_fmt state len];
    split; reflexivity.
Qed.

Lemma forget_len_eq (a b : decoder) :
  forget_len a = forget_len b -> a = set_len (len a) b.
Proof.
  destruct a, b. unfold forget_len, set_len. cbn. now intros [= -> -> -> -> -> ->].
Qed.

Lemma feed_forget_len (input : bytes) : forall a b r,
  forget_len a = forget_len b ->
  forget_len (fst (feed fmt_op a input r))
  = forget_len (fst (feed fmt_op b input r))
  /\ snd (feed fmt_op a input r) = snd (feed fmt_op b input r).
Proof.
  induction input as [|val input IH]; intros a b r Hab; cbn [feed].
  - now split.
  - rewrite (@forget_len_eq a b Hab).
    destruct (@step_forget_len b (len a) val) as [Hfst Hsnd].
    destruct (step fmt_op (set_len (len a) b) val) as [a1 ra].
    destruct (step fmt_op b val) as [b1 rb].
    cbn [fst snd] in Hfst, Hsnd. subst rb.
    destruct ra as [t|e]; [now apply IH|now split].
Qed.

Lemma decode_forget_len (a b : decoder) (input : bytes) (final : bool) :
  forget_len a = forget_len b ->
  forget_len (fst (decode fmt_op a input final))
  = forget_len (fst (decode fmt_op b input final))
  /\ snd (decode fmt_op a input final) = snd (decode fmt_op b input final).
Proof.
  intros Hab. unfold decode.
  destruct (@feed_forget_len input a b [] Hab) as [Hfst Hsnd].
  destruct (feed fmt_op a input []) as [a1 ra].
  destruct (feed fmt_op b input []) as [b1 rb].
  cbn [fst snd] in Hfst, Hsnd. subst rb.
  destruct ra as [r|e]; [|now split].
  rewrite (@forget_len_eq a1 b1 Hfst).
  destruct b1 as [e pf buf vl vf st l0]. unfold set_len, reset, forget_len.
  cbn [errors print_fmt data_buffer val_len val_fmt state len].
  destruct (final && negb (phase_eqb st FIND_FMT_START)); [|now split].
  destruct (decode_ascii e buf); now split.
Qed.

End ForgetLen.

(** X21: [reset] gives back a fresh decoder.  The one attribute it leaves
    as it was, [len], is never read: after [reset] a call of [decode]
    returns or raises what it does on a decoder just created with the same
    error policy, and leaves the same attributes but [len]. *)
Theorem reset_is_fresh (fmt_op : formatter) (self : decoder) (input : bytes)
    (final : bool) :
  snd (decode fmt_op (reset self) input final)
  = snd (decode fmt_op (init (errors self)) input final)
  /\ forget_len (fst (decode fmt_op (reset self) input final))
     = forget_len (fst (decode fmt_op (init (errors self)) input final)).
Proof.
  destruct (@decode_forget_len fmt_op (reset self) (init (errors self))
              input final eq_refl) as [Hfst Hsnd].
  now split.
Qed.

(** ** The percent record in [printf_decode] *)

(** X22: in [printf_decode] a specifier that ends on "%" yields the one
    character "%", whatever flags, width or wildcards precede it, and the
    record ends there: when no marker follows, the rest of the input is
    decoded as literal text. *)
Theorem printf_decode_percent_record (fmt_op : formatter)
    (errors : errors_policy) (spec : list spec_item) (rest : bytes)
    (Hspec : forallb spec_ok spec = true)
    (Hrest : forallb (fun x => negb (Byte.eqb x xa5)) rest = true) :
  printf_decode fmt_op (xa5 :: spec_bytes spec ++ x25 :: rest) errors
  = (t <- decode_ascii errors rest ;;
     Ok (lit "%" ++ t, py_len (lit "%" ++ t))).
Proof.
  pose proof (@scan_spec spec x25 rest Hspec eq_refl 0 (lit "%") None)
    as Hscan.
  rewrite printf_decode_eq, decode_rest_marker, decode_loop_eq.
  rewrite (@decode_segment_eq fmt_op errors _ _ _ _ _ Hscan).
  unfold render. change (in_VALUE_FORMAT (chr x25)) with false.
  change (in_SPECIAL_CHARS (chr x25)) with false.
  change (in_set (chr x25) FLOAT_VAL_CHARS) with false.
  change (chr x25 =? ch "%")%N with true. cbv iota. cbn [bind Z.add].
  replace (spec_bytes spec ++ x25 :: rest)
    with ((spec_bytes spec ++ [x25]) ++ rest)
    by now rewrite <- app_assoc.
  replace (py_len (spec_bytes spec) + 1)
    with (py_len (spec_bytes spec ++ [x25]))
    by (rewrite py_len_app; reflexivity).
  rewrite slice_app_suffix. unfold decode_rest. cbv zeta.
  rewrite (split_marker_none _ Hrest). cbn [fst snd].
  now destruct (decode_ascii errors rest).
Qed.

Lemma printf_decode_percent_record_witness :
  printf_decode PyFormat.py_format [xa5; x2d; x2a; x07; x25; x21] strict
  = Ok (lit "%!", 2).
Proof.
  apply (@printf_decode_percent_record PyFormat.py_format strict
           [Plain x2d; Wild x07] [x21]);
    reflexivity.
Defined.
